(** * Reservation lifecycle of reservas-inacap: a shallow embedding

    The development follows [api/models.py], [api/forms.py] and
    [api/views.py].  Database tables are lists of rows, a view is a
    function from the database and a request to a new database and a
    response, and model methods return the mutated instance next to the
    database they wrote to. *)

From Stdlib Require Import ZArith String Ascii Lia.
From stdpp Require Import base decidable option list strings relations.

Local Open Scope Z_scope.
Local Open Scope string_scope.
Local Open Scope list_scope.

Set Warnings "-clear-no-such-hyp".

(** ** Python strings

    A [str] is a [string] whose characters are read as the code points
    U+0000..U+00FF.  The operations below follow CPython on that range. *)
Module PyStr.

(** [str.isspace] for one code point below U+0100. *)
Definition isspace (c : ascii) : bool :=
  let n := N_of_ascii c in
  ((9 <=? n) && (n <=? 13) || (28 <=? n) && (n <=? 32)
   || (n =? 133) || (n =? 160))%N.

(** [str.lower] for one code point below U+0100: A-Z and the Latin-1
    capitals U+00C0..U+00DE, the multiplication sign U+00D7 apart. *)
Definition lower_char (c : ascii) : ascii :=
  let n := N_of_ascii c in
  if ((65 <=? n) && (n <=? 90)
      || (192 <=? n) && (n <=? 222) && negb (n =? 215))%N
  then ascii_of_N (n + 32) else c.

Fixpoint map_chars (f : ascii -> ascii) (s : string) : string :=
  match s with
  | EmptyString => EmptyString
  | String c s' => String (f c) (map_chars f s')
  end.

Definition lower (s : string) : string := map_chars lower_char s.

(** [s.replace(a, b)] for one-character [a] and [b]. *)
Definition replace_char (a b : ascii) (s : string) : string :=
  map_chars (fun c => if Ascii.eqb c a then b else c) s.

Fixpoint lstrip_by (p : ascii -> bool) (s : string) : string :=
  match s with
  | EmptyString => EmptyString
  | String c s' => if p c then lstrip_by p s' else s
  end.

Fixpoint rstrip_by (p : ascii -> bool) (s : string) : string :=
  match s with
  | EmptyString => EmptyString
  | String c s' =>
      match rstrip_by p s' with
      | EmptyString => if p c then EmptyString else String c EmptyString
      | r => String c r
      end
  end.

Definition strip_by (p : ascii -> bool) (s : string) : string :=
  rstrip_by p (lstrip_by p s).

(** [s.strip()] *)
Definition strip (s : string) : string := strip_by isspace s.

Fixpoint mem_char (c : ascii) (chars : string) : bool :=
  match chars with
  | EmptyString => false
  | String d chars' => Ascii.eqb c d || mem_char c chars'
  end.

(** [s.strip(chars)] *)
Definition strip_chars (chars : string) (s : string) : string :=
  strip_by (fun c => mem_char c chars) s.

(** [s.split(sep)] for a one-character separator: always at least one
    part. *)
Fixpoint split (sep : ascii) (s : string) : list string :=
  match s with
  | EmptyString => [EmptyString]
  | String c s' =>
      if Ascii.eqb c sep then EmptyString :: split sep s'
      else match split sep s' with
           | p :: ps => String c p :: ps
           | [] => [String c EmptyString]
           end
  end.

(** [s.split(sep, 1)[1]]: the text after the first separator; [None]
    stands for the [IndexError] raised when there is no separator. *)
Fixpoint split1_snd (sep : ascii) (s : string) : option string :=
  match s with
  | EmptyString => None
  | String c s' => if Ascii.eqb c sep then Some s' else split1_snd sep s'
  end.

(** [sep.join(parts)] *)
Definition join (sep : string) (parts : list string) : string :=
  String.concat sep parts.

(** [s.startswith(p)] *)
Fixpoint startswith (s p : string) : bool :=
  match p, s with
  | EmptyString, _ => true
  | String _ _, EmptyString => false
  | String a p', String b s' => Ascii.eqb a b && startswith s' p'
  end.

(** Truth value of a [str]: non-empty. *)
Definition truthy (s : string) : bool :=
  match s with EmptyString => false | _ => true end.

(** [s[:n]] *)
Fixpoint take (n : nat) (s : string) : string :=
  match n, s with
  | S n', String c s' => String c (take n' s')
  | _, _ => EmptyString
  end.

(** [a < b] and [a <= b] on [str]: lexicographic by code point. *)
Fixpoint ltb (a b : string) : bool :=
  match a, b with
  | _, EmptyString => false
  | EmptyString, String _ _ => true
  | String x a', String y b' =>
      if (N_of_ascii x <? N_of_ascii y)%N then true
      else if (N_of_ascii x =? N_of_ascii y)%N then ltb a' b'
      else false
  end.

Definition leb (a b : string) : bool := negb (ltb b a).

End PyStr.

(** ** Settings ([drf/settings.py]) *)

Record Settings := {
  MIN_CANCEL_WINDOW_HOURS : Z;
  SLOT_INTERVAL_MIN : Z;
  SLOT_DAY_START : string;
  SLOT_DAY_END : string;
  CLEANING_GROUP_NAME : string
}.

Definition default_settings : Settings :=
  {| MIN_CANCEL_WINDOW_HOURS := 2;
     SLOT_INTERVAL_MIN := 30;
     SLOT_DAY_START := "08:30";
     SLOT_DAY_END := "22:00";
     CLEANING_GROUP_NAME := "Aseo" |}.

(** ** Data model ([api/models.py]) *)

(** A [datetime] is an instant counted in microseconds, the resolution
    of Python's [datetime]; a [timedelta] is a difference of two. *)
Definition datetime := Z.

Definition usec_per_second : Z := 1000000.
Definition usec_per_minute : Z := 60 * usec_per_second.
Definition usec_per_day : Z := 1440 * usec_per_minute.

Inductive Status := PENDING | APPROVED | REJECTED | CANCELED.

#[global] Instance Status_eq_dec : EqDecision Status.
Proof. solve_decision. Defined.

Inductive Decision := APPR | REJ.

#[global] Instance Decision_eq_dec : EqDecision Decision.
Proof. solve_decision. Defined.

Record User := {
  user_id : Z;
  username : string;
  is_staff : bool;
  groups : list string
}.

Record Reservation := {
  pk : option Z;
  user : Z;
  space : Z;
  start : datetime;
  end_ : datetime;
  purpose : string;
  attendees_count : Z;
  status : Status;
  created_at : datetime;
  cancel_reason : string
}.

Record Approval := {
  reservation : Z;
  approver : Z;
  decision : Decision;
  notes : string;
  decided_at : datetime
}.

(** The text of a notification, kept as the template and the values
    formatted into it. *)
Inductive NotifText :=
| TxtYouCanceled (r : Reservation)
| TxtCanceledByUser (r : Reservation)
| TxtCleaningStandDown (r : Reservation) (reason : string)
| TxtApproved (r : Reservation) (notes : string)
| TxtCleaningPrepare (r : Reservation) (notes : string)
| TxtRejected (r : Reservation) (notes : string)
| TxtNewPending (resources : list string) (resources_notes : string).

Record Notification := {
  notif_user : Z;
  message : NotifText
}.

Record Resource := {
  resource_id : Z;
  resource_name : string
}.

(** The relational store: one list of rows per table; a profile row is
    the key of its user. *)
Record DB := {
  Reservation_objects : list Reservation;
  Approval_objects : list Approval;
  Notification_objects : list Notification;
  User_objects : list User;
  Group_objects : list string;
  Space_objects : list Z;
  Resource_objects : list Resource;
  Profile_objects : list Z
}.

Definition set_reservations (rows : list Reservation) (db : DB) : DB :=
  {| Reservation_objects := rows;
     Approval_objects := Approval_objects db;
     Notification_objects := Notification_objects db;
     User_objects := User_objects db;
     Group_objects := Group_objects db;
     Space_objects := Space_objects db;
     Resource_objects := Resource_objects db;
     Profile_objects := Profile_objects db |}.

Definition set_approvals (rows : list Approval) (db : DB) : DB :=
  {| Reservation_objects := Reservation_objects db;
     Approval_objects := rows;
     Notification_objects := Notification_objects db;
     User_objects := User_objects db;
     Group_objects := Group_objects db;
     Space_objects := Space_objects db;
     Resource_objects := Resource_objects db;
     Profile_objects := Profile_objects db |}.

(** [Notification.objects.create(user=u, message=m)] *)
Definition Notification_create (u : Z) (m : NotifText) (db : DB) : DB :=
  {| Reservation_objects := Reservation_objects db;
     Approval_objects := Approval_objects db;
     Notification_objects :=
       Notification_objects db ++ [{| notif_user := u; message := m |}];
     User_objects := User_objects db;
     Group_objects := Group_objects db;
     Space_objects := Space_objects db;
     Resource_objects := Resource_objects db;
     Profile_objects := Profile_objects db |}.

Definition set_status (s : Status) (r : Reservation) : Reservation :=
  {| pk := pk r; user := user r; space := space r; start := start r;
     end_ := end_ r; purpose := purpose r;
     attendees_count := attendees_count r; status := s;
     created_at := created_at r; cancel_reason := cancel_reason r |}.

Definition set_purpose (p : string) (r : Reservation) : Reservation :=
  {| pk := pk r; user := user r; space := space r; start := start r;
     end_ := end_ r; purpose := p;
     attendees_count := attendees_count r; status := status r;
     created_at := created_at r; cancel_reason := cancel_reason r |}.

Definition set_cancel_reason (c : string) (r : Reservation) : Reservation :=
  {| pk := pk r; user := user r; space := space r; start := start r;
     end_ := end_ r; purpose := purpose r;
     attendees_count := attendees_count r; status := status r;
     created_at := created_at r; cancel_reason := c |}.

Definition set_pk (k : option Z) (r : Reservation) : Reservation :=
  {| pk := k; user := user r; space := space r; start := start r;
     end_ := end_ r; purpose := purpose r;
     attendees_count := attendees_count r; status := status r;
     created_at := created_at r; cancel_reason := cancel_reason r |}.

(** *** Query sets over the reservation table *)

(** [qs.exclude(pk=k)]: with [k = None] the condition is [id IS NULL],
    which no stored row meets, so nothing is excluded. *)
Definition exclude_pk (k : option Z) (qs : list Reservation)
  : list Reservation :=
  match k with
  | None => qs
  | Some _ => filter (fun r => pk r <> k) qs
  end.

(** [qs.filter(start__lt=e, end__gt=s)] *)
Definition filter_range (s e : datetime) (qs : list Reservation)
  : list Reservation :=
  filter (fun r => start r < e /\ end_ r > s) qs.

(** [qs.exists()] *)
Definition exists_ {A} (qs : list A) : bool :=
  match qs with [] => false | _ => true end.

(** [Reservation.overlaps] *)
Definition overlaps (db : DB) (self : Reservation) : list Reservation :=
  filter (fun r => space r = space self
                   /\ status r ∈ [PENDING; APPROVED]
                   /\ start r < end_ self /\ end_ r > start self)
         (exclude_pk (pk self) (Reservation_objects db)).

(** [Reservation.can_cancel].  [total_seconds()] is the difference in
    microseconds divided by 10^6 and rounded to a float; the comparison
    is written here on the microseconds, before the division.  The two
    agree when the window is short enough for the floats below it to
    lie less than two microseconds apart: see [window_is_exact]. *)
Definition can_cancel (cfg : Settings) (self : Reservation) (now : datetime)
  : bool :=
  if bool_decide (status self ∈ [REJECTED; CANCELED]) then false
  else if bool_decide (start self <= now) then false
  else if bool_decide (status self = APPROVED) then
    let window_h := MIN_CANCEL_WINDOW_HOURS cfg in
    bool_decide (start self - now >= window_h * 3600 * usec_per_second)
  else true.

(** The windows for which [can_cancel] above is the comparison of the
    code: below 2^34 seconds (some 544 years) a float one microsecond
    short of the window does not round up to it. *)
Definition window_is_exact (cfg : Settings) : Prop :=
  MIN_CANCEL_WINDOW_HOURS cfg * 3600 < 2 ^ 34.

(** [self.save()]: an UPDATE of the row with the instance's primary key
    when there is one, an INSERT otherwise; a fresh key is one above the
    largest in the table, and [created_at] is [auto_now_add]. *)
Definition next_pk (rows : list Reservation) : Z :=
  1 + foldr Z.max 0 (omap pk rows).

Definition Reservation_insert (now : datetime) (k : Z) (r : Reservation)
  : Reservation :=
  {| pk := Some k; user := user r; space := space r; start := start r;
     end_ := end_ r; purpose := purpose r;
     attendees_count := attendees_count r; status := status r;
     created_at := now; cancel_reason := cancel_reason r |}.

Definition Reservation_save (now : datetime) (self : Reservation) (db : DB)
  : Reservation * DB :=
  let rows := Reservation_objects db in
  match pk self with
  | Some k =>
      if exists_ (filter (fun x => pk x = Some k) rows)
      then (self,
            set_reservations
              (map (fun x => if bool_decide (pk x = Some k) then self else x)
                   rows) db)
      else let r := Reservation_insert now k self in
           (r, set_reservations (rows ++ [r]) db)
  | None =>
      let r := Reservation_insert now (next_pk rows) self in
      (r, set_reservations (rows ++ [r]) db)
  end.

(** [for u in users: Notification.objects.create(user=u, message=m)] *)
Definition notify_each (us : list User) (m : NotifText) (db : DB) : DB :=
  foldl (fun d u => Notification_create (user_id u) m d) db us.

(** The trace appended to [purpose] by a user cancellation. *)
Definition cancel_marker : string := " [Cancelada por usuario]".

(** [reason or ""] for an argument that may be [None]. *)
Definition or_empty (reason : option string) : string :=
  match reason with
  | Some s => s
  | None => ""
  end.

(** [Reservation.cancel_by_user]: the instance after the call and the
    database after its writes. *)
Definition cancel_by_user (now : datetime) (self : Reservation)
    (reason : option string) (db : DB) : Reservation * DB :=
  if bool_decide (status self = CANCELED) then (self, db)
  else
    let note := PyStr.strip (or_empty reason) in
    let self := set_cancel_reason note self in
    let self :=
      if PyStr.truthy note then
        let extra := cancel_marker in
        set_purpose (if PyStr.truthy (purpose self)
                     then purpose self +:+ extra else extra) self
      else self in
    let self := set_status CANCELED self in
    let '(self, db) := Reservation_save now self db in
    let db := Notification_create (user self) (TxtYouCanceled self) db in
    let db :=
      notify_each (filter (fun u => is_staff u = true) (User_objects db))
                  (TxtCanceledByUser self) db in
    (self, db).

(** ** Views ([api/views.py]) *)

Inductive Method := GET | POST.

#[global] Instance Method_eq_dec : EqDecision Method.
Proof. solve_decision. Defined.

Inductive Response :=
| HttpResponseNotAllowed
| Http404
| RedirectToLogin
| ServerError
| Redirect (name : string)
| Render (template : string).

Inductive Level := INFO | SUCCESS | WARNING | ERROR.

Record Result := {
  db_after : DB;
  response : Response;
  flash : list Level
}.

Definition respond (db : DB) (resp : Response) (msgs : list Level) : Result :=
  {| db_after := db; response := resp; flash := msgs |}.

(** [_notify_group]: nothing happens when the group does not exist. *)
Definition _notify_group (group_name : string) (m : NotifText) (db : DB)
  : DB :=
  if bool_decide (group_name ∈ Group_objects db) then
    notify_each (filter (fun u => group_name ∈ groups u) (User_objects db))
                m db
  else db.

Definition notify_cleaning_staff (cfg : Settings) (m : NotifText) (db : DB)
  : DB :=
  _notify_group (CLEANING_GROUP_NAME cfg) m db.

(** [_notify_user]; the user of a stored reservation is never null. *)
Definition _notify_user (u : Z) (m : NotifText) (db : DB) : DB :=
  Notification_create u m db.

(** [get_object_or_404(Reservation, pk=k)] *)
Definition get_reservation (db : DB) (k : Z) : option Reservation :=
  head (filter (fun r => pk r = Some k) (Reservation_objects db)).

(** [get_object_or_404(Reservation, pk=k, user=u)] *)
Definition get_reservation_of (db : DB) (k u : Z) : option Reservation :=
  head (filter (fun r => pk r = Some k /\ user r = u)
               (Reservation_objects db)).

Record CancelRequest := {
  cancel_method : Method;
  cancel_user : option User;
  cancel_POST_reason : option string
}.

(** [cancel_reservation] *)
Definition cancel_reservation (cfg : Settings) (now : datetime) (db : DB)
    (request : CancelRequest) (k : Z) : Result :=
  match cancel_user request with
  | None => respond db RedirectToLogin []
  | Some u =>
      if bool_decide (cancel_method request <> POST)
      then respond db HttpResponseNotAllowed []
      else
        match get_reservation_of db k (user_id u) with
        | None => respond db Http404 []
        | Some reservation =>
            if negb (can_cancel cfg reservation now)
            then respond db (Redirect "history") [ERROR]
            else
              let reason :=
                PyStr.take 255
                  (PyStr.strip (or_empty (cancel_POST_reason request))) in
              let '(reservation, db) :=
                cancel_by_user now reservation (Some reason) db in
              let db :=
                notify_cleaning_staff cfg
                  (TxtCleaningStandDown reservation reason) db in
              respond db (Redirect "history") [SUCCESS]
        end
  end.

(** *** The decision form ([ApprovalForm]) *)

Fixpoint has_nul (s : string) : bool :=
  match s with
  | EmptyString => false
  | String c s' => (N_of_ascii c =? 0)%N || has_nul s'
  end.

(** Errors of a form, by field name; ["__all__"] holds the errors raised
    by [clean] itself. *)
Definition Errors := list string.

Record ApprovalPost := {
  post_decision : option string;
  post_notes : option string
}.

Record ApprovalCleaned := {
  cleaned_decision : option Decision;
  cleaned_notes : option string
}.

(** The field pass of Django's form: [decision] is a required choice
    among "APPR" and "REJ"; [notes] is an optional text, stripped, in
    which a NUL character is an error. *)
Definition ApprovalForm_fields (p : ApprovalPost) : ApprovalCleaned * Errors :=
  let '(d, e1) :=
    if bool_decide (post_decision p = Some "APPR") then (Some APPR, [])
    else if bool_decide (post_decision p = Some "REJ") then (Some REJ, [])
    else (None, ["decision"]) in
  let '(n, e2) :=
    let raw := PyStr.strip (or_empty (post_notes p)) in
    if has_nul raw then (None, ["notes"]) else (Some raw, []) in
  ({| cleaned_decision := d; cleaned_notes := n |}, e1 ++ e2).

(** [ApprovalForm.clean] *)
Definition ApprovalForm_clean (p : ApprovalPost) : ApprovalCleaned * Errors :=
  let '(cleaned_data, errors) := ApprovalForm_fields p in
  let decision := cleaned_decision cleaned_data in
  let notes := cleaned_notes cleaned_data in
  if bool_decide (decision = Some REJ)
     && negb (PyStr.truthy (or_empty notes))
  then (cleaned_data, errors ++ ["notes"])
  else (cleaned_data, errors).

Definition is_valid (errors : Errors) : bool :=
  match errors with [] => true | _ => false end.

(** [Approval.objects.update_or_create(reservation=r, defaults=...)];
    [None] stands for [MultipleObjectsReturned].  [decided_at] is
    [auto_now_add]: set when the row is created, kept on update. *)
Definition decided (rk who : Z) (d : Decision) (n : string) (a : Approval)
  : Approval :=
  if bool_decide (reservation a = rk)
  then {| reservation := rk; approver := who; decision := d; notes := n;
          decided_at := decided_at a |}
  else a.

Definition Approval_update_or_create (now : datetime) (rk : Z)
    (who : Z) (d : Decision) (n : string) (rows : list Approval)
  : option (list Approval) :=
  match filter (fun a => reservation a = rk) rows with
  | [] =>
      Some (rows ++ [{| reservation := rk; approver := who; decision := d;
                        notes := n; decided_at := now |}])
  | [_] => Some (map (decided rk who d n) rows)
  | _ => None
  end.

Record DecisionRequest := {
  decide_method : Method;
  decide_user : option User;
  decide_POST : ApprovalPost
}.

(** The button values "approve" and "reject" are rewritten to the
    choices of the form; anything else goes to the form as it is. *)
Definition map_decision (p : ApprovalPost) : ApprovalPost :=
  if bool_decide (post_decision p = Some "approve") then
    {| post_decision := Some "APPR"; post_notes := post_notes p |}
  else if bool_decide (post_decision p = Some "reject") then
    {| post_decision := Some "REJ"; post_notes := post_notes p |}
  else p.

(** The conflict test of [approve_or_reject]: APPROVED rows of the same
    space, the reservation itself apart, in the half-open range. *)
Definition approval_conflict (db : DB) (reservation : Reservation) : bool :=
  exists_
    (filter_range (start reservation) (end_ reservation)
       (exclude_pk (pk reservation)
          (filter (fun r => space r = space reservation
                            /\ status r = APPROVED)
                  (Reservation_objects db)))).

(** [approve_or_reject] *)
Definition approve_or_reject (cfg : Settings) (now : datetime) (db : DB)
    (request : DecisionRequest) (k : Z) : Result :=
  match decide_user request with
  | None => respond db RedirectToLogin []
  | Some u =>
      if negb (is_staff u) then respond db RedirectToLogin []
      else
        match get_reservation db k with
        | None => respond db Http404 []
        | Some reservation =>
            if bool_decide (decide_method request = POST) then
              let post_data := map_decision (decide_POST request) in
              let '(cleaned_data, errors) := ApprovalForm_clean post_data in
              match is_valid errors, cleaned_decision cleaned_data with
              | true, Some decision =>
                  let notes := or_empty (cleaned_notes cleaned_data) in
                  if bool_decide (decision = APPR)
                     && approval_conflict db reservation
                  then respond db (Render "approvals/decision_form.html")
                               [ERROR]
                  else
                    match Approval_update_or_create now k (user_id u)
                            decision notes (Approval_objects db) with
                    | None => respond db ServerError []
                    | Some rows =>
                        let db := set_approvals rows db in
                        match decision with
                        | APPR =>
                            let reservation := set_status APPROVED reservation in
                            let db :=
                              _notify_user (user reservation)
                                (TxtApproved reservation notes) db in
                            let db :=
                              notify_cleaning_staff cfg
                                (TxtCleaningPrepare reservation notes) db in
                            let '(_, db) := Reservation_save now reservation db in
                            respond db (Redirect "approvals_pending") [SUCCESS]
                        | REJ =>
                            let reservation := set_status REJECTED reservation in
                            let db :=
                              _notify_user (user reservation)
                                (TxtRejected reservation notes) db in
                            let '(_, db) := Reservation_save now reservation db in
                            respond db (Redirect "approvals_pending") [WARNING]
                        end
                    end
              | _, _ =>
                  respond db (Render "approvals/decision_form.html") [ERROR]
              end
            else respond db (Render "approvals/decision_form.html") []
        end
  end.

(** ** The time-slot grid ([api/forms.py]) *)

(** [int(text)] on an unsigned decimal numeral; [None] stands for
    [ValueError].  (Python also takes a sign, blanks around the numeral
    and underscores between digits, which "HH:MM" labels do not have.) *)
Definition digit_of (c : ascii) : option Z :=
  let n := N_of_ascii c in
  if ((48 <=? n) && (n <=? 57))%N then Some (Z.of_N n - 48) else None.

Fixpoint int_digits (acc : Z) (s : string) : option Z :=
  match s with
  | EmptyString => Some acc
  | String c s' =>
      match digit_of c with
      | Some d => int_digits (10 * acc + d) s'
      | None => None
      end
  end.

Definition int_ (s : string) : option Z :=
  match s with
  | EmptyString => None
  | _ => int_digits 0 s
  end.

Record time := { hour : Z; minute : Z }.

(** [datetime.time(h, m)] checks the ranges. *)
Definition time_ (h m : Z) : option time :=
  if bool_decide (0 <= h < 24 /\ 0 <= m < 60)
  then Some {| hour := h; minute := m |} else None.

(** [_parse_hhmm]: exactly two parts around one colon. *)
Definition _parse_hhmm (hhmm : string) : option time :=
  match PyStr.split ":" hhmm with
  | [hh; mm] =>
      match int_ hh, int_ mm with
      | Some h, Some m => time_ h m
      | _, _ => None
      end
  | _ => None
  end.

(** [datetime(y, m, d, hh, mm)] for the day numbered [day]. *)
Definition naive_datetime (day h m : Z) : datetime :=
  day * usec_per_day + (h * 60 + m) * usec_per_minute.

(** Day number of 2000-01-01, the dummy date of the grid. *)
Definition day_2000_01_01 : Z := 10957.

Definition digit_char (d : Z) : ascii := ascii_of_N (Z.to_N (48 + d)).

Definition fmt2 (n : Z) : string :=
  String (digit_char (n / 10)) (String (digit_char (n mod 10)) EmptyString).

(** [dt.strftime("%H:%M")] *)
Definition strftime_HM (dt : datetime) : string :=
  let minutes := dt / usec_per_minute in
  fmt2 ((minutes / 60) mod 24) +:+ ":" +:+ fmt2 (minutes mod 60).

Inductive Outcome (A : Type) :=
| Returned (a : A)
| Raised
| OutOfFuel.
Arguments Returned {A} a.
Arguments Raised {A}.
Arguments OutOfFuel {A}.

(** The range of [datetime]: from 0001-01-01 00:00 to the last
    microsecond of 9999-12-31, as day numbers -719162 and 2932896. *)
Definition datetime_min : datetime := -719162 * usec_per_day.
Definition datetime_max : datetime := 2932897 * usec_per_day - 1.

(** [timedelta(minutes=n)]; [None] stands for the [OverflowError] of a
    difference of more than 999999999 days. *)
Definition timedelta_minutes (n : Z) : option Z :=
  if bool_decide (-999999999 <= n / 1440 <= 999999999)
  then Some (n * usec_per_minute) else None.

(** [dt + td]; [None] stands for the [OverflowError] of a result outside
    the range of [datetime]. *)
Definition datetime_add (dt : datetime) (td : Z) : option datetime :=
  if bool_decide (datetime_min <= dt + td <= datetime_max)
  then Some (dt + td) else None.

(** The [while cur <= end_dt] loop, one unit of fuel per test. *)
Fixpoint slots_loop (fuel : nat) (cur end_dt step : Z)
  : Outcome (list string) :=
  match fuel with
  | O => OutOfFuel
  | S fuel' =>
      if bool_decide (cur <= end_dt) then
        match datetime_add cur step with
        | Some next =>
            match slots_loop fuel' next end_dt step with
            | Returned out => Returned (strftime_HM cur :: out)
            | other => other
            end
        | None => Raised
        end
      else Returned []
  end.

(** [build_day_slots] *)
Definition build_day_slots (cfg : Settings) (fuel : nat)
  : Outcome (list string) :=
  let interval := SLOT_INTERVAL_MIN cfg in
  match _parse_hhmm (SLOT_DAY_START cfg), _parse_hhmm (SLOT_DAY_END cfg) with
  | Some t0, Some t1 =>
      let dummy := naive_datetime day_2000_01_01 (hour t0) (minute t0) in
      let end_dt := naive_datetime day_2000_01_01 (hour t1) (minute t1) in
      match timedelta_minutes interval with
      | Some step => slots_loop fuel dummy end_dt step
      | None => Raised
      end
  | _, _ => Raised
  end.

(** The longest interval, in minutes, that every instant of the dummy
    day can take without leaving the range of [datetime]: the 2921939
    days from 2000-01-01 to 9999-12-31. *)
Definition longest_interval : Z := 2921939 * 1440.

(** [make_aware_if_naive]: the current time zone is taken to be a fixed
    offset, folded into the clock, so local and absolute instants share
    one axis.  The daylight-saving shifts of the configured zone, and
    the conversion to UTC of the last hours of the year 9999, are not
    part of this model. *)
Definition make_aware_if_naive (dt : datetime) : datetime := dt.

(** ** The reservation form ([ReservationForm]) *)

Record ReservationPost := {
  post_space : option Z;
  post_date : option Z;
  post_start_slot : option string;
  post_end_slot : option string;
  post_attendees_count : option Z;
  post_purpose : option string;
  post_resources : list Z;
  post_resources_notes : option string
}.

Record ReservationCleaned := {
  cleaned_space : option Z;
  cleaned_date : option Z;
  cleaned_start_slot : option string;
  cleaned_end_slot : option string;
  cleaned_attendees_count : option Z;
  cleaned_purpose : option string;
  _start_dt : option datetime;
  _end_dt : option datetime
}.

Definition field {A} (name : string) (ok : A -> bool) (raw : option A)
  : option A * Errors :=
  match raw with
  | Some v => if ok v then (Some v, []) else (None, [name])
  | None => (None, [name])
  end.

(** The field pass of Django's form: every field but [purpose] is
    required; [space] names a stored space, the slots are among the
    choices, the head count is not negative (the upper bound that the
    database backend puts on the column is not modelled), [purpose] is
    stripped and at most 250 characters long. *)
Definition ReservationForm_fields (db : DB) (choices : list string)
    (p : ReservationPost) : ReservationCleaned * Errors :=
  let '(sp, e1) :=
    field "space" (fun k => bool_decide (k ∈ Space_objects db))
          (post_space p) in
  let '(d, e2) := field "date" (fun _ => true) (post_date p) in
  let '(s0, e3) :=
    field "start_slot"
          (fun s => PyStr.truthy s && bool_decide (s ∈ choices))
          (post_start_slot p) in
  let '(s1, e4) :=
    field "end_slot"
          (fun s => PyStr.truthy s && bool_decide (s ∈ choices))
          (post_end_slot p) in
  let '(n, e5) :=
    field "attendees_count" (fun n => bool_decide (0 <= n))
          (post_attendees_count p) in
  let '(pu, e6) :=
    field "purpose"
          (fun s => negb (has_nul s)
                    && bool_decide (String.length s <= 250)%nat)
          (Some (PyStr.strip (or_empty (post_purpose p)))) in
  ({| cleaned_space := sp; cleaned_date := d; cleaned_start_slot := s0;
      cleaned_end_slot := s1; cleaned_attendees_count := n;
      cleaned_purpose := pu; _start_dt := None; _end_dt := None |},
   e1 ++ e2 ++ e3 ++ e4 ++ e5 ++ e6).

Definition set_dts (s e : datetime) (c : ReservationCleaned)
  : ReservationCleaned :=
  {| cleaned_space := cleaned_space c; cleaned_date := cleaned_date c;
     cleaned_start_slot := cleaned_start_slot c;
     cleaned_end_slot := cleaned_end_slot c;
     cleaned_attendees_count := cleaned_attendees_count c;
     cleaned_purpose := cleaned_purpose c;
     _start_dt := Some s; _end_dt := Some e |}.

(** [sh, sm = map(int, label.split(":"))] followed by
    [datetime(..., sh, sm)], which checks the ranges. *)
Definition label_time (label : string) : option time :=
  match PyStr.split ":" label with
  | [a; b] =>
      match int_ a, int_ b with
      | Some h, Some m => time_ h m
      | _, _ => None
      end
  | _ => None
  end.

(** Truth value of [instance.pk]. *)
Definition truthy_pk (k : option Z) : bool :=
  match k with
  | Some z => negb (z =? 0)%Z
  | None => false
  end.

(** The conflict query of [ReservationForm.clean]. *)
Definition form_conflict (db : DB) (instance_pk : option Z) (sp : Z)
    (start_dt end_dt : datetime) : bool :=
  let conflict_qs :=
    filter (fun r => space r = sp
                     /\ status r ∈ [PENDING; APPROVED]
                     /\ start r < end_dt /\ end_ r > start_dt)
           (Reservation_objects db) in
  let conflict_qs :=
    if truthy_pk instance_pk then exclude_pk instance_pk conflict_qs
    else conflict_qs in
  exists_ conflict_qs.

(** [ReservationForm.clean]: the cleaned data and the errors of the
    form; [Raised] when a slot label does not parse. *)
Definition ReservationForm_clean (now : datetime) (db : DB)
    (choices : list string) (instance_pk : option Z) (p : ReservationPost)
  : Outcome (ReservationCleaned * Errors) :=
  let '(cleaned, errors) := ReservationForm_fields db choices p in
  match cleaned_date cleaned, cleaned_start_slot cleaned,
        cleaned_end_slot cleaned with
  | Some date, Some start_slot, Some end_slot =>
      if negb (PyStr.truthy start_slot) || negb (PyStr.truthy end_slot)
      then Returned (cleaned, errors)
      else
      let slots := choices in
      if bool_decide (start_slot ∉ slots) || bool_decide (end_slot ∉ slots)
      then Returned (cleaned, errors ++ ["__all__"])
      else if PyStr.leb end_slot start_slot
      then Returned (cleaned, errors ++ ["__all__"])
      else
        match label_time start_slot, label_time end_slot with
        | Some s, Some e =>
            let start_dt :=
              make_aware_if_naive
                (naive_datetime date (hour s) (minute s)) in
            let end_dt :=
              make_aware_if_naive
                (naive_datetime date (hour e) (minute e)) in
            let cleaned := set_dts start_dt end_dt cleaned in
            if negb (bool_decide (end_dt > start_dt))
            then Returned (cleaned, errors ++ ["__all__"])
            else
              let errors :=
                if bool_decide (start_dt < now)
                then errors ++ ["date"] else errors in
              match cleaned_space cleaned with
              | Some sp =>
                  if form_conflict db instance_pk sp start_dt end_dt
                  then Returned (cleaned, errors ++ ["__all__"])
                  else Returned (cleaned, errors)
              | None => Returned (cleaned, errors)
              end
        | _, _ => Raised
        end
  | _, _, _ => Returned (cleaned, errors)
  end.

(** *** The suggested slots ([ReservationForm.__init__]) *)

(** [l[i]] for a Python index, negative ones counting from the end;
    [None] stands for [IndexError]. *)
Definition py_index {A} (l : list A) (i : Z) : option A :=
  if bool_decide (0 <= i) then l !! Z.to_nat i
  else if bool_decide (0 <= Z.of_nat (length l) + i)
       then l !! Z.to_nat (Z.of_nat (length l) + i)
       else None.

(** The loop [for i, s in enumerate(slots): if s >= now_hm: next_idx = i;
    break], from index [i]; [None] when the loop ends without a break. *)
Fixpoint first_not_before (now_hm : string) (i : Z) (slots : list string)
  : option Z :=
  match slots with
  | [] => None
  | s :: rest =>
      if PyStr.leb now_hm s then Some i
      else first_not_before now_hm (i + 1) rest
  end.

(** The initial values of [start_slot] and [end_slot]. *)
Definition initial_slots (slots : list string) (now_hm : string)
  : option (string * string) :=
  let next_idx := default 0 (first_not_before now_hm 0 slots) in
  let len := Z.of_nat (length slots) in
  match (if bool_decide (next_idx < len) then py_index slots next_idx
         else py_index slots (-1)),
        py_index slots (Z.min (next_idx + 1) (len - 1)) with
  | Some a, Some b => Some (a, b)
  | _, _ => None
  end.

(** The trace of the requested resources that
    [ReservationCreateView.form_valid] packs into [purpose]. *)
Definition compose_purpose (purpose : string) (resources : list string)
    (resources_notes : string) : string :=
  if negb (exists_ resources) && negb (PyStr.truthy resources_notes)
  then purpose
  else
    let partes :=
      (if exists_ resources
       then ["Recursos solicitados: " +:+ PyStr.join ", " resources]
       else [])
      ++ (if PyStr.truthy resources_notes
          then ["Detalle recursos: " +:+ resources_notes] else []) in
    let extra := PyStr.join " | " partes in
    if PyStr.truthy purpose
    then PyStr.strip_chars " |" (purpose +:+ " | " +:+ extra)
    else extra.

Record CreateRequest := {
  create_method : Method;
  create_user : option User;
  create_POST : ReservationPost
}.

(** [ReservationCreateView]: the form is built over the grid, which
    picks its initial slots for the "HH:MM" of the clock and raises
    [IndexError] when there is none to pick; on a POST the form is then
    validated, and saved by [form_valid]. *)
Definition ReservationCreateView_post (cfg : Settings) (fuel : nat)
    (now : datetime) (db : DB)
    (request : CreateRequest) : Outcome Result :=
  match create_user request with
  | None => Returned (respond db RedirectToLogin [])
  | Some u =>
      match build_day_slots cfg fuel with
      | Returned slots =>
          match initial_slots slots (strftime_HM now) with
          | None => Raised
          | Some _ =>
          if bool_decide (create_method request = POST) then
            let p := create_POST request in
            match ReservationForm_clean now db slots None p with
            | Returned (cleaned, errors) =>
                match is_valid errors, cleaned_space cleaned,
                      cleaned_attendees_count cleaned,
                      _start_dt cleaned, _end_dt cleaned with
                | true, Some sp, Some n, Some start_dt, Some end_dt =>
                    let resources :=
                      map resource_name
                          (filter (fun r => resource_id r ∈ post_resources p)
                                  (Resource_objects db)) in
                    let resources_notes :=
                      PyStr.strip (or_empty (post_resources_notes p)) in
                    let instance :=
                      {| pk := None; user := user_id u; space := sp;
                         start := start_dt; end_ := end_dt;
                         purpose :=
                           compose_purpose
                             (or_empty (cleaned_purpose cleaned))
                             resources resources_notes;
                         attendees_count := n; status := PENDING;
                         created_at := now; cancel_reason := "" |} in
                    let db :=
                      notify_each
                        (filter (fun a => is_staff a = true
                                          /\ user_id a ∈ Profile_objects db)
                                (User_objects db))
                        (TxtNewPending resources resources_notes) db in
                    let '(_, db) := Reservation_save now instance db in
                    Returned (respond db (Redirect "dashboard_user") [INFO])
                | _, _, _, _, _ =>
                    Returned (respond db (Render "reservations/form.html") [])
                end
            | Raised => Raised
            | OutOfFuel => OutOfFuel
            end
          else Returned (respond db (Render "reservations/form.html") [])
          end
      | Raised => Raised
      | OutOfFuel => OutOfFuel
      end
  end.

(** ** The CSV export ([export_reservations_csv]) *)

Definition prefix_recursos : string := "recursos solicitados:".
Definition prefix_detalle : string := "detalle recursos:".

(** One turn of the loop of [split_purpose] over the accumulators
    [(base_parts, recursos, detalle)]; [None] stands for the
    [IndexError] of [part.split(":", 1)[1]]. *)
Definition split_step (acc : option (list string * string * string))
    (part : string) : option (list string * string * string) :=
  match acc with
  | None => None
  | Some (base_parts, recursos, detalle) =>
      let low := PyStr.lower part in
      if PyStr.startswith low prefix_recursos then
        match PyStr.split1_snd ":" part with
        | Some v => Some (base_parts, PyStr.strip v, detalle)
        | None => None
        end
      else if PyStr.startswith low prefix_detalle then
        match PyStr.split1_snd ":" part with
        | Some v => Some (base_parts, recursos, PyStr.strip v)
        | None => None
        end
      else Some (base_parts ++ [part], recursos, detalle)
  end.

(** [split_purpose]: [(motivo_base, recursos, detalle)]. *)
Definition split_purpose (purpose_raw : string)
  : option (string * string * string) :=
  if negb (PyStr.truthy purpose_raw) then Some ("", "", "")
  else
    match foldl split_step (Some ([], "", ""))
                (map PyStr.strip (PyStr.split "|" purpose_raw)) with
    | Some (base_parts, recursos, detalle) =>
        Some (PyStr.strip_chars " |" (PyStr.join " | " base_parts),
              recursos, detalle)
    | None => None
    end.

(** [.replace("\r", " ").replace("\n", " ").strip()] *)
Definition clean_cell (s : string) : string :=
  PyStr.strip
    (PyStr.replace_char (ascii_of_N 10) " "
       (PyStr.replace_char (ascii_of_N 13) " " s)).

Record PurposeCells := {
  main_purpose : string;
  resources_str : string;
  details_str : string
}.

(** The cells "Motivo de solicitud", "Recursos solicitados" and
    "Detalle recursos" of the row written for one reservation. *)
Definition export_cells (r : Reservation) : option PurposeCells :=
  match split_purpose (purpose r) with
  | Some (motivo_base, recursos_txt, recursos_detalle) =>
      Some {| main_purpose := clean_cell motivo_base;
              resources_str := clean_cell recursos_txt;
              details_str := clean_cell recursos_detalle |}
  | None => None
  end.

(** ** Properties stated about the store *)

(** The rows of the approval table that belong to reservation [rk]. *)
Definition approvals_of (rk : Z) (rows : list Approval) : list Approval :=
  filter (fun a => reservation a = rk) rows.

(** At most one approval row per reservation. *)
Definition one_approval_each (db : DB) : Prop :=
  forall rk, (length (approvals_of rk (Approval_objects db)) <= 1)%nat.

(** [x] is an active reservation of space [sp] whose interval meets
    [[s, e)]. *)
Definition active_overlap (sp : Z) (s e : datetime) (x : Reservation)
  : Prop :=
  space x = sp /\ status x ∈ [PENDING; APPROVED]
  /\ start x < e /\ end_ x > s.

(** The status a decision leads to. *)
Definition status_of_decision (d : Decision) : Status :=
  match d with
  | APPR => APPROVED
  | REJ => REJECTED
  end.

(** One request served by one of the three views that write to the
    reservation and approval tables. *)
Inductive serves (cfg : Settings) : DB -> DB -> Prop :=
| serves_create fuel now db request res :
    ReservationCreateView_post cfg fuel now db request = Returned res ->
    serves cfg db (db_after res)
| serves_cancel now db request k :
    serves cfg db (db_after (cancel_reservation cfg now db request k))
| serves_decide now db request k :
    serves cfg db (db_after (approve_or_reject cfg now db request k)).

(** *** The grid in closed form *)

(** The label of minute [m] of the day. *)
Definition label_of_minute (m : Z) : string :=
  fmt2 (m / 60) +:+ ":" +:+ fmt2 (m mod 60).

Definition minute_of (t : time) : Z := hour t * 60 + minute t.

(** The labels [m0, m0 + step, ...] not beyond [m1]. *)
Definition grid (m0 m1 step : Z) : list string :=
  map (fun i => label_of_minute (m0 + Z.of_nat i * step))
      (seq 0 (Z.to_nat ((m1 - m0) / step + 1))).

(** The number of turns of the loop from [cur]. *)
Definition turns (cur end_dt step : Z) : nat :=
  if bool_decide (cur <= end_dt)
  then Z.to_nat ((end_dt - cur) / step + 1) else 0%nat.

(** *** The purpose text in closed form *)

Definition is_recursos (part : string) : bool :=
  PyStr.startswith (PyStr.lower part) prefix_recursos.

Definition is_detalle (part : string) : bool :=
  negb (is_recursos part)
  && PyStr.startswith (PyStr.lower part) prefix_detalle.

(** The stripped text after the first colon of the last of [parts],
    [d] when there is none. *)
Definition last_value_or (d : string) (parts : list string) : string :=
  match last parts with
  | Some part => PyStr.strip (default "" (PyStr.split1_snd ":" part))
  | None => d
  end.

Definition last_value (parts : list string) : string :=
  last_value_or "" parts.

(** The three results of [split_purpose], read off the list of parts. *)
Definition routed (parts : list string) : string * string * string :=
  (PyStr.strip_chars " |"
     (PyStr.join " | "
        (filter (fun p => is_recursos p = false /\ is_detalle p = false)
                parts)),
   last_value (filter (fun p => is_recursos p = true) parts),
   last_value (filter (fun p => is_detalle p = true) parts)).

(** ** A sample store: the space "Auditorio" with one approved and one
    pending reservation, an owner, an administrator and the cleaning
    group. *)
Module Sample.

Definition hour_us : Z := 3600 * usec_per_second.

Definition owner : User :=
  {| user_id := 1; username := "ana"; is_staff := false; groups := [] |}.
Definition admin : User :=
  {| user_id := 2; username := "admin"; is_staff := true; groups := [] |}.
Definition cleaner : User :=
  {| user_id := 3; username := "aseo1"; is_staff := false;
     groups := ["Aseo"] |}.

(** Day 19732 is 2024-01-10. *)
Definition day : Z := 19732.

Definition approved_10_11 : Reservation :=
  {| pk := Some 1; user := 1; space := 7;
     start := naive_datetime day 10 0; end_ := naive_datetime day 11 0;
     purpose := "Charla"; attendees_count := 20; status := APPROVED;
     created_at := 0; cancel_reason := "" |}.

Definition pending_1030_1130 : Reservation :=
  {| pk := Some 2; user := 1; space := 7;
     start := naive_datetime day 10 30; end_ := naive_datetime day 11 30;
     purpose := ""; attendees_count := 5; status := PENDING;
     created_at := 0; cancel_reason := "" |}.

Definition pending_11_12 : Reservation :=
  {| pk := Some 3; user := 1; space := 7;
     start := naive_datetime day 11 0; end_ := naive_datetime day 12 0;
     purpose := "Ensayo"; attendees_count := 5; status := PENDING;
     created_at := 0; cancel_reason := "" |}.

Definition db : DB :=
  {| Reservation_objects :=
       [approved_10_11; pending_1030_1130; pending_11_12];
     Approval_objects :=
       [{| reservation := 1; approver := 2; decision := APPR;
           notes := ""; decided_at := 0 |}];
     Notification_objects := [];
     User_objects := [owner; admin; cleaner];
     Group_objects := ["Aseo"];
     Space_objects := [7];
     Resource_objects :=
       [{| resource_id := 1; resource_name := "Proyector" |}];
     Profile_objects := [2] |}.

(** A clock reading on the evening before. *)
Definition now : datetime := naive_datetime (day - 1) 20 0.

Definition decide (d n : string) : DecisionRequest :=
  {| decide_method := POST; decide_user := Some admin;
     decide_POST := {| post_decision := Some d; post_notes := Some n |} |}.

Definition cancel (reason : string) : CancelRequest :=
  {| cancel_method := POST; cancel_user := Some owner;
     cancel_POST_reason := Some reason |}.

Definition create (s e : string) : CreateRequest :=
  {| create_method := POST; create_user := Some owner;
     create_POST :=
       {| post_space := Some 7; post_date := Some day;
          post_start_slot := Some s; post_end_slot := Some e;
          post_attendees_count := Some 10; post_purpose := Some "";
          post_resources := [1]; post_resources_notes := Some "HDMI" |} |}.

(** The grid settings with a step of one hour. *)
Definition hourly : Settings :=
  {| MIN_CANCEL_WINDOW_HOURS := 2; SLOT_INTERVAL_MIN := 60;
     SLOT_DAY_START := "08:30"; SLOT_DAY_END := "22:00";
     CLEANING_GROUP_NAME := "Aseo" |}.

End Sample.

(** ** Further properties stated about the store *)

(** Rows with different keys, of one space, whose statuses are both in
    [statuses], do not overlap. *)
Definition disjoint_in (statuses : list Status) (db : DB) : Prop :=
  forall x y,
    x ∈ Reservation_objects db -> y ∈ Reservation_objects db ->
    pk x <> pk y -> space x = space y ->
    status x ∈ statuses -> status y ∈ statuses ->
    ~ (start x < end_ y /\ end_ x > start y).

(** Every stored reservation has a key, and no two share one. *)
Definition unique_pks (db : DB) : Prop :=
  NoDup (map pk (Reservation_objects db))
  /\ None ∉ map pk (Reservation_objects db).

(** The fields of a reservation that no view writes after creation. *)
Definition same_booking (r r' : Reservation) : Prop :=
  pk r' = pk r /\ user r' = user r /\ space r' = space r
  /\ start r' = start r /\ end_ r' = end_ r
  /\ attendees_count r' = attendees_count r
  /\ created_at r' = created_at r.

(** The row update of [save()] for key [k]. *)
Definition stored_as (k : Z) (q : Reservation) (rows : list Reservation)
  : list Reservation :=
  map (fun x => if bool_decide (pk x = Some k) then q else x) rows.

(** One notification with text [m] for each of [us], in order. *)
Definition notices (us : list User) (m : NotifText) : list Notification :=
  map (fun u => {| notif_user := user_id u; message := m |}) us.

(** The members of the cleaning group, none when the group does not
    exist. *)
Definition cleaning_staff (cfg : Settings) (db : DB) : list User :=
  if bool_decide (CLEANING_GROUP_NAME cfg ∈ Group_objects db)
  then filter (fun u => CLEANING_GROUP_NAME cfg ∈ groups u) (User_objects db)
  else [].

(** ** Texts that survive the packing into [purpose] *)

(** A text that is not empty, has no blank at either end and holds no
    bar: what a stripped form or admin field holds when no bar is
    typed. *)
Definition clean (s : string) : Prop :=
  s <> "" /\ PyStr.strip s = s /\ PyStr.mem_char "|" s = false.

(** * Proofs *)

(** ** Query sets *)

Lemma exists_true {A} (qs : list A) : exists_ qs = true <-> exists x, x ∈ qs.
Proof.
  destruct qs as [|a qs]; simpl; split.
  - discriminate.
  - intros [x Hx]. inversion Hx.
  - intros _. exists a. left.
  - reflexivity.
Qed.

Lemma exists_false {A} (qs : list A) : exists_ qs = false <-> qs = [].
Proof. destruct qs; simpl; split; congruence. Qed.

Lemma elem_of_exclude_pk k qs r :
  r ∈ exclude_pk k qs <-> r ∈ qs /\ (k <> None -> pk r <> k).
Proof.
  unfold exclude_pk. destruct k as [z|].
  - rewrite list_elem_of_filter. naive_solver.
  - naive_solver.
Qed.

Lemma elem_of_overlaps db self r :
  r ∈ overlaps db self <->
  r ∈ Reservation_objects db /\ (pk self <> None -> pk r <> pk self)
  /\ active_overlap (space self) (start self) (end_ self) r.
Proof.
  unfold overlaps, active_overlap.
  rewrite list_elem_of_filter, elem_of_exclude_pk. naive_solver.
Qed.

Lemma form_conflict_true db k sp s e :
  form_conflict db k sp s e = true <->
  exists x, x ∈ Reservation_objects db
            /\ (truthy_pk k = true -> pk x <> k)
            /\ active_overlap sp s e x.
Proof.
  unfold form_conflict, active_overlap. rewrite exists_true.
  destruct (truthy_pk k) eqn:Hk.
  - split.
    + intros [x Hx]. exists x.
      rewrite elem_of_exclude_pk, list_elem_of_filter in Hx.
      destruct k; [|discriminate]. naive_solver.
    + intros [x Hx]. exists x.
      rewrite elem_of_exclude_pk, list_elem_of_filter. naive_solver.
  - split.
    + intros [x Hx]. exists x. rewrite list_elem_of_filter in Hx.
      naive_solver.
    + intros [x Hx]. exists x. rewrite list_elem_of_filter. naive_solver.
Qed.

(** C1: a stored row is in [overlaps] exactly when it is another row of
    the same space, PENDING or APPROVED, with [start < self.end] and
    [end > self.start]; a row that ends where [self] starts, or starts
    where [self] ends, is never in it; the query of the form's [clean]
    is the same test, and for an instance whose key is not 0 it finds a
    row exactly when [overlaps] does. *)
Theorem overlap_is_half_open (db : DB) (self r : Reservation) :
  (r ∈ overlaps db self <->
     r ∈ Reservation_objects db
     /\ (pk self <> None -> pk r <> pk self)
     /\ space r = space self
     /\ status r ∈ [PENDING; APPROVED]
     /\ start r < end_ self /\ end_ r > start self)
  /\ (end_ r = start self \/ end_ self = start r -> r ∉ overlaps db self)
  /\ (forall k sp s e,
        form_conflict db k sp s e = true <->
        exists x, x ∈ Reservation_objects db
                  /\ (truthy_pk k = true -> pk x <> k)
                  /\ space x = sp
                  /\ status x ∈ [PENDING; APPROVED]
                  /\ start x < e /\ end_ x > s)
  /\ (pk self <> Some 0 ->
      (form_conflict db (pk self) (space self) (start self) (end_ self)
       = true <-> exists x, x ∈ overlaps db self)).
Proof.
  split; [apply elem_of_overlaps|].
  split.
  { intros Hb Hin. apply elem_of_overlaps in Hin.
    destruct Hin as (_ & _ & _ & _ & H1 & H2). lia. }
  split; [intros; apply form_conflict_true|].
  intros H0. rewrite form_conflict_true.
  assert (Hk : truthy_pk (pk self) = true <-> pk self <> None).
  { destruct (pk self) as [z|]; simpl.
    - destruct (Z.eqb_spec z 0); [congruence|]. naive_solver.
    - naive_solver. }
  split; intros [x Hx]; exists x.
  - apply elem_of_overlaps. naive_solver.
  - apply elem_of_overlaps in Hx. naive_solver.
Qed.

(** ** The suggested slots of the form *)

Lemma py_index_nat {A} (l : list A) (n : nat) :
  py_index l (Z.of_nat n) = l !! n.
Proof.
  unfold py_index. rewrite bool_decide_eq_true_2 by lia.
  rewrite Nat2Z.id. done.
Qed.

Lemma first_not_before_some now i slots j :
  first_not_before now i slots = Some j ->
  exists (n : nat) s,
    j = i + Z.of_nat n /\ slots !! n = Some s /\ PyStr.leb now s = true
    /\ forall n' s', (n' < n)%nat -> slots !! n' = Some s' ->
                     PyStr.leb now s' = false.
Proof.
  revert i. induction slots as [|s slots IH]; intros i; [done|].
  cbn [first_not_before]. destruct (PyStr.leb now s) eqn:E.
  - intros [= <-]. exists 0%nat, s. split; [lia|].
    split; [done|]. split; [done|]. intros n' s' Hn. lia.
  - intros H. destruct (IH _ H) as (n & s1 & -> & Hl & Hs & Hbefore).
    exists (S n), s1. split; [lia|]. split; [done|]. split; [done|].
    intros [|n'] s' Hn Hl'.
    + cbn in Hl'. congruence.
    + apply (Hbefore n'); [lia|done].
Qed.

Lemma first_not_before_none now i slots :
  first_not_before now i slots = None ->
  forall s, s ∈ slots -> PyStr.leb now s = false.
Proof.
  revert i. induction slots as [|s slots IH]; intros i H x Hx;
    [inversion Hx|].
  cbn [first_not_before] in H. destruct (PyStr.leb now s) eqn:E; [done|].
  apply elem_of_cons in Hx as [->|Hx]; [done|]. apply (IH _ H). done.
Qed.

Lemma initial_slots_at slots now (n : nat) a :
  slots !! n = Some a ->
  default 0 (first_not_before now 0 slots) = Z.of_nat n ->
  initial_slots slots now = Some (a, default a (slots !! S n)).
Proof.
  intros Ha Hidx. unfold initial_slots. rewrite Hidx.
  pose proof (lookup_lt_Some _ _ _ Ha) as Hlt.
  rewrite bool_decide_eq_true_2 by lia.
  rewrite py_index_nat, Ha.
  destruct (decide (S n < length slots)%nat) as [Hn|Hn].
  - replace (Z.min (Z.of_nat n + 1) (Z.of_nat (length slots) - 1))
      with (Z.of_nat (S n)) by lia.
    rewrite py_index_nat.
    destruct (lookup_lt_is_Some_2 slots (S n) Hn) as [b ->]. done.
  - replace (Z.min (Z.of_nat n + 1) (Z.of_nat (length slots) - 1))
      with (Z.of_nat n) by lia.
    rewrite py_index_nat, Ha.
    rewrite (lookup_ge_None_2 slots (S n)) by lia. done.
Qed.

(** Only an empty grid leaves nothing to suggest. *)
Lemma initial_slots_cons s0 slots now :
  is_Some (initial_slots (s0 :: slots) now).
Proof.
  destruct (first_not_before now 0 (s0 :: slots)) as [j|] eqn:E.
  - destruct (first_not_before_some _ _ _ _ E) as (n & s & -> & Hl & _).
    rewrite (initial_slots_at _ now n s Hl) by (rewrite E; cbn; lia). eauto.
  - rewrite (initial_slots_at (s0 :: slots) now 0 s0) by (rewrite ?E; done).
    eauto.
Qed.

(** ** Cancellation *)

(** C3: [can_cancel] is false for a REJECTED or CANCELED reservation
    and false once [start <= now]; for an APPROVED one it is true
    exactly when it has not started and [start - now] is at least
    MIN_CANCEL_WINDOW_HOURS hours (for a positive window the second
    condition alone decides), the window being one the float of
    [total_seconds()] resolves to the microsecond, as the default is;
    for a PENDING one that has not started it is true.  With the
    default window of 2 hours an APPROVED reservation starting in 1
    hour cannot be canceled and one starting in 3 hours can. *)
Theorem can_cancel_rules (cfg : Settings) (r : Reservation) (now : datetime) :
  let window := MIN_CANCEL_WINDOW_HOURS cfg * 3600 * usec_per_second in
  (status r ∈ [REJECTED; CANCELED] -> can_cancel cfg r now = false)
  /\ (start r <= now -> can_cancel cfg r now = false)
  /\ (window_is_exact cfg -> status r = APPROVED ->
      (can_cancel cfg r now = true <->
       start r > now /\ start r - now >= window))
  /\ (window_is_exact cfg -> status r = APPROVED ->
      0 < MIN_CANCEL_WINDOW_HOURS cfg ->
      (can_cancel cfg r now = true <-> start r - now >= window))
  /\ (status r = PENDING -> start r > now -> can_cancel cfg r now = true)
  /\ window_is_exact default_settings
  /\ (status r = APPROVED ->
      start r = now + 1 * 3600 * usec_per_second ->
      can_cancel default_settings r now = false)
  /\ (status r = APPROVED ->
      start r = now + 3 * 3600 * usec_per_second ->
      can_cancel default_settings r now = true).
Proof.
  assert (Hne1 : APPROVED ∉ [REJECTED; CANCELED])
    by (rewrite !not_elem_of_cons, elem_of_nil; naive_solver).
  assert (Hne2 : PENDING ∉ [REJECTED; CANCELED])
    by (rewrite !not_elem_of_cons, elem_of_nil; naive_solver).
  unfold can_cancel, usec_per_second; cbn zeta.
  split; [intros H; rewrite bool_decide_eq_true_2; done|].
  split; [intros H; case_bool_decide; [done|];
          rewrite bool_decide_eq_true_2; done|].
  split; [intros _ ->; repeat case_bool_decide; try done; split; try done;
          intros; lia|].
  split; [intros _ -> Hw; repeat case_bool_decide; try done; split; try done;
          intros; lia|].
  split; [intros -> Hs; repeat case_bool_decide; try done; lia|].
  split; [unfold window_is_exact; cbn; lia|].
  split; intros -> Hs; simpl; repeat case_bool_decide; try done; lia.
Qed.

(** *** Writes that leave the other tables alone *)

Lemma notify_each_tables us m db :
  Reservation_objects (notify_each us m db) = Reservation_objects db
  /\ Approval_objects (notify_each us m db) = Approval_objects db
  /\ User_objects (notify_each us m db) = User_objects db
  /\ Group_objects (notify_each us m db) = Group_objects db.
Proof.
  unfold notify_each. revert db.
  induction us as [|u us IH]; intros db; simpl; [done|].
  destruct (IH (Notification_create (user_id u) m db)) as (-> & -> & -> & ->).
  done.
Qed.

Lemma _notify_group_tables g m db :
  Reservation_objects (_notify_group g m db) = Reservation_objects db
  /\ Approval_objects (_notify_group g m db) = Approval_objects db
  /\ User_objects (_notify_group g m db) = User_objects db.
Proof.
  unfold _notify_group. case_bool_decide; [|done].
  destruct (notify_each_tables
              (filter (fun u => g ∈ groups u) (User_objects db)) m db)
    as (-> & -> & -> & _).
  done.
Qed.

Lemma Reservation_save_approvals now r db :
  Approval_objects (Reservation_save now r db).2 = Approval_objects db.
Proof.
  unfold Reservation_save.
  destruct (pk r); [destruct (exists_ _)|]; reflexivity.
Qed.

(** Saving an instance whose key is stored rewrites the rows of that
    key and nothing else. *)
Lemma Reservation_save_stored now r db k x0 :
  pk r = Some k -> x0 ∈ Reservation_objects db -> pk x0 = Some k ->
  Reservation_save now r db
  = (r, set_reservations
          (map (fun x => if bool_decide (pk x = Some k) then r else x)
               (Reservation_objects db)) db).
Proof.
  intros Hk Hin Hx0. unfold Reservation_save. rewrite Hk.
  assert (exists_ (filter (fun x => pk x = Some k) (Reservation_objects db))
          = true) as ->; [|done].
  apply exists_true. exists x0. apply list_elem_of_filter. done.
Qed.

Lemma get_reservation_replaced rows r k x0 :
  pk r = Some k -> x0 ∈ rows -> pk x0 = Some k ->
  head (filter (fun x => pk x = Some k)
          (map (fun x => if bool_decide (pk x = Some k) then r else x) rows))
  = Some r.
Proof.
  intros Hk. induction rows as [|y rows IH]; intros Hin Hx0.
  - inversion Hin.
  - simpl. case_bool_decide as Hy.
    + rewrite filter_cons_True by done. done.
    + rewrite filter_cons_False by done.
      apply IH; [|done]. apply elem_of_cons in Hin as [->|]; done.
Qed.

Lemma elem_of_replaced rows r k x :
  pk r = Some k ->
  x ∈ map (fun y => if bool_decide (pk y = Some k) then r else y) rows ->
  x = r \/ (x ∈ rows /\ pk x <> Some k).
Proof.
  intros Hk Hx. apply list_elem_of_fmap in Hx as (y & -> & Hy).
  case_bool_decide; naive_solver.
Qed.

Lemma get_reservation_elem db k r :
  get_reservation db k = Some r ->
  r ∈ Reservation_objects db /\ pk r = Some k.
Proof.
  unfold get_reservation. intros H.
  apply head_Some_elem_of, list_elem_of_filter in H. naive_solver.
Qed.

Lemma get_reservation_of_elem db k u r :
  get_reservation_of db k u = Some r ->
  r ∈ Reservation_objects db /\ pk r = Some k /\ user r = u.
Proof.
  unfold get_reservation_of. intros H.
  apply head_Some_elem_of, list_elem_of_filter in H. naive_solver.
Qed.

(** C4: canceling a reservation that is already CANCELED changes
    nothing: the method returns the instance and the store as they
    were, whatever the reason, and the view, which asks [can_cancel]
    first, leaves the store as it was, notifications included. *)
Theorem cancel_canceled_is_noop (cfg : Settings) (now : datetime) (db : DB)
    (r : Reservation) :
  status r = CANCELED ->
  (forall now' reason, cancel_by_user now' r reason db = (r, db))
  /\ can_cancel cfg r now = false
  /\ (forall request k u,
        cancel_user request = Some u ->
        get_reservation_of db k (user_id u) = Some r ->
        db_after (cancel_reservation cfg now db request k) = db).
Proof.
  intros Hs.
  assert (Hc : can_cancel cfg r now = false).
  { unfold can_cancel. rewrite bool_decide_eq_true_2; [done|].
    rewrite Hs, !elem_of_cons. auto. }
  split; [|split; [done|]].
  - intros now' reason. unfold cancel_by_user.
    rewrite bool_decide_eq_true_2; done.
  - intros request k u Hu Hget. unfold cancel_reservation.
    rewrite Hu. case_bool_decide; [done|]. rewrite Hget, Hc. done.
Qed.

Lemma cancel_canceled_is_noop_witness :
  cancel_by_user 0 (set_status CANCELED Sample.pending_11_12)
    (Some "otra vez")
    (set_reservations [set_status CANCELED Sample.pending_11_12] Sample.db)
  = (set_status CANCELED Sample.pending_11_12,
     set_reservations [set_status CANCELED Sample.pending_11_12] Sample.db).
Proof.
  exact (proj1 (cancel_canceled_is_noop default_settings Sample.now
                  (set_reservations
                     [set_status CANCELED Sample.pending_11_12] Sample.db)
                  (set_status CANCELED Sample.pending_11_12) eq_refl)
               0 (Some "otra vez")).
Defined.

(** C10: a user cancellation of a stored reservation that is not yet
    CANCELED sets [status] to CANCELED and [cancel_reason] to the
    stripped reason, appends the marker to [purpose] when the stripped
    reason is not empty and leaves [purpose] alone when it is, and keeps
    the key, space, start, end, user, head count and creation time; the
    stored row is the new instance, the other rows and the approvals
    are untouched. *)
Theorem cancel_by_user_frame (now : datetime) (r : Reservation)
    (reason : option string) (db : DB) (k : Z) :
  status r <> CANCELED -> pk r = Some k -> r ∈ Reservation_objects db ->
  let note := PyStr.strip (or_empty reason) in
  let r' := (cancel_by_user now r reason db).1 in
  let db' := (cancel_by_user now r reason db).2 in
  status r' = CANCELED
  /\ cancel_reason r' = note
  /\ purpose r' = (if PyStr.truthy note then purpose r +:+ cancel_marker
                   else purpose r)
  /\ (pk r' = pk r /\ space r' = space r /\ start r' = start r
      /\ end_ r' = end_ r /\ user r' = user r
      /\ attendees_count r' = attendees_count r
      /\ created_at r' = created_at r)
  /\ get_reservation db' k = Some r'
  /\ (forall x, x ∈ Reservation_objects db' ->
                x = r' \/ (x ∈ Reservation_objects db /\ pk x <> Some k))
  /\ Approval_objects db' = Approval_objects db.
Proof.
  intros Hs Hk Hin note.
  set (q := set_status CANCELED
              (if PyStr.truthy note
               then set_purpose
                      (if PyStr.truthy (purpose (set_cancel_reason note r))
                       then purpose (set_cancel_reason note r)
                            +:+ cancel_marker
                       else cancel_marker)
                      (set_cancel_reason note r)
               else set_cancel_reason note r)).
  assert (Hq : pk q = Some k) by (unfold q; destruct (PyStr.truthy note); done).
  assert (Hc : cancel_by_user now r reason db
               = (q, notify_each
                       (filter (fun u => is_staff u = true)
                          (User_objects
                             (Notification_create (user q) (TxtYouCanceled q)
                                (Reservation_save now q db).2)))
                       (TxtCanceledByUser q)
                       (Notification_create (user q) (TxtYouCanceled q)
                          (Reservation_save now q db).2))).
  { unfold cancel_by_user. rewrite bool_decide_eq_false_2 by done.
    fold note. fold q.
    rewrite (Reservation_save_stored now q db k r Hq Hin Hk). done. }
  rewrite Hc. cbn [fst snd].
  split; [done|].
  split; [unfold q; destruct (PyStr.truthy note); done|].
  split.
  { unfold q. destruct (PyStr.truthy note); [|done]. simpl.
    destruct (purpose r); done. }
  split; [unfold q; destruct (PyStr.truthy note); done|].
  destruct (notify_each_tables
              (filter (fun u => is_staff u = true)
                 (User_objects
                    (Notification_create (user q) (TxtYouCanceled q)
                       (Reservation_save now q db).2)))
              (TxtCanceledByUser q)
              (Notification_create (user q) (TxtYouCanceled q)
                 (Reservation_save now q db).2)) as (Hr & Ha & _).
  unfold get_reservation. rewrite Hr, Ha.
  rewrite (Reservation_save_stored now q db k r Hq Hin Hk). cbn.
  split; [apply (get_reservation_replaced _ q k r); done|].
  split; [intros x; apply elem_of_replaced; done|done].
Qed.

Lemma cancel_by_user_frame_witness :
  status (cancel_by_user Sample.now Sample.approved_10_11
            (Some " cambio de sala ") Sample.db).1 = CANCELED
  /\ cancel_reason (cancel_by_user Sample.now Sample.approved_10_11
                      (Some " cambio de sala ") Sample.db).1
     = "cambio de sala".
Proof.
  pose proof (cancel_by_user_frame Sample.now Sample.approved_10_11
                (Some " cambio de sala ") Sample.db 1
                ltac:(discriminate) eq_refl ltac:(left)) as H.
  cbv zeta in H. destruct H as (H1 & H2 & _).
  split; [exact H1|exact H2].
Defined.

(** ** Decisions *)

(** A valid decision form: the choice is one of the two, the stripped
    notes have no NUL, and a rejection has notes. *)
Lemma ApprovalForm_clean_valid p c e :
  ApprovalForm_clean p = (c, e) -> is_valid e = true ->
  exists d,
    c = {| cleaned_decision := Some d;
           cleaned_notes := Some (PyStr.strip (or_empty (post_notes p))) |}
    /\ post_decision p
       = Some (match d with APPR => "APPR" | REJ => "REJ" end)
    /\ has_nul (PyStr.strip (or_empty (post_notes p))) = false
    /\ (d = REJ ->
        PyStr.truthy (PyStr.strip (or_empty (post_notes p))) = true).
Proof.
  unfold ApprovalForm_clean, ApprovalForm_fields.
  destruct (has_nul (PyStr.strip (or_empty (post_notes p)))) eqn:Hn.
  - repeat case_bool_decide; simpl;
      intros [= <- <-]; simpl; try discriminate;
      destruct (PyStr.truthy _); discriminate.
  - case_bool_decide as H1; [|case_bool_decide as H2]; cbn.
    + intros [= <- <-] _. exists APPR. done.
    + destruct (PyStr.truthy _) eqn:Ht; cbn; intros [= <- <-]; [|done].
      intros _. exists REJ. done.
    + intros [= <- <-]. done.
Qed.

Lemma ApprovalForm_clean_ok p d :
  post_decision p = Some (match d with APPR => "APPR" | REJ => "REJ" end) ->
  has_nul (PyStr.strip (or_empty (post_notes p))) = false ->
  (d = REJ -> PyStr.truthy (PyStr.strip (or_empty (post_notes p))) = true) ->
  ApprovalForm_clean p
  = ({| cleaned_decision := Some d;
        cleaned_notes := Some (PyStr.strip (or_empty (post_notes p))) |}, []).
Proof.
  intros Hd Hn Ht. unfold ApprovalForm_clean, ApprovalForm_fields.
  rewrite Hd, Hn. destruct d.
  - rewrite bool_decide_eq_true_2 by done. done.
  - rewrite bool_decide_eq_false_2 by done.
    rewrite bool_decide_eq_true_2 by done. cbn.
    rewrite Ht by done. done.
Qed.

Lemma map_decision_notes p : post_notes (map_decision p) = post_notes p.
Proof. unfold map_decision. repeat case_bool_decide; done. Qed.

(** *** The upsert *)

Lemma decided_reservation rk who d n a :
  reservation (decided rk who d n a) = reservation a.
Proof. unfold decided. case_bool_decide; done. Qed.

Lemma approvals_of_decided rk' rk who d n rows :
  approvals_of rk' (map (decided rk who d n) rows)
  = map (decided rk who d n) (approvals_of rk' rows).
Proof.
  unfold approvals_of. induction rows as [|a rows IH]; [done|].
  cbn [map]. rewrite !filter_cons, decided_reservation.
  case_decide; cbn [map]; rewrite IH; done.
Qed.

Lemma decided_other rk' rk who d n rows :
  rk' <> rk ->
  map (decided rk who d n) (approvals_of rk' rows) = approvals_of rk' rows.
Proof.
  intros Hne. unfold approvals_of.
  induction rows as [|a rows IH]; [done|].
  rewrite filter_cons. case_decide as Ha; [|done].
  cbn [map]. rewrite IH. unfold decided at 1.
  rewrite bool_decide_eq_false_2 by congruence. done.
Qed.

Lemma update_or_create_cases now rk who d n rows rows' :
  Approval_update_or_create now rk who d n rows = Some rows' ->
  (approvals_of rk rows = []
   /\ rows' = rows ++ [{| reservation := rk; approver := who; decision := d;
                          notes := n; decided_at := now |}])
  \/ (exists a, approvals_of rk rows = [a]
                /\ rows' = map (decided rk who d n) rows).
Proof.
  unfold Approval_update_or_create. fold (approvals_of rk rows).
  destruct (approvals_of rk rows) as [|a [|b l]]; intros [= <-].
  - left. done.
  - right. exists a. done.
Qed.

Lemma update_or_create_total now rk who d n rows :
  (length (approvals_of rk rows) <= 1)%nat ->
  is_Some (Approval_update_or_create now rk who d n rows).
Proof.
  unfold Approval_update_or_create. fold (approvals_of rk rows).
  destruct (approvals_of rk rows) as [|a [|b l]]; cbn; intros H;
    [done|done|lia].
Qed.

(** After the upsert reservation [rk] has one row, the decision just
    taken; the rows of the other reservations are as before. *)
Lemma update_or_create_one now rk who d n rows rows' :
  Approval_update_or_create now rk who d n rows = Some rows' ->
  (exists t, approvals_of rk rows'
             = [{| reservation := rk; approver := who; decision := d;
                   notes := n; decided_at := t |}])
  /\ (forall rk', rk' <> rk -> approvals_of rk' rows' = approvals_of rk' rows).
Proof.
  intros H. apply update_or_create_cases in H as [[H0 ->]|(a & Ha & ->)].
  - split.
    + exists now. unfold approvals_of in *. rewrite filter_app, H0.
      rewrite filter_cons_True by done. done.
    + intros rk' Hne. unfold approvals_of. rewrite filter_app.
      rewrite filter_cons_False by (cbn; congruence).
      rewrite filter_nil, app_nil_r. done.
  - split.
    + exists (decided_at a). rewrite approvals_of_decided, Ha. cbn.
      assert (reservation a = rk) as Hr.
      { assert (a ∈ approvals_of rk rows) as Hin by (rewrite Ha; left).
        apply list_elem_of_filter in Hin. tauto. }
      unfold decided. rewrite bool_decide_eq_true_2 by done. done.
    + intros rk' Hne. rewrite approvals_of_decided.
      apply decided_other. done.
Qed.

(** *** The decision view *)

Lemma approval_conflict_true db r :
  approval_conflict db r = true <->
  exists x, x ∈ Reservation_objects db
            /\ (pk r <> None -> pk x <> pk r)
            /\ space x = space r /\ status x = APPROVED
            /\ start x < end_ r /\ end_ x > start r.
Proof.
  unfold approval_conflict, filter_range. rewrite exists_true.
  split; intros [x Hx]; exists x.
  - rewrite list_elem_of_filter, elem_of_exclude_pk, list_elem_of_filter in Hx.
    naive_solver.
  - rewrite list_elem_of_filter, elem_of_exclude_pk, list_elem_of_filter.
    naive_solver.
Qed.

Lemma is_valid_nil e : is_valid e = true -> e = [].
Proof. destruct e; [done|discriminate]. Qed.

(** What a decision that goes through does. *)
Lemma decide_success cfg now db request k u r d n rows' :
  decide_user request = Some u -> is_staff u = true ->
  decide_method request = POST ->
  get_reservation db k = Some r ->
  ApprovalForm_clean (map_decision (decide_POST request))
  = ({| cleaned_decision := Some d; cleaned_notes := Some n |}, []) ->
  (d = APPR -> approval_conflict db r = false) ->
  Approval_update_or_create now k (user_id u) d n (Approval_objects db)
  = Some rows' ->
  let res := approve_or_reject cfg now db request k in
  response res = Redirect "approvals_pending"
  /\ Approval_objects (db_after res) = rows'
  /\ get_reservation (db_after res) k
     = Some (set_status (status_of_decision d) r)
  /\ (forall x, x ∈ Reservation_objects (db_after res) ->
                x = set_status (status_of_decision d) r
                \/ (x ∈ Reservation_objects db /\ pk x <> Some k)).
Proof.
  intros Hu Hst Hm Hget Hform Hconf Hup.
  destruct (get_reservation_elem _ _ _ Hget) as [Hin Hk].
  unfold approve_or_reject.
  rewrite Hu, Hst, Hget. cbn [negb].
  rewrite bool_decide_eq_true_2 by done.
  rewrite Hform. cbn [is_valid cleaned_decision cleaned_notes or_empty].
  assert (bool_decide (d = APPR) && approval_conflict db r = false) as ->.
  { case_bool_decide; [rewrite Hconf by done|]; done. }
  rewrite Hup.
  destruct d; cbn zeta.
  - set (q := set_status APPROVED r).
    set (db1 := notify_cleaning_staff cfg (TxtCleaningPrepare q n)
                  (_notify_user (user q) (TxtApproved q n)
                     (set_approvals rows' db))).
    assert (Reservation_objects db1 = Reservation_objects db
            /\ Approval_objects db1 = rows') as [Hr Ha].
    { unfold db1, notify_cleaning_staff.
      destruct (_notify_group_tables (CLEANING_GROUP_NAME cfg)
                  (TxtCleaningPrepare q n)
                  (_notify_user (user q) (TxtApproved q n)
                     (set_approvals rows' db))) as (-> & -> & _).
      done. }
    rewrite (Reservation_save_stored now q db1 k r); [|done|by rewrite Hr|done].
    cbn. unfold get_reservation. cbn. rewrite Hr.
    split; [done|]. split; [done|].
    split; [apply (get_reservation_replaced _ q k r); done|].
    intros x. apply elem_of_replaced. done.
  - set (q := set_status REJECTED r).
    set (db1 := _notify_user (user q) (TxtRejected q n)
                  (set_approvals rows' db)).
    rewrite (Reservation_save_stored now q db1 k r); [|done|done|done].
    cbn. unfold get_reservation. cbn.
    split; [done|]. split; [done|].
    split; [apply (get_reservation_replaced _ q k r); done|].
    intros x. apply elem_of_replaced. done.
Qed.

(** A decision request either leaves the store as it was and does not
    redirect to the pending list, or went through all the checks. *)
Lemma decide_cases cfg now db request k :
  let res := approve_or_reject cfg now db request k in
  (db_after res = db /\ response res <> Redirect "approvals_pending")
  \/ (exists u r d n rows',
        decide_user request = Some u /\ is_staff u = true
        /\ decide_method request = POST
        /\ get_reservation db k = Some r
        /\ ApprovalForm_clean (map_decision (decide_POST request))
           = ({| cleaned_decision := Some d; cleaned_notes := Some n |}, [])
        /\ (d = APPR -> approval_conflict db r = false)
        /\ Approval_update_or_create now k (user_id u) d n
             (Approval_objects db) = Some rows').
Proof.
  cbn zeta. unfold approve_or_reject.
  destruct (decide_user request) as [u|] eqn:Hu; [|left; done].
  destruct (is_staff u) eqn:Hst; cbn [negb]; [|left; done].
  destruct (get_reservation db k) as [r|] eqn:Hget; [|left; done].
  case_bool_decide as Hm; [|left; done].
  destruct (ApprovalForm_clean (map_decision (decide_POST request)))
    as [c e] eqn:Hform.
  destruct (is_valid e) eqn:Hv; [|left; done].
  destruct (ApprovalForm_clean_valid _ _ _ Hform Hv) as (d & -> & _).
  apply is_valid_nil in Hv. subst e.
  cbn [cleaned_decision cleaned_notes or_empty].
  destruct (bool_decide (d = APPR) && approval_conflict db r) eqn:Hc;
    [left; done|].
  destruct (Approval_update_or_create now k (user_id u) d
              (PyStr.strip (or_empty (post_notes
                 (map_decision (decide_POST request)))))
              (Approval_objects db)) as [rows'|] eqn:Hup; [|left; done].
  right. eexists u, r, d, _, rows'.
  repeat (split; [done|]). split; [|done].
  intros ->. rewrite bool_decide_eq_true_2 in Hc by done. done.
Qed.

(** C2: approving a PENDING reservation while another row of the same
    space is APPROVED over an interval that meets [[start, end)] is
    refused with an error: the store is as before, so the reservation
    is still PENDING and no approval row was written; an approval that
    went through had no such row against it; and without such a row
    the approval goes through whatever PENDING rows overlap (the notes
    being free of NUL and the approval table holding at most one row
    for the reservation). *)
Theorem approve_blocked_by_approved_only (cfg : Settings) (now : datetime)
    (db : DB) (request : DecisionRequest) (k : Z) (u : User)
    (r : Reservation) :
  decide_user request = Some u -> is_staff u = true ->
  decide_method request = POST ->
  get_reservation db k = Some r -> status r = PENDING ->
  post_decision (map_decision (decide_POST request)) = Some "APPR" ->
  let res := approve_or_reject cfg now db request k in
  let blocked :=
    exists x, x ∈ Reservation_objects db /\ pk x <> Some k
              /\ space x = space r /\ status x = APPROVED
              /\ start x < end_ r /\ end_ x > start r in
  (blocked ->
     response res = Render "approvals/decision_form.html"
     /\ flash res = [ERROR]
     /\ db_after res = db
     /\ (exists r', get_reservation (db_after res) k = Some r'
                    /\ status r' = PENDING)
     /\ Approval_objects (db_after res) = Approval_objects db)
  /\ (response res = Redirect "approvals_pending" -> ~ blocked)
  /\ (~ blocked ->
      has_nul (PyStr.strip (or_empty (post_notes (decide_POST request))))
      = false ->
      (length (approvals_of k (Approval_objects db)) <= 1)%nat ->
      response res = Redirect "approvals_pending"
      /\ get_reservation (db_after res) k = Some (set_status APPROVED r)).
Proof.
  intros Hu Hst Hm Hget Hs Hd res blocked.
  destruct (get_reservation_elem _ _ _ Hget) as [Hin Hk].
  assert (Hb : approval_conflict db r = true <-> blocked).
  { rewrite approval_conflict_true. unfold blocked. rewrite Hk.
    split; intros [x Hx]; exists x; naive_solver. }
  split; [|split].
  - intros Hbl. apply Hb in Hbl.
    assert (response res = Render "approvals/decision_form.html"
            /\ flash res = [ERROR] /\ db_after res = db) as (H1 & H2 & H3).
    { unfold res, approve_or_reject.
      rewrite Hu, Hst, Hget. cbn [negb].
      rewrite bool_decide_eq_true_2 by done.
      destruct (ApprovalForm_clean (map_decision (decide_POST request)))
        as [c e] eqn:Hform.
      destruct (is_valid e) eqn:Hv; [|done].
      destruct (ApprovalForm_clean_valid _ _ _ Hform Hv) as (d & -> & Hd' & _).
      rewrite Hd in Hd'. destruct d; [|discriminate].
      cbn [cleaned_decision]. rewrite Hbl.
      rewrite bool_decide_eq_true_2 by done. done. }
    rewrite H3. repeat (split; [done|]). split; [|done].
    exists r. done.
  - intros Hresp Hbl.
    destruct (decide_cases cfg now db request k)
      as [[_ Hne]|(u' & r' & d & n & rows' & Hu' & _ & _ & Hget' & Hform & Hc & _)].
    + done.
    + rewrite Hget in Hget'. injection Hget' as <-.
      destruct (ApprovalForm_clean_valid _ _ _ Hform eq_refl)
        as (d' & [= <-] & Hd' & _).
      rewrite Hd in Hd'. destruct d; [|discriminate].
      apply Hb in Hbl. rewrite Hc in Hbl; done.
  - intros Hnb Hnul Hone.
    assert (Hc : approval_conflict db r = false).
    { destruct (approval_conflict db r) eqn:E; [|done].
      exfalso. apply Hnb, Hb. done. }
    rewrite <- map_decision_notes in Hnul.
    pose proof (ApprovalForm_clean_ok _ APPR Hd Hnul ltac:(discriminate))
      as Hform.
    destruct (update_or_create_total now k (user_id u) APPR
                (PyStr.strip (or_empty (post_notes
                   (map_decision (decide_POST request)))))
                (Approval_objects db) Hone) as [rows' Hup].
    destruct (decide_success cfg now db request k u r APPR _ rows'
                Hu Hst Hm Hget Hform (fun _ => Hc) Hup) as (H1 & _ & H3 & _).
    done.
Qed.

Lemma approve_blocked_by_approved_only_witness :
  db_after (approve_or_reject default_settings Sample.now Sample.db
              (Sample.decide "approve" "") 2) = Sample.db
  /\ response (approve_or_reject default_settings Sample.now Sample.db
                 (Sample.decide "approve" "") 3)
     = Redirect "approvals_pending".
Proof.
  split.
  - refine (proj1 (proj2 (proj2 (proj1
      (approve_blocked_by_approved_only default_settings Sample.now
         Sample.db (Sample.decide "approve" "") 2 Sample.admin
         Sample.pending_1030_1130 eq_refl eq_refl eq_refl eq_refl eq_refl
         eq_refl) _)))).
    exists Sample.approved_10_11.
    split; [left|]. split; [discriminate|]. vm_compute. done.
  - refine (proj1 (proj2 (proj2
      (approve_blocked_by_approved_only default_settings Sample.now
         Sample.db (Sample.decide "approve" "") 3 Sample.admin
         Sample.pending_11_12 eq_refl eq_refl eq_refl eq_refl eq_refl
         eq_refl)) _ eq_refl _)).
    + intros (x & Hx & Hpk & _ & Hst & Hlt & Hgt).
      vm_compute in Hx.
      repeat (apply elem_of_cons in Hx as [->|Hx]);
        [vm_compute in Hgt; done|discriminate|done|inversion Hx].
    + vm_compute. lia.
Defined.

(** C5: a rejection whose notes are empty (missing, empty or blank)
    fails validation: the store is as before, so no approval row is
    written and the status is unchanged; a rejection that goes through
    had notes that are not empty, leaves exactly one approval row for
    the reservation, with decision REJ and those notes, and stores the
    status REJECTED; and a rejection with notes does go through, for a
    staff user on a POST for a stored reservation (the notes being free
    of NUL and the approval table holding at most one row for the
    reservation): it redirects, records that row and stores
    REJECTED. *)
Theorem reject_needs_notes (cfg : Settings) (now : datetime) (db : DB)
    (request : DecisionRequest) (k : Z) :
  post_decision (map_decision (decide_POST request)) = Some "REJ" ->
  let res := approve_or_reject cfg now db request k in
  let n := PyStr.strip (or_empty (post_notes (decide_POST request))) in
  (n = "" ->
     is_valid (ApprovalForm_clean (map_decision (decide_POST request))).2
     = false
     /\ db_after res = db
     /\ response res <> Redirect "approvals_pending")
  /\ (response res = Redirect "approvals_pending" ->
      n <> ""
      /\ (exists u t,
            decide_user request = Some u
            /\ approvals_of k (Approval_objects (db_after res))
               = [{| reservation := k; approver := user_id u;
                     decision := REJ; notes := n; decided_at := t |}])
      /\ (exists r, get_reservation db k = Some r
                    /\ get_reservation (db_after res) k
                       = Some (set_status REJECTED r)))
  /\ (forall u r,
        n <> "" -> has_nul n = false ->
        decide_user request = Some u -> is_staff u = true ->
        decide_method request = POST ->
        get_reservation db k = Some r ->
        (length (approvals_of k (Approval_objects db)) <= 1)%nat ->
        response res = Redirect "approvals_pending"
        /\ (exists t,
              approvals_of k (Approval_objects (db_after res))
              = [{| reservation := k; approver := user_id u;
                    decision := REJ; notes := n; decided_at := t |}])
        /\ get_reservation (db_after res) k = Some (set_status REJECTED r)).
Proof.
  intros Hd res n.
  assert (Hvalid : forall c e,
             ApprovalForm_clean (map_decision (decide_POST request)) = (c, e) ->
             is_valid e = true ->
             c = {| cleaned_decision := Some REJ; cleaned_notes := Some n |}
             /\ n <> "").
  { intros c e Hform Hv.
    destruct (ApprovalForm_clean_valid _ _ _ Hform Hv) as (d & -> & Hd' & _ & Ht).
    rewrite Hd in Hd'. destruct d; [discriminate|].
    rewrite map_decision_notes in *. fold n in Ht |- *.
    split; [done|]. intros E. rewrite E in Ht. specialize (Ht eq_refl).
    discriminate. }
  split; [|split].
  - intros Hn.
    destruct (ApprovalForm_clean (map_decision (decide_POST request)))
      as [c e] eqn:Hform.
    assert (Hv : is_valid e = false).
    { destruct (is_valid e) eqn:Hv; [|done].
      destruct (Hvalid c e eq_refl Hv) as [_ Hne]. done. }
    split; [done|].
    destruct (decide_cases cfg now db request k)
      as [H|(u & r & d & n' & rows' & _ & _ & _ & _ & Hform' & _)]; [done|].
    rewrite Hform in Hform'. injection Hform' as _ ->. discriminate.
  - intros Hresp.
    destruct (decide_cases cfg now db request k)
      as [[_ Hne]|(u & r & d & n' & rows' & Hu & Hst & Hm & Hget & Hform & Hc
                   & Hup)]; [done|].
    destruct (Hvalid _ _ Hform eq_refl) as [[= -> ->] Hne].
    destruct (decide_success cfg now db request k u r REJ n rows'
                Hu Hst Hm Hget Hform Hc Hup) as (_ & Ha & Hr & _).
    destruct (update_or_create_one _ _ _ _ _ _ _ Hup) as [[t Ht] _].
    split; [done|]. split.
    + exists u, t. fold res in Ha. rewrite Ha. done.
    + exists r. done.
  - intros u r Hne Hnul Hu Hst Hm Hget Hone.
    assert (Hform : ApprovalForm_clean (map_decision (decide_POST request))
                    = ({| cleaned_decision := Some REJ;
                          cleaned_notes := Some n |}, [])).
    { unfold n. rewrite <- map_decision_notes.
      apply (ApprovalForm_clean_ok _ REJ Hd).
      - rewrite map_decision_notes. exact Hnul.
      - intros _. rewrite map_decision_notes. fold n.
        destruct n; done. }
    destruct (update_or_create_total now k (user_id u) REJ n
                (Approval_objects db) Hone) as [rows' Hup].
    destruct (decide_success cfg now db request k u r REJ n rows'
                Hu Hst Hm Hget Hform ltac:(discriminate) Hup)
      as (H1 & Ha & Hr & _).
    destruct (update_or_create_one _ _ _ _ _ _ _ Hup) as [[t Ht] _].
    split; [done|]. split; [|done].
    exists t. fold res in Ha. rewrite Ha. done.
Qed.

Lemma reject_needs_notes_witness :
  db_after (approve_or_reject default_settings Sample.now Sample.db
              (Sample.decide "reject" "  ") 3) = Sample.db.
Proof.
  exact (proj1 (proj2 (proj1
    (reject_needs_notes default_settings Sample.now Sample.db
       (Sample.decide "reject" "  ") 3 eq_refl) eq_refl))).
Defined.

(** A rejection with a reason goes through. *)
Example reject_with_reason :
  let res := approve_or_reject default_settings Sample.now Sample.db
               (Sample.decide "reject" "Sala en mantencion") 3 in
  response res = Redirect "approvals_pending"
  /\ status <$> get_reservation (db_after res) 3 = Some REJECTED
  /\ approvals_of 3 (Approval_objects (db_after res))
     = [{| reservation := 3; approver := 2; decision := REJ;
           notes := "Sala en mantencion"; decided_at := Sample.now |}].
Proof. vm_compute. done. Qed.

(** *** The approval table keeps one row per reservation *)

Lemma cancel_by_user_approvals now r reason db :
  Approval_objects (cancel_by_user now r reason db).2 = Approval_objects db.
Proof.
  unfold cancel_by_user. case_bool_decide; [done|].
  destruct (Reservation_save _ _ db) as [q db1] eqn:Hs.
  cbn [snd].
  destruct (notify_each_tables
              (filter (fun u => is_staff u = true)
                 (User_objects
                    (Notification_create (user q) (TxtYouCanceled q) db1)))
              (TxtCanceledByUser q)
              (Notification_create (user q) (TxtYouCanceled q) db1))
    as (_ & -> & _).
  cbn. change db1 with (q, db1).2. rewrite <- Hs.
  apply Reservation_save_approvals.
Qed.

Lemma cancel_reservation_approvals cfg now db request k :
  Approval_objects (db_after (cancel_reservation cfg now db request k))
  = Approval_objects db.
Proof.
  unfold cancel_reservation.
  destruct (cancel_user request); [|done].
  case_bool_decide; [done|].
  destruct (get_reservation_of _ _ _) as [r|]; [|done].
  destruct (can_cancel cfg r now); [|done]. cbn [negb].
  destruct (cancel_by_user _ _ _ db) as [q db1] eqn:Hc.
  unfold respond, notify_cleaning_staff. cbn [db_after].
  match goal with
  | |- context [_notify_group ?g ?m ?d] =>
      destruct (_notify_group_tables g m d) as (_ & -> & _)
  end.
  change db1 with (q, db1).2. rewrite <- Hc.
  apply cancel_by_user_approvals.
Qed.

Lemma create_approvals cfg fuel now db request res :
  ReservationCreateView_post cfg fuel now db request = Returned res ->
  Approval_objects (db_after res) = Approval_objects db.
Proof.
  unfold ReservationCreateView_post.
  destruct (create_user request); [|intros [= <-]; done].
  destruct (build_day_slots cfg fuel) as [slots| |]; try discriminate.
  destruct (initial_slots slots _); try discriminate.
  case_bool_decide; [|intros [= <-]; done].
  destruct (ReservationForm_clean _ _ _ _ _) as [[c e]| |]; try discriminate.
  destruct (is_valid e), (cleaned_space c), (cleaned_attendees_count c),
    (_start_dt c), (_end_dt c); try (intros [= <-]; done).
  match goal with
  | |- context [Reservation_save ?n ?i ?d] =>
      destruct (Reservation_save n i d) as [q db1] eqn:Hs
  end.
  intros [= <-]. cbn.
  change db1 with (q, db1).2. rewrite <- Hs.
  rewrite Reservation_save_approvals.
  apply notify_each_tables.
Qed.

Lemma decide_keeps_one cfg now db request k :
  one_approval_each db ->
  one_approval_each (db_after (approve_or_reject cfg now db request k)).
Proof.
  intros Hone.
  destruct (decide_cases cfg now db request k)
    as [[-> _]|(u & r & d & n & rows' & Hu & Hst & Hm & Hget & Hform & Hc
                & Hup)]; [done|].
  destruct (decide_success cfg now db request k u r d n rows'
              Hu Hst Hm Hget Hform Hc Hup) as (_ & Ha & _).
  destruct (update_or_create_one _ _ _ _ _ _ _ Hup) as [[t Ht] Ho].
  intros rk. rewrite Ha.
  destruct (decide (rk = k)) as [->|Hne].
  - rewrite Ht. done.
  - rewrite Ho by done. apply Hone.
Qed.

Lemma serves_keeps_one cfg db db' :
  serves cfg db db' -> one_approval_each db -> one_approval_each db'.
Proof.
  intros [fuel now db0 request res H|now db0 request k|now db0 request k] Hone.
  - intros rk. rewrite (create_approvals _ _ _ _ _ _ H). apply Hone.
  - intros rk. rewrite cancel_reservation_approvals. apply Hone.
  - apply decide_keeps_one. done.
Qed.

(** C8: the approval table holds at most one row per reservation, and
    every request served by the views keeps it so.  A decision on a
    reservation that already has its row replaces approver, decision
    and notes in that row (the table does not grow, the row keeps its
    [decided_at]); and a decision goes through whatever the status of
    the reservation is: no test of [status] stands in its way. *)
Theorem one_approval_per_reservation (cfg : Settings) (db : DB) :
  one_approval_each db ->
  (forall db', rtc (serves cfg) db db' -> one_approval_each db')
  /\ (forall now request k,
        let res := approve_or_reject cfg now db request k in
        one_approval_each (db_after res)
        /\ (forall a u d n,
              approvals_of k (Approval_objects db) = [a] ->
              response res = Redirect "approvals_pending" ->
              decide_user request = Some u ->
              (ApprovalForm_clean (map_decision (decide_POST request))).1
              = {| cleaned_decision := Some d; cleaned_notes := Some n |} ->
              approvals_of k (Approval_objects (db_after res))
              = [{| reservation := k; approver := user_id u; decision := d;
                    notes := n; decided_at := decided_at a |}]
              /\ length (Approval_objects (db_after res))
                 = length (Approval_objects db))
        /\ (forall u r d n,
              decide_user request = Some u -> is_staff u = true ->
              decide_method request = POST ->
              get_reservation db k = Some r ->
              ApprovalForm_clean (map_decision (decide_POST request))
              = ({| cleaned_decision := Some d; cleaned_notes := Some n |},
                 []) ->
              (d = APPR -> approval_conflict db r = false) ->
              response res = Redirect "approvals_pending"
              /\ get_reservation (db_after res) k
                 = Some (set_status (status_of_decision d) r))).
Proof.
  intros Hone. split.
  - intros db' Hsteps. induction Hsteps as [|x y z Hxy _ IH]; [done|].
    apply IH. eapply serves_keeps_one; done.
  - intros now request k res.
    split; [apply decide_keeps_one; done|]. split.
    + intros a u d n Ha Hresp Hu Hc.
      destruct (decide_cases cfg now db request k)
        as [[_ Hne]|(u' & r & d' & n' & rows' & Hu' & Hst & Hm & Hget & Hform
                     & Hconf & Hup)]; [done|].
      rewrite Hform in Hc. injection Hc as -> ->.
      rewrite Hu in Hu'. injection Hu' as <-.
      destruct (decide_success cfg now db request k u r d n rows'
                  Hu Hst Hm Hget Hform Hconf Hup) as (_ & Hrows & _).
      fold res in Hrows. rewrite Hrows.
      apply update_or_create_cases in Hup as [[H0 _]|(a' & Ha' & ->)].
      * rewrite H0 in Ha. discriminate.
      * rewrite Ha in Ha'. injection Ha' as <-.
        rewrite approvals_of_decided, Ha, length_map. cbn.
        assert (reservation a = k) as Hr.
        { assert (a ∈ approvals_of k (Approval_objects db)) as Hin
            by (rewrite Ha; left).
          apply list_elem_of_filter in Hin. tauto. }
        unfold decided. rewrite bool_decide_eq_true_2 by done. done.
    + intros u r d n Hu Hst Hm Hget Hform Hconf.
      destruct (update_or_create_total now k (user_id u) d n
                  (Approval_objects db) (Hone k)) as [rows' Hup].
      destruct (decide_success cfg now db request k u r d n rows'
                  Hu Hst Hm Hget Hform Hconf Hup) as (H1 & _ & H3 & _).
      done.
Qed.

Lemma sample_one_approval_each : one_approval_each Sample.db.
Proof.
  intros rk. unfold approvals_of, Sample.db. cbn [Approval_objects].
  rewrite filter_cons. case_decide; cbn; lia.
Qed.

Lemma one_approval_per_reservation_witness :
  one_approval_each
    (db_after (approve_or_reject default_settings Sample.now Sample.db
                 (Sample.decide "reject" "Cambio de planes") 1)).
Proof.
  exact (proj1 (proj2
    (one_approval_per_reservation default_settings Sample.db
       sample_one_approval_each)
    Sample.now (Sample.decide "reject" "Cambio de planes") 1)).
Defined.

(** Rejecting the reservation that was approved before: the row of the
    first decision now carries the second. *)
Example redecide_replaces :
  let res := approve_or_reject default_settings Sample.now Sample.db
               (Sample.decide "reject" "Cambio de planes") 1 in
  status Sample.approved_10_11 = APPROVED
  /\ response res = Redirect "approvals_pending"
  /\ Approval_objects (db_after res)
     = [{| reservation := 1; approver := 2; decision := REJ;
           notes := "Cambio de planes"; decided_at := 0 |}]
  /\ status <$> get_reservation (db_after res) 1 = Some REJECTED.
Proof. vm_compute. done. Qed.

(** ** The grid *)

Lemma ltb_irrefl a : PyStr.ltb a a = false.
Proof.
  induction a as [|x a IH]; [done|]. simpl.
  rewrite N.ltb_irrefl, N.eqb_refl. done.
Qed.

Lemma ltb_trans a b c :
  PyStr.ltb a b = true -> PyStr.ltb b c = true -> PyStr.ltb a c = true.
Proof.
  revert b c. induction a as [|x a IH]; intros [|y b] [|z c]; simpl;
    try done.
  destruct (N.ltb_spec (N_of_ascii x) (N_of_ascii y)),
    (N.ltb_spec (N_of_ascii y) (N_of_ascii z)),
    (N.ltb_spec (N_of_ascii x) (N_of_ascii z));
    try done; try lia;
    destruct (N.eqb_spec (N_of_ascii x) (N_of_ascii y)),
      (N.eqb_spec (N_of_ascii y) (N_of_ascii z)),
      (N.eqb_spec (N_of_ascii x) (N_of_ascii z));
    try done; try lia.
  apply IH.
Qed.

(** The 1440 labels of a day, checked one by one: each parses back to
    its minute, and each is below the next. *)
Lemma labels_checked :
  forallb
    (fun i =>
       let m := Z.of_nat i in
       match _parse_hhmm (label_of_minute m) with
       | Some t => (hour t =? m / 60)%Z && (minute t =? m mod 60)%Z
       | None => false
       end
       && (PyStr.ltb (label_of_minute m) (label_of_minute (m + 1))
           || (m =? 1439)%Z))
    (seq 0 1440) = true.
Proof. vm_compute. reflexivity. Qed.

Lemma label_checked m :
  0 <= m < 1440 ->
  _parse_hhmm (label_of_minute m)
  = Some {| hour := m / 60; minute := m mod 60 |}
  /\ (m < 1439 ->
      PyStr.ltb (label_of_minute m) (label_of_minute (m + 1)) = true).
Proof.
  intros Hm. pose proof labels_checked as H.
  rewrite forallb_forall in H. specialize (H (Z.to_nat m)).
  rewrite Z2Nat.id in H by lia.
  assert (In (Z.to_nat m) (seq 0 1440)) as Hin by (apply in_seq; lia).
  apply H in Hin. apply andb_prop in Hin as [H1 H2]. split.
  - destruct (_parse_hhmm (label_of_minute m)) as [[h mi]|]; [|done].
    apply andb_prop in H1 as [Hh Hmi]. cbn in Hh, Hmi.
    apply Z.eqb_eq in Hh, Hmi. subst. done.
  - intros Hlt. apply orb_prop in H2 as [H2|H2]; [done|].
    apply Z.eqb_eq in H2. lia.
Qed.

Lemma label_lt m m' :
  0 <= m -> m < m' -> m' < 1440 ->
  PyStr.ltb (label_of_minute m) (label_of_minute m') = true.
Proof.
  intros H0 Hlt H1.
  assert (forall d : nat,
             m + 1 + Z.of_nat d < 1440 ->
             PyStr.ltb (label_of_minute m)
               (label_of_minute (m + 1 + Z.of_nat d)) = true) as Hd.
  { induction d as [|d IH]; intros Hb.
    - replace (m + 1 + Z.of_nat 0) with (m + 1) by lia.
      apply label_checked; lia.
    - eapply ltb_trans; [apply IH; lia|].
      replace (m + 1 + Z.of_nat (S d)) with (m + 1 + Z.of_nat d + 1) by lia.
      apply label_checked; lia. }
  specialize (Hd (Z.to_nat (m' - m - 1))).
  replace (m + 1 + Z.of_nat (Z.to_nat (m' - m - 1))) with m' in Hd by lia.
  apply Hd. lia.
Qed.

Lemma label_inj m m' :
  0 <= m < 1440 -> 0 <= m' < 1440 ->
  label_of_minute m = label_of_minute m' -> m = m'.
Proof.
  intros Hm Hm' E.
  destruct (Z.lt_trichotomy m m') as [H|[H|H]]; [|done|].
  - pose proof (label_lt m m' ltac:(lia) H ltac:(lia)) as Hlt.
    rewrite E, ltb_irrefl in Hlt. done.
  - pose proof (label_lt m' m ltac:(lia) H ltac:(lia)) as Hlt.
    rewrite E, ltb_irrefl in Hlt. done.
Qed.

(** On the day it belongs to, an instant prints as the label of its
    minute. *)
Lemma strftime_HM_label day m :
  0 <= m < 1440 ->
  strftime_HM (day * usec_per_day + m * usec_per_minute) = label_of_minute m.
Proof.
  intros Hm. unfold strftime_HM, label_of_minute, usec_per_day.
  replace (day * (1440 * usec_per_minute) + m * usec_per_minute)
    with ((day * 1440 + m) * usec_per_minute) by lia.
  rewrite Z.div_mul by (unfold usec_per_minute, usec_per_second; lia).
  replace ((day * 1440 + m) / 60 mod 24) with (m / 60).
  2:{ replace (day * 1440 + m) with (m + (day * 24) * 60) by lia.
      rewrite Z.div_add by lia.
      rewrite Z.add_mod, Z.mod_mul, Z.add_0_r, Z.mod_mod by lia.
      symmetry. apply Z.mod_small.
      split; [apply Z.div_pos; lia|apply Z.div_lt_upper_bound; lia]. }
  replace ((day * 1440 + m) mod 60) with (m mod 60).
  2:{ replace (day * 1440 + m) with (m + (day * 24) * 60) by lia.
      rewrite Z.mod_add by lia. done. }
  done.
Qed.

Lemma turns_next cur end_dt step :
  0 < step -> cur <= end_dt ->
  turns cur end_dt step = S (turns (cur + step) end_dt step).
Proof.
  intros Hs Hc. unfold turns. rewrite bool_decide_eq_true_2 by done.
  replace (end_dt - cur) with ((end_dt - (cur + step)) + 1 * step) by lia.
  rewrite Z.div_add by lia.
  case_bool_decide as Hn.
  - assert (0 <= (end_dt - (cur + step)) / step) by (apply Z.div_pos; lia).
    rewrite <- Z2Nat.inj_succ by lia. f_equal; lia.
  - assert ((end_dt - (cur + step)) / step = -1) as ->; [|done].
    symmetry. apply (Z.div_unique_pos _ _ _ (end_dt - cur)); lia.
Qed.

Lemma slots_loop_S fuel cur end_dt step :
  slots_loop (S fuel) cur end_dt step
  = if bool_decide (cur <= end_dt) then
      match datetime_add cur step with
      | Some next =>
          match slots_loop fuel next end_dt step with
          | Returned out => Returned (strftime_HM cur :: out)
          | other => other
          end
      | None => Raised
      end
    else Returned [].
Proof. reflexivity. Qed.

Lemma datetime_add_in_range dt td :
  datetime_min <= dt + td <= datetime_max ->
  datetime_add dt td = Some (dt + td).
Proof. intros H. unfold datetime_add. rewrite bool_decide_eq_true_2; done. Qed.

Lemma timedelta_minutes_in_range n :
  -999999999 * 1440 <= n < 1000000000 * 1440 ->
  timedelta_minutes n = Some (n * usec_per_minute).
Proof.
  intros H. unfold timedelta_minutes. rewrite bool_decide_eq_true_2; [done|].
  split.
  - apply Z.div_le_lower_bound; lia.
  - assert (n / 1440 < 1000000000); [|lia].
    apply Z.div_lt_upper_bound; lia.
Qed.

Lemma datetime_add_some dt td next :
  datetime_add dt td = Some next ->
  next = dt + td /\ datetime_min <= next <= datetime_max.
Proof.
  unfold datetime_add. case_bool_decide; [|done]. intros [= <-]. done.
Qed.

Lemma slots_loop_returns step end_dt :
  0 < step -> end_dt + step <= datetime_max ->
  forall n cur,
    datetime_min <= cur ->
    turns cur end_dt step = n ->
    slots_loop (S n) cur end_dt step
    = Returned (map (fun i => strftime_HM (cur + Z.of_nat i * step))
                    (seq 0 n)).
Proof.
  intros Hs Hmax. induction n as [|n IH]; intros cur Hmin Hn.
  - rewrite slots_loop_S. case_bool_decide as Hc; [|done].
    rewrite (turns_next _ _ _ Hs Hc) in Hn. done.
  - assert (cur <= end_dt) as Hc.
    { unfold turns in Hn. case_bool_decide; done. }
    rewrite (turns_next _ _ _ Hs Hc) in Hn. injection Hn as Hn.
    rewrite slots_loop_S, bool_decide_eq_true_2 by done.
    rewrite datetime_add_in_range by lia.
    assert (Hnext : datetime_min <= cur + step) by lia.
    rewrite (IH _ Hnext Hn). cbn [seq map]. f_equal. f_equal.
    + f_equal. lia.
    + rewrite <- seq_shift, map_map. apply map_ext. intros i.
      f_equal. lia.
Qed.

Lemma slots_loop_more fuel cur end_dt step out :
  slots_loop fuel cur end_dt step = Returned out ->
  forall fuel', (fuel <= fuel')%nat ->
                slots_loop fuel' cur end_dt step = Returned out.
Proof.
  revert cur out. induction fuel as [|fuel IH]; intros cur out H; [done|].
  intros [|fuel'] Hle; [lia|].
  rewrite slots_loop_S in *. case_bool_decide; [|done].
  destruct (datetime_add cur step) as [next|]; [|done].
  destruct (slots_loop fuel next end_dt step) as [l| |] eqn:E;
    try done.
  rewrite (IH _ _ E fuel') by lia. done.
Qed.

Lemma slots_loop_agree f1 f2 cur end_dt step l1 l2 :
  slots_loop f1 cur end_dt step = Returned l1 ->
  slots_loop f2 cur end_dt step = Returned l2 -> l1 = l2.
Proof.
  intros H1 H2.
  pose proof (slots_loop_more _ _ _ _ _ H1 (max f1 f2) ltac:(lia)) as E1.
  pose proof (slots_loop_more _ _ _ _ _ H2 (max f1 f2) ltac:(lia)) as E2.
  congruence.
Qed.

Lemma grid_lookup m0 m1 step i a :
  0 < step -> m0 <= m1 ->
  grid m0 m1 step !! i = Some a ->
  a = label_of_minute (m0 + Z.of_nat i * step)
  /\ m0 + Z.of_nat i * step <= m1.
Proof.
  intros Hs Hm. unfold grid. rewrite list_lookup_fmap.
  destruct (seq 0 _ !! i) as [j|] eqn:E; [|done].
  apply lookup_seq in E as [-> Hlt]. cbn. intros [= <-].
  split; [done|].
  assert (0 <= (m1 - m0) / step) by (apply Z.div_pos; lia).
  assert (Z.of_nat i <= (m1 - m0) / step) by lia.
  pose proof (Z.mul_div_le (m1 - m0) step Hs). nia.
Qed.

Lemma grid_lookup_lt m0 m1 step i :
  0 < step -> m0 <= m1 -> m0 + Z.of_nat i * step <= m1 ->
  grid m0 m1 step !! i = Some (label_of_minute (m0 + Z.of_nat i * step)).
Proof.
  intros Hs Hm Hi. unfold grid. rewrite list_lookup_fmap.
  rewrite lookup_seq_lt; [done|].
  assert (Z.of_nat i <= (m1 - m0) / step)
    by (apply Z.div_le_lower_bound; lia).
  lia.
Qed.

(** The loop of [build_day_slots] between two minutes of a day. *)
Lemma slots_of_day day m0 m1 step :
  0 < step -> 0 <= m0 -> m0 <= m1 -> m1 < 1440 ->
  map (fun i => strftime_HM (day * usec_per_day + m0 * usec_per_minute
                             + Z.of_nat i * (step * usec_per_minute)))
      (seq 0 (turns (day * usec_per_day + m0 * usec_per_minute)
                (day * usec_per_day + m1 * usec_per_minute)
                (step * usec_per_minute)))
  = grid m0 m1 step.
Proof.
  intros Hs H0 Hm H1.
  assert (0 < usec_per_minute) as Hu
    by (unfold usec_per_minute, usec_per_second; lia).
  assert (turns (day * usec_per_day + m0 * usec_per_minute)
            (day * usec_per_day + m1 * usec_per_minute)
            (step * usec_per_minute)
          = Z.to_nat ((m1 - m0) / step + 1)) as ->.
  { unfold turns. rewrite bool_decide_eq_true_2 by nia.
    replace (day * usec_per_day + m1 * usec_per_minute
             - (day * usec_per_day + m0 * usec_per_minute))
      with ((m1 - m0) * usec_per_minute) by lia.
    rewrite Z.div_mul_cancel_r by lia. done. }
  unfold grid. apply map_ext_in. intros i Hi. apply in_seq in Hi.
  replace (day * usec_per_day + m0 * usec_per_minute
           + Z.of_nat i * (step * usec_per_minute))
    with (day * usec_per_day + (m0 + Z.of_nat i * step) * usec_per_minute)
    by lia.
  apply strftime_HM_label.
  assert (0 <= (m1 - m0) / step) by (apply Z.div_pos; lia).
  assert (Z.of_nat i <= (m1 - m0) / step) by lia.
  pose proof (Z.mul_div_le (m1 - m0) step Hs). nia.
Qed.

(** C6, as the code has it: for a positive interval that [cur += step]
    can add to any instant of the dummy day (at most 2921939 days, the
    distance to the end of the range of [datetime]) and "HH:MM" labels
    [day_start <= day_end], [build_day_slots] returns (given enough
    fuel, and the same list whatever the fuel) the labels of
    [day_start + i * interval] for every [i >= 0] that stays at or
    below [day_end]: the list starts at [day_start], is strictly
    increasing, and holds [day_end] exactly when the interval divides
    [day_end - day_start]. *)
Theorem build_day_slots_grid (cfg : Settings) (m0 m1 : Z) :
  0 < SLOT_INTERVAL_MIN cfg <= longest_interval ->
  0 <= m0 -> m0 <= m1 -> m1 < 1440 ->
  SLOT_DAY_START cfg = label_of_minute m0 ->
  SLOT_DAY_END cfg = label_of_minute m1 ->
  let step := SLOT_INTERVAL_MIN cfg in
  let out := grid m0 m1 step in
  (exists fuel, forall fuel', (fuel <= fuel')%nat ->
                              build_day_slots cfg fuel' = Returned out)
  /\ (forall fuel l, build_day_slots cfg fuel = Returned l -> l = out)
  /\ head out = Some (SLOT_DAY_START cfg)
  /\ (forall i a, out !! i = Some a ->
                  a = label_of_minute (m0 + Z.of_nat i * step)
                  /\ m0 + Z.of_nat i * step <= m1)
  /\ (forall i j a b, out !! i = Some a -> out !! j = Some b ->
                      (i < j)%nat -> PyStr.ltb a b = true)
  /\ (SLOT_DAY_END cfg ∈ out <-> (step | m1 - m0)).
Proof.
  intros [Hs Hlong] H0 Hm H1 Hstart Hend step out.
  assert (Hbuild : forall fuel,
             build_day_slots cfg fuel
             = slots_loop fuel
                 (day_2000_01_01 * usec_per_day + m0 * usec_per_minute)
                 (day_2000_01_01 * usec_per_day + m1 * usec_per_minute)
                 (step * usec_per_minute)).
  { intros fuel. unfold build_day_slots. rewrite Hstart, Hend.
    destruct (label_checked m0 ltac:(lia)) as [-> _].
    destruct (label_checked m1 ltac:(lia)) as [-> _].
    cbn [hour minute]. unfold naive_datetime.
    replace (m0 / 60 * 60 + m0 mod 60) with m0
      by (pose proof (Z.div_mod m0 60 ltac:(lia)); lia).
    replace (m1 / 60 * 60 + m1 mod 60) with m1
      by (pose proof (Z.div_mod m1 60 ltac:(lia)); lia).
    fold step. rewrite (timedelta_minutes_in_range step); [done|].
    unfold longest_interval in Hlong. unfold step. lia. }
  assert (0 < step * usec_per_minute) as Hstep
    by (unfold usec_per_minute, usec_per_second; lia).
  assert (Hmax : day_2000_01_01 * usec_per_day + m1 * usec_per_minute
                 + step * usec_per_minute <= datetime_max).
  { unfold datetime_max, day_2000_01_01, usec_per_day, usec_per_minute,
      usec_per_second, longest_interval in *. unfold step. lia. }
  assert (Hmin : datetime_min
                 <= day_2000_01_01 * usec_per_day + m0 * usec_per_minute).
  { unfold datetime_min, day_2000_01_01, usec_per_day, usec_per_minute,
      usec_per_second. lia. }
  pose proof (slots_loop_returns _
                (day_2000_01_01 * usec_per_day + m1 * usec_per_minute)
                Hstep Hmax _
                (day_2000_01_01 * usec_per_day + m0 * usec_per_minute)
                Hmin eq_refl) as Hrun.
  rewrite (slots_of_day _ m0 m1 step) in Hrun by lia.
  fold out in Hrun.
  split.
  { eexists. intros fuel' Hle. rewrite Hbuild.
    eapply slots_loop_more; done. }
  split.
  { intros fuel l Hl. rewrite Hbuild in Hl.
    eapply slots_loop_agree; done. }
  split.
  { rewrite Hstart, head_lookup. unfold out.
    rewrite (grid_lookup_lt m0 m1 step 0) by lia.
    do 2 f_equal. lia. }
  split; [intros i a; apply grid_lookup; done|].
  split.
  { intros i j a b Hi Hj Hlt.
    apply grid_lookup in Hi as [-> Hi], Hj as [-> Hj]; try done.
    apply label_lt; nia. }
  rewrite Hend, list_elem_of_lookup. unfold out. split.
  - intros [i Hi]. apply grid_lookup in Hi as [E Hi]; try done.
    apply label_inj in E; [|lia|nia].
    exists (Z.of_nat i). lia.
  - intros [q Hq]. exists (Z.to_nat q).
    assert (0 <= q) by nia.
    rewrite (grid_lookup_lt m0 m1 step)
      by (rewrite ?Z2Nat.id by lia; lia).
    do 2 f_equal. rewrite Z2Nat.id; lia.
Qed.

Lemma build_day_slots_grid_witness :
  (forall fuel l, build_day_slots default_settings fuel = Returned l ->
                  l = grid 510 1320 30)
  /\ ("22:00" ∈ grid 510 1320 30 <-> (30 | 1320 - 510)).
Proof.
  pose proof (build_day_slots_grid default_settings 510 1320
                ltac:(done) ltac:(done) ltac:(done) ltac:(done)
                eq_refl eq_refl) as H.
  cbv zeta in H. destruct H as (_ & H2 & _ & _ & _ & H6).
  split; [exact H2|exact H6].
Defined.

(** The default grid: 28 labels from 08:30 to 22:00. *)
Example default_grid :
  build_day_slots default_settings 29
  = Returned
      ["08:30"; "09:00"; "09:30"; "10:00"; "10:30"; "11:00"; "11:30";
       "12:00"; "12:30"; "13:00"; "13:30"; "14:00"; "14:30"; "15:00";
       "15:30"; "16:00"; "16:30"; "17:00"; "17:30"; "18:00"; "18:30";
       "19:00"; "19:30"; "20:00"; "20:30"; "21:00"; "21:30"; "22:00"].
Proof. vm_compute. reflexivity. Qed.

(** Beyond the range the code raises [OverflowError]: with an interval
    of 2^32 minutes the first [cur += step] leaves the year 9999, with
    one of minus 2000 years it falls before the year 1, and an interval
    of 10^9 days is refused by [timedelta] itself. *)
Example interval_out_of_range :
  let cfg i :=
    {| MIN_CANCEL_WINDOW_HOURS := 2; SLOT_INTERVAL_MIN := i;
       SLOT_DAY_START := "08:30"; SLOT_DAY_END := "22:00";
       CLEANING_GROUP_NAME := "Aseo" |} in
  build_day_slots (cfg 4294967296) 5 = Raised
  /\ build_day_slots (cfg (-1051898400)) 5 = Raised
  /\ build_day_slots (cfg (1000000000 * 1440)) 5 = Raised
  /\ build_day_slots (cfg longest_interval) 5 = Returned ["08:30"].
Proof. vm_compute. done. Qed.

(** With a step of 60 minutes from 08:30 the last label is 21:30: the
    end of the day, 22:00, is not a label. *)
Lemma hourly_grid_misses_day_end :
  PyStr.leb (SLOT_DAY_START Sample.hourly) (SLOT_DAY_END Sample.hourly)
  = true
  /\ exists out,
       build_day_slots Sample.hourly 15 = Returned out
       /\ last out = Some "21:30"
       /\ SLOT_DAY_END Sample.hourly ∉ out.
Proof.
  split; [reflexivity|].
  eexists. split; [vm_compute; reflexivity|].
  split; [reflexivity|].
  rewrite !not_elem_of_cons, elem_of_nil. cbn.
  repeat split; try discriminate. tauto.
Qed.

(** ** The purpose text *)

Lemma lower_char_colon c : PyStr.lower_char c = ":"%char -> c = ":"%char.
Proof.
  destruct c as [[] [] [] [] [] [] [] []]; vm_compute; congruence.
Qed.

(** A part whose lowered text starts with a prefix that ends in a
    colon has a colon: [part.split(":", 1)[1]] does not raise. *)
Lemma prefix_colon_split pre s :
  PyStr.startswith (PyStr.lower s) (pre +:+ ":") = true ->
  is_Some (PyStr.split1_snd ":" s).
Proof.
  unfold PyStr.lower. revert s.
  induction pre as [|a pre IH]; intros [|c s];
    [change ("" +:+ ":") with ":"
    |change ("" +:+ ":") with ":"
    |change (String a pre +:+ ":") with (String a (pre +:+ ":"))
    |change (String a pre +:+ ":") with (String a (pre +:+ ":"))];
    cbn [PyStr.map_chars PyStr.startswith PyStr.split1_snd];
    try done.
  - destruct (Ascii.eqb_spec ":" (PyStr.lower_char c)) as [E|];
      [|cbn [andb]; done].
    intros _. symmetry in E. apply lower_char_colon in E. subst c.
    rewrite Ascii.eqb_refl. eauto.
  - destruct (Ascii.eqb a (PyStr.lower_char c)); cbn [andb]; [|done].
    intros H. destruct (Ascii.eqb c ":"); [eauto|]. apply IH. done.
Qed.

Lemma is_recursos_split part :
  is_recursos part = true -> is_Some (PyStr.split1_snd ":" part).
Proof. apply (prefix_colon_split "recursos solicitados"). Qed.

Lemma is_detalle_split part :
  is_detalle part = true -> is_Some (PyStr.split1_snd ":" part).
Proof.
  unfold is_detalle. intros H. apply andb_prop in H as [_ H].
  revert H. apply (prefix_colon_split "detalle recursos").
Qed.

Lemma split_step_cases base_parts recursos detalle part :
  split_step (Some (base_parts, recursos, detalle)) part
  = if is_recursos part then
      match PyStr.split1_snd ":" part with
      | Some v => Some (base_parts, PyStr.strip v, detalle)
      | None => None
      end
    else if is_detalle part then
      match PyStr.split1_snd ":" part with
      | Some v => Some (base_parts, recursos, PyStr.strip v)
      | None => None
      end
    else Some (base_parts ++ [part], recursos, detalle).
Proof.
  unfold split_step, is_detalle, is_recursos.
  destruct (PyStr.startswith (PyStr.lower part) prefix_recursos); done.
Qed.

Lemma last_value_or_cons d x l :
  last_value_or d (x :: l)
  = last_value_or (PyStr.strip (default "" (PyStr.split1_snd ":" x))) l.
Proof.
  unfold last_value_or. rewrite last_cons. destruct (last l); done.
Qed.

(** The loop of [split_purpose] against the closed form, from any
    state of the accumulators. *)
Lemma foldl_split_step parts base_parts recursos detalle :
  foldl split_step (Some (base_parts, recursos, detalle)) parts
  = Some (base_parts
          ++ filter (fun p => is_recursos p = false /\ is_detalle p = false)
               parts,
          last_value_or recursos
            (filter (fun p => is_recursos p = true) parts),
          last_value_or detalle
            (filter (fun p => is_detalle p = true) parts)).
Proof.
  revert base_parts recursos detalle.
  induction parts as [|part parts IH]; intros base_parts recursos detalle.
  - cbn. rewrite app_nil_r. done.
  - cbn [foldl]. rewrite split_step_cases, !filter_cons.
    destruct (is_recursos part) eqn:Hr, (is_detalle part) eqn:Hd.
    + unfold is_detalle in Hd. rewrite Hr in Hd. done.
    + destruct (is_recursos_split _ Hr) as [v Hv]. rewrite Hv, IH.
      rewrite decide_False by naive_solver.
      rewrite decide_True by done.
      rewrite decide_False by done.
      rewrite last_value_or_cons, Hv. done.
    + destruct (is_detalle_split _ Hd) as [v Hv]. rewrite Hv, IH.
      rewrite decide_False by naive_solver.
      rewrite decide_False by done.
      rewrite decide_True by done.
      rewrite last_value_or_cons, Hv. done.
    + rewrite IH.
      rewrite decide_True by done.
      rewrite decide_False by done.
      rewrite decide_False by done.
      rewrite <- app_assoc. done.
Qed.

(** C9: a reservation whose purpose is "Recursos solicitados:
    Proyector | Detalle recursos: HDMI", which is what the creation
    view writes for the resource Proyector with the note HDMI and no
    purpose, is exported with "Proyector" under "Recursos solicitados",
    "HDMI" under "Detalle recursos" and nothing under "Motivo de
    solicitud".  In general [split_purpose] never raises, and on a
    purpose that is not empty it returns the closed form over the
    stripped parts between the bars: the parts with neither prefix
    joined into the base purpose, the value of the last part with each
    prefix in its column. *)
Theorem export_splits_purpose :
  (forall r,
     purpose r = "Recursos solicitados: Proyector | Detalle recursos: HDMI" ->
     export_cells r
     = Some {| main_purpose := ""; resources_str := "Proyector";
               details_str := "HDMI" |})
  /\ compose_purpose "" ["Proyector"] "HDMI"
     = "Recursos solicitados: Proyector | Detalle recursos: HDMI"
  /\ (forall p,
        PyStr.truthy p = true ->
        split_purpose p
        = Some (routed (map PyStr.strip (PyStr.split "|" p))))
  /\ split_purpose "" = Some ("", "", "")
  /\ (forall r, is_Some (export_cells r)).
Proof.
  assert (Hgen : forall p,
             PyStr.truthy p = true ->
             split_purpose p
             = Some (routed (map PyStr.strip (PyStr.split "|" p)))).
  { intros p Hp. unfold split_purpose. rewrite Hp. cbn [negb].
    rewrite foldl_split_step. done. }
  split; [intros r Hr; unfold export_cells; rewrite Hr; vm_compute; done|].
  split; [vm_compute; done|].
  split; [done|]. split; [done|].
  intros r. unfold export_cells.
  destruct (PyStr.truthy (purpose r)) eqn:Hp.
  - rewrite (Hgen _ Hp). unfold routed. done.
  - destruct (purpose r); [|done]. cbn. done.
Qed.

(** Upper case prefixes are routed too, and a bar inside a resource
    name cuts it. *)
Example split_purpose_cases :
  split_purpose "Clase | RECURSOS SOLICITADOS: Proyector, Parlantes"
  = Some ("Clase", "Proyector, Parlantes", "")
  /\ split_purpose (compose_purpose "Clase" ["Proyector|HDMI"] "")
     = Some ("Clase | HDMI", "Proyector", "").
Proof. vm_compute. done. Qed.

(** ** Creation *)

Lemma field_valid {A} name (ok : A -> bool) raw v e :
  field name ok raw = (v, e) -> e = [] ->
  exists x, raw = Some x /\ ok x = true /\ v = Some x.
Proof.
  unfold field. destruct raw as [x|]; [destruct (ok x) eqn:E|];
    intros [= <- <-]; try done.
  intros _. exists x. done.
Qed.

(** The field pass without errors: every required field is there and
    passes its test. *)
Lemma ReservationForm_fields_valid db choices p c e :
  ReservationForm_fields db choices p = (c, e) -> e = [] ->
  exists sp d s0 s1 n,
    post_space p = Some sp /\ sp ∈ Space_objects db
    /\ post_date p = Some d
    /\ post_start_slot p = Some s0 /\ PyStr.truthy s0 = true
    /\ s0 ∈ choices
    /\ post_end_slot p = Some s1 /\ PyStr.truthy s1 = true
    /\ s1 ∈ choices
    /\ post_attendees_count p = Some n
    /\ cleaned_space c = Some sp /\ cleaned_date c = Some d
    /\ cleaned_start_slot c = Some s0 /\ cleaned_end_slot c = Some s1
    /\ cleaned_attendees_count c = Some n
    /\ _start_dt c = None.
Proof.
  unfold ReservationForm_fields.
  destruct (field "space" _ _) as [sp e1] eqn:H1.
  destruct (field "date" _ _) as [d e2] eqn:H2.
  destruct (field "start_slot" _ _) as [s0 e3] eqn:H3.
  destruct (field "end_slot" _ _) as [s1 e4] eqn:H4.
  destruct (field "attendees_count" _ _) as [n e5] eqn:H5.
  destruct (field "purpose" _ _) as [pu e6] eqn:H6.
  intros [= <- <-] He.
  repeat (apply app_eq_nil in He as [? He]).
  apply field_valid in H1 as (sp' & -> & Hsp & ->); [|done].
  apply field_valid in H2 as (d' & -> & _ & ->); [|done].
  apply field_valid in H3 as (s0' & -> & Hs0 & ->); [|done].
  apply field_valid in H4 as (s1' & -> & Hs1 & ->); [|done].
  apply field_valid in H5 as (n' & -> & _ & ->); [|done].
  apply andb_prop in Hs0 as [? Hs0], Hs1 as [? Hs1].
  apply bool_decide_eq_true in Hsp, Hs0, Hs1.
  exists sp', d', s0', s1', n'. cbn. done.
Qed.

Lemma app_is_valid e1 e2 : is_valid (e1 ++ e2) = true -> e1 = [] /\ e2 = [].
Proof. intros H. apply is_valid_nil, app_eq_nil in H. done. Qed.

Lemma form_conflict_false db sp s e :
  form_conflict db None sp s e = false ->
  forall x, x ∈ Reservation_objects db -> ~ active_overlap sp s e x.
Proof.
  intros H x Hx Ho.
  assert (form_conflict db None sp s e = true) as E; [|congruence].
  apply form_conflict_true. exists x. done.
Qed.

(** A valid reservation form that reached the end of [clean]. *)
Lemma ReservationForm_clean_valid now db choices p c e sd ed :
  ReservationForm_clean now db choices None p = Returned (c, e) ->
  is_valid e = true -> _start_dt c = Some sd -> _end_dt c = Some ed ->
  exists sp date s_lbl e_lbl s t n,
    post_space p = Some sp /\ post_date p = Some date
    /\ post_start_slot p = Some s_lbl /\ post_end_slot p = Some e_lbl
    /\ s_lbl ∈ choices /\ e_lbl ∈ choices
    /\ PyStr.ltb s_lbl e_lbl = true
    /\ label_time s_lbl = Some s /\ label_time e_lbl = Some t
    /\ sd = naive_datetime date (hour s) (minute s)
    /\ ed = naive_datetime date (hour t) (minute t)
    /\ ed > sd /\ sd >= now
    /\ (forall x, x ∈ Reservation_objects db -> ~ active_overlap sp sd ed x)
    /\ cleaned_space c = Some sp
    /\ cleaned_attendees_count c = Some n.
Proof.
  unfold ReservationForm_clean.
  destruct (ReservationForm_fields db choices p) as [c0 e0] eqn:Hf.
  assert (Hearly : is_valid e0 = true -> _start_dt c0 = Some sd -> False).
  { intros Hv Hsd. apply is_valid_nil in Hv.
    destruct (ReservationForm_fields_valid _ _ _ _ _ Hf Hv)
      as (? & ? & ? & ? & ? & H). rewrite Hsd in H. naive_solver. }
  destruct (cleaned_date c0) as [date|] eqn:Hd;
    [|intros [= <- <-] Hv Hsd; destruct (Hearly Hv Hsd)].
  destruct (cleaned_start_slot c0) as [s_lbl|] eqn:Hs0;
    [|intros [= <- <-] Hv Hsd; destruct (Hearly Hv Hsd)].
  destruct (cleaned_end_slot c0) as [e_lbl|] eqn:Hs1;
    [|intros [= <- <-] Hv Hsd; destruct (Hearly Hv Hsd)].
  destruct (negb (PyStr.truthy s_lbl) || negb (PyStr.truthy e_lbl));
    [intros [= <- <-] Hv Hsd; destruct (Hearly Hv Hsd)|].
  destruct (bool_decide (s_lbl ∉ choices) || bool_decide (e_lbl ∉ choices));
    [intros [= <- <-] Hv; apply app_is_valid in Hv; naive_solver|].
  destruct (PyStr.leb e_lbl s_lbl) eqn:Hleb;
    [intros [= <- <-] Hv; apply app_is_valid in Hv; naive_solver|].
  destruct (label_time s_lbl) as [s|] eqn:Hls; [|done].
  destruct (label_time e_lbl) as [t|] eqn:Hlt; [|done].
  unfold make_aware_if_naive.
  case_bool_decide as Hgt; cbn [negb];
    [|intros [= <- <-] Hv; apply app_is_valid in Hv; naive_solver].
  assert (Hvalid : forall l,
             is_valid ((if bool_decide
                             (naive_datetime date (hour s) (minute s) < now)
                        then e0 ++ ["date"] else e0) ++ l) = true ->
             e0 = [] /\ l = []
             /\ naive_datetime date (hour s) (minute s) >= now).
  { intros l Hv. apply app_is_valid in Hv as [Hv ->].
    case_bool_decide; [apply app_eq_nil in Hv; naive_solver|].
    split; [done|]. split; [done|lia]. }
  assert (Hfin : forall cf,
             form_conflict db None cf
               (naive_datetime date (hour s) (minute s))
               (naive_datetime date (hour t) (minute t)) = false ->
             cleaned_space c0 = Some cf ->
             is_valid e = true ->
             (if bool_decide (naive_datetime date (hour s) (minute s) < now)
              then e0 ++ ["date"] else e0) = e ->
             set_dts (naive_datetime date (hour s) (minute s))
               (naive_datetime date (hour t) (minute t)) c0 = c ->
             _start_dt c = Some sd -> _end_dt c = Some ed ->
             exists sp date' s_lbl' e_lbl' s' t' n,
               post_space p = Some sp /\ post_date p = Some date'
               /\ post_start_slot p = Some s_lbl'
               /\ post_end_slot p = Some e_lbl'
               /\ s_lbl' ∈ choices /\ e_lbl' ∈ choices
               /\ PyStr.ltb s_lbl' e_lbl' = true
               /\ label_time s_lbl' = Some s' /\ label_time e_lbl' = Some t'
               /\ sd = naive_datetime date' (hour s') (minute s')
               /\ ed = naive_datetime date' (hour t') (minute t')
               /\ ed > sd /\ sd >= now
               /\ (forall x, x ∈ Reservation_objects db ->
                             ~ active_overlap sp sd ed x)
               /\ cleaned_space c = Some sp
               /\ cleaned_attendees_count c = Some n).
  { intros cf Hconf Hcf Hv He <- Hsd Hed. cbn in Hsd, Hed.
    injection Hsd as <-. injection Hed as <-.
    rewrite <- (app_nil_r e) in Hv. rewrite <- He in Hv.
    apply Hvalid in Hv as (He0 & _ & Hnow).
    destruct (ReservationForm_fields_valid _ _ _ _ _ Hf He0)
      as (sp & d & s0 & s1 & n & Hp1 & _ & Hp2 & Hp3 & _ & Hin0 & Hp4 & _
          & Hin1 & _ & Hc1 & Hc2 & Hc3 & Hc4 & Hc5 & _).
    rewrite Hd in Hc2. rewrite Hs0 in Hc3. rewrite Hs1 in Hc4.
    injection Hc2 as <-. injection Hc3 as <-. injection Hc4 as <-.
    rewrite Hcf in Hc1. injection Hc1 as <-.
    exists cf, date, s_lbl, e_lbl, s, t, n.
    repeat (split; [done|]).
    split.
    { unfold PyStr.leb in Hleb. destruct (PyStr.ltb s_lbl e_lbl); done. }
    repeat (split; [done|]).
    split; [apply form_conflict_false; done|]. cbn. done. }
  cbn [cleaned_space set_dts].
  destruct (cleaned_space c0) as [cf|] eqn:Hcf.
  - destruct (form_conflict db None cf _ _) eqn:Hconf.
    + intros [= <- <-] Hv. apply Hvalid in Hv. naive_solver.
    + intros [= <- <-] Hv. apply (Hfin cf); done.
  - intros [= <- <-] Hv _ _. pose proof (Hvalid []) as Hv'.
    rewrite app_nil_r in Hv'. apply Hv' in Hv as (He0 & _).
    destruct (ReservationForm_fields_valid _ _ _ _ _ Hf He0)
      as (sp & d & s0 & s1 & n & _ & _ & _ & _ & _ & _ & _ & _
          & _ & _ & Hc1 & _).
    rewrite Hcf in Hc1. done.
Qed.

(** A creation request either leaves the store as it was and does not
    redirect to the dashboard, or passed every check of the form and
    appended one PENDING row. *)
Lemma create_cases cfg fuel now db request res :
  ReservationCreateView_post cfg fuel now db request = Returned res ->
  (db_after res = db /\ response res <> Redirect "dashboard_user")
  \/ (response res = Redirect "dashboard_user"
      /\ exists u slots sp date s_lbl e_lbl s t r,
           create_user request = Some u
           /\ build_day_slots cfg fuel = Returned slots
           /\ post_space (create_POST request) = Some sp
           /\ post_date (create_POST request) = Some date
           /\ post_start_slot (create_POST request) = Some s_lbl
           /\ post_end_slot (create_POST request) = Some e_lbl
           /\ s_lbl ∈ slots /\ e_lbl ∈ slots
           /\ PyStr.ltb s_lbl e_lbl = true
           /\ label_time s_lbl = Some s /\ label_time e_lbl = Some t
           /\ start r = naive_datetime date (hour s) (minute s)
           /\ end_ r = naive_datetime date (hour t) (minute t)
           /\ end_ r > start r /\ start r >= now
           /\ (forall x, x ∈ Reservation_objects db ->
                         ~ active_overlap sp (start r) (end_ r) x)
           /\ status r = PENDING /\ space r = sp /\ user r = user_id u
           /\ pk r = Some (next_pk (Reservation_objects db))
           /\ Reservation_objects (db_after res)
              = Reservation_objects db ++ [r]).
Proof.
  unfold ReservationCreateView_post.
  destruct (create_user request) as [u|] eqn:Hu;
    [|intros [= <-]; left; done].
  destruct (build_day_slots cfg fuel) as [slots| |] eqn:Hb;
    try discriminate.
  destruct (initial_slots slots _); try discriminate.
  case_bool_decide as Hm; [|intros [= <-]; left; done].
  destruct (ReservationForm_clean now db slots None
              (create_POST request)) as [[c e]| |] eqn:Hc;
    try discriminate.
  destruct (is_valid e) eqn:Hv; [|intros [= <-]; left; done].
  destruct (cleaned_space c) as [sp|] eqn:Hsp; [|intros [= <-]; left; done].
  destruct (cleaned_attendees_count c) as [n|] eqn:Hn;
    [|intros [= <-]; left; done].
  destruct (_start_dt c) as [sd|] eqn:Hsd; [|intros [= <-]; left; done].
  destruct (_end_dt c) as [ed|] eqn:Hed; [|intros [= <-]; left; done].
  destruct (ReservationForm_clean_valid _ _ _ _ _ _ _ _ Hc Hv Hsd Hed)
    as (sp' & date & s_lbl & e_lbl & s & t & n' & Hp1 & Hp2 & Hp3 & Hp4
        & Hi0 & Hi1 & Hlt & Hl0 & Hl1 & -> & -> & Hgt & Hnow & Hfree
        & Hsp' & _).
  rewrite Hsp in Hsp'. injection Hsp' as <-.
  match goal with
  | |- context [Reservation_save ?n ?i ?d] =>
      set (inst := i); set (db1 := d)
  end.
  assert (Reservation_objects db1 = Reservation_objects db) as Hr
    by apply notify_each_tables.
  unfold Reservation_save. cbn [pk inst]. rewrite Hr.
  intros [= <-]. right. split; [done|].
  exists u, slots, sp, date, s_lbl, e_lbl, s, t,
    (Reservation_insert now (next_pk (Reservation_objects db)) inst).
  cbn. done.
Qed.

(** C7: a reservation is created only if the start and end labels are
    on the grid with the end label after the start label, the end is
    after the start, the start is not before now, and no PENDING or
    APPROVED row of the space overlaps; then one PENDING row is
    appended.  Any other outcome leaves the store as it was, and so
    does a start in the past, although that check only adds an error to
    the [date] field. *)
Theorem create_needs_valid_free_slot (cfg : Settings) (fuel : nat)
    (now : datetime) (db : DB) (request : CreateRequest) (res : Result) :
  ReservationCreateView_post cfg fuel now db request = Returned res ->
  (response res = Redirect "dashboard_user" ->
   exists slots sp date s_lbl e_lbl s t r,
     build_day_slots cfg fuel = Returned slots
     /\ post_space (create_POST request) = Some sp
     /\ post_date (create_POST request) = Some date
     /\ post_start_slot (create_POST request) = Some s_lbl
     /\ post_end_slot (create_POST request) = Some e_lbl
     /\ s_lbl ∈ slots /\ e_lbl ∈ slots
     /\ PyStr.ltb s_lbl e_lbl = true
     /\ label_time s_lbl = Some s /\ label_time e_lbl = Some t
     /\ start r = naive_datetime date (hour s) (minute s)
     /\ end_ r = naive_datetime date (hour t) (minute t)
     /\ end_ r > start r
     /\ start r >= now
     /\ (forall x, x ∈ Reservation_objects db ->
                   ~ active_overlap sp (start r) (end_ r) x)
     /\ status r = PENDING /\ space r = sp
     /\ Reservation_objects (db_after res) = Reservation_objects db ++ [r])
  /\ (response res <> Redirect "dashboard_user" -> db_after res = db)
  /\ (forall date s_lbl s,
        post_date (create_POST request) = Some date ->
        post_start_slot (create_POST request) = Some s_lbl ->
        label_time s_lbl = Some s ->
        naive_datetime date (hour s) (minute s) < now ->
        db_after res = db /\ response res <> Redirect "dashboard_user").
Proof.
  intros H.
  destruct (create_cases _ _ _ _ _ _ H)
    as [[Hdb Hne]
       |(Hresp & u & slots & sp & date & s_lbl & e_lbl & s & t & r & Hu & Hb
         & Hp1 & Hp2 & Hp3 & Hp4 & Hi0 & Hi1 & Hlt & Hl0 & Hl1 & Hs & He
         & Hgt & Hnow & Hfree & Hst & Hspace & _ & _ & Hrows)].
  - split; [done|]. split; done.
  - split.
    { intros _. exists slots, sp, date, s_lbl, e_lbl, s, t, r. done. }
    split; [done|].
    intros date' s_lbl' s' Hd' Hs' Hl' Hpast.
    rewrite Hp2 in Hd'. injection Hd' as <-.
    rewrite Hp3 in Hs'. injection Hs' as <-.
    rewrite Hl0 in Hl'. injection Hl' as <-.
    lia.
Qed.

Lemma create_needs_valid_free_slot_witness :
  exists res,
    ReservationCreateView_post default_settings 29 Sample.now Sample.db
      (Sample.create "10:30" "11:30") = Returned res
    /\ db_after res = Sample.db.
Proof.
  eexists. split; [vm_compute; reflexivity|].
  refine (proj1 (proj2
    (create_needs_valid_free_slot default_settings 29 Sample.now Sample.db
       (Sample.create "10:30" "11:30") _ _)) _).
  - vm_compute. reflexivity.
  - vm_compute. discriminate.
Defined.

(** The scenario of the space with one APPROVED reservation from 10:00
    to 11:00: a request for 09:30-10:00 and one for 11:00-12:00 are
    saved as PENDING, a request for 10:30-11:30 is refused. *)
Example auditorio_scenario :
  let db := set_reservations [Sample.approved_10_11] Sample.db in
  let post s e :=
    ReservationCreateView_post default_settings 29 Sample.now db
      (Sample.create s e) in
  let created o :=
    match o with
    | Returned res =>
        (response res,
         map (fun r => (status r, purpose r))
             (drop 1 (Reservation_objects (db_after res))))
    | _ => (ServerError, [])
    end in
  let trace := "Recursos solicitados: Proyector | Detalle recursos: HDMI" in
  created (post "09:30" "10:00")
  = (Redirect "dashboard_user", [(PENDING, trace)])
  /\ created (post "10:30" "11:30")
     = (Render "reservations/form.html", [])
  /\ created (post "11:00" "12:00")
     = (Redirect "dashboard_user", [(PENDING, trace)]).
Proof. vm_compute. done. Qed.

(** A start in the past is refused. *)
Example past_start_refused :
  match ReservationCreateView_post default_settings 29
          (naive_datetime Sample.day 9 31) Sample.db
          (Sample.create "09:30" "10:00") with
  | Returned res =>
      response res = Render "reservations/form.html"
      /\ db_after res = Sample.db
  | _ => False
  end.
Proof. vm_compute. done. Qed.

(** With a step of zero the loop of the grid never leaves
    [cur <= end_dt]: no amount of fuel gives a list. *)
Lemma slots_loop_stuck end_dt fuel cur :
  datetime_min <= cur <= datetime_max -> cur <= end_dt ->
  slots_loop fuel cur end_dt 0 = OutOfFuel.
Proof.
  intros Hr Hc. induction fuel as [|fuel IH]; [done|].
  rewrite slots_loop_S, bool_decide_eq_true_2 by done.
  rewrite datetime_add_in_range by lia.
  rewrite Z.add_0_r, IH. done.
Qed.

(** An instant of the dummy day is in the range of [datetime]. *)
Lemma dummy_in_range h m :
  0 <= h < 24 -> 0 <= m < 60 ->
  datetime_min <= naive_datetime day_2000_01_01 h m <= datetime_max.
Proof.
  intros Hh Hm.
  unfold datetime_min, datetime_max, naive_datetime, day_2000_01_01,
    usec_per_day, usec_per_minute, usec_per_second. lia.
Qed.

Lemma _parse_hhmm_range s t :
  _parse_hhmm s = Some t -> 0 <= hour t < 24 /\ 0 <= minute t < 60.
Proof.
  unfold _parse_hhmm.
  destruct (PyStr.split ":" s) as [|hh [|mm [|]]]; try done.
  destruct (int_ hh), (int_ mm); try done.
  unfold time_. case_bool_decide; [|done]. intros [= <-]. done.
Qed.

(** * Further properties of the views *)

(** ** What the writes add *)

Lemma notify_each_notifications us m db :
  Notification_objects (notify_each us m db)
  = Notification_objects db ++ notices us m.
Proof.
  unfold notify_each, notices. revert db.
  induction us as [|u us IH]; intros db; cbn [foldl map].
  - rewrite app_nil_r. done.
  - rewrite IH. cbn. rewrite <- app_assoc. done.
Qed.

Lemma _notify_group_notifications cfg m db :
  Notification_objects (notify_cleaning_staff cfg m db)
  = Notification_objects db ++ notices (cleaning_staff cfg db) m.
Proof.
  unfold notify_cleaning_staff, _notify_group, cleaning_staff.
  case_bool_decide.
  - apply notify_each_notifications.
  - cbn. rewrite app_nil_r. done.
Qed.

Lemma cleaning_staff_same cfg db db' :
  User_objects db' = User_objects db ->
  Group_objects db' = Group_objects db ->
  cleaning_staff cfg db' = cleaning_staff cfg db.
Proof. intros Hu Hg. unfold cleaning_staff. rewrite Hu, Hg. done. Qed.

Lemma _notify_group_groups g m db :
  Group_objects (_notify_group g m db) = Group_objects db.
Proof.
  unfold _notify_group. case_bool_decide; [|done]. apply notify_each_tables.
Qed.

(** The instance a user cancellation leaves. *)
Lemma canceled_instance note r :
  let q := set_status CANCELED
             (if PyStr.truthy note
              then set_purpose
                     (if PyStr.truthy (purpose (set_cancel_reason note r))
                      then purpose (set_cancel_reason note r)
                           +:+ cancel_marker
                      else cancel_marker)
                     (set_cancel_reason note r)
              else set_cancel_reason note r) in
  status q = CANCELED /\ cancel_reason q = note /\ same_booking r q
  /\ purpose q = (if PyStr.truthy note then purpose r +:+ cancel_marker
                  else purpose r).
Proof.
  cbn zeta. unfold same_booking.
  destruct (PyStr.truthy note); cbn; [|done].
  repeat (split; [done|]). destruct (purpose r); done.
Qed.

(** The writes of [cancel_by_user] on a stored reservation that is not
    CANCELED. *)
Lemma cancel_by_user_writes now r reason db k :
  status r <> CANCELED -> pk r = Some k -> r ∈ Reservation_objects db ->
  exists q db',
    cancel_by_user now r reason db = (q, db')
    /\ status q = CANCELED
    /\ cancel_reason q = PyStr.strip (or_empty reason)
    /\ same_booking r q
    /\ purpose q = (if PyStr.truthy (PyStr.strip (or_empty reason))
                    then purpose r +:+ cancel_marker else purpose r)
    /\ Reservation_objects db' = stored_as k q (Reservation_objects db)
    /\ Approval_objects db' = Approval_objects db
    /\ User_objects db' = User_objects db
    /\ Group_objects db' = Group_objects db
    /\ Notification_objects db'
       = Notification_objects db
         ++ {| notif_user := user r; message := TxtYouCanceled q |}
            :: notices (filter (fun u => is_staff u = true) (User_objects db))
                 (TxtCanceledByUser q).
Proof.
  intros Hs Hk Hin.
  set (note := PyStr.strip (or_empty reason)).
  pose proof (canceled_instance note r) as Hq. cbn zeta in Hq.
  set (q := set_status CANCELED _) in Hq.
  destruct Hq as (Hq1 & Hq2 & Hq3 & Hq4).
  assert (Hpk : pk q = Some k) by (destruct Hq3 as (-> & _); done).
  assert (Hu : user q = user r) by (destruct Hq3 as (_ & -> & _); done).
  eexists q, _. split.
  { unfold cancel_by_user. rewrite bool_decide_eq_false_2 by done.
    fold note. fold q.
    rewrite (Reservation_save_stored now q db k r Hpk Hin Hk). done. }
  clearbody q. repeat (split; [done|]).
  match goal with
  | |- context [notify_each ?us ?m ?d] =>
      destruct (notify_each_tables us m d) as (-> & -> & -> & ->);
      rewrite (notify_each_notifications us m d)
  end.
  cbn. rewrite Hu, <- app_assoc. done.
Qed.

(** The cancellation view either leaves the store as it was, without
    the success message, or did all of the following. *)
Lemma cancel_reservation_cases cfg now db request k :
  let res := cancel_reservation cfg now db request k in
  (db_after res = db /\ flash res <> [SUCCESS])
  \/ (exists u r q,
        cancel_user request = Some u
        /\ cancel_method request = POST
        /\ get_reservation_of db k (user_id u) = Some r
        /\ can_cancel cfg r now = true
        /\ let reason :=
             PyStr.take 255
               (PyStr.strip (or_empty (cancel_POST_reason request))) in
           status q = CANCELED
           /\ cancel_reason q = PyStr.strip reason
           /\ same_booking r q
           /\ purpose q = (if PyStr.truthy (PyStr.strip reason)
                           then purpose r +:+ cancel_marker else purpose r)
           /\ Reservation_objects (db_after res)
              = stored_as k q (Reservation_objects db)
           /\ Approval_objects (db_after res) = Approval_objects db
           /\ Notification_objects (db_after res)
              = Notification_objects db
                ++ {| notif_user := user r; message := TxtYouCanceled q |}
                   :: notices
                        (filter (fun u => is_staff u = true) (User_objects db))
                        (TxtCanceledByUser q)
                ++ notices (cleaning_staff cfg db)
                     (TxtCleaningStandDown q reason)
           /\ response res = Redirect "history"
           /\ flash res = [SUCCESS]).
Proof.
  cbn zeta. unfold cancel_reservation.
  destruct (cancel_user request) as [u|] eqn:Hu; [|left; done].
  case_bool_decide as Hm; [left; done|].
  destruct (get_reservation_of db k (user_id u)) as [r|] eqn:Hget;
    [|left; done].
  destruct (can_cancel cfg r now) eqn:Hc; cbn [negb]; [|left; done].
  right.
  destruct (get_reservation_of_elem _ _ _ _ Hget) as (Hin & Hk & Hown).
  assert (Hs : status r <> CANCELED).
  { intros E. unfold can_cancel in Hc.
    rewrite bool_decide_eq_true_2 in Hc; [done|].
    rewrite E, !elem_of_cons. auto. }
  destruct (cancel_by_user_writes now r
              (Some (PyStr.take 255
                       (PyStr.strip (or_empty (cancel_POST_reason request)))))
              db k Hs Hk Hin)
    as (q & db' & Hrun & Hq1 & Hq2 & Hq3 & Hq4 & Hr & Ha & Hus & Hg & Hn).
  rewrite Hrun. exists u, r, q.
  split; [done|]. split; [destruct (cancel_method request); done|].
  split; [done|]. split; [done|].
  cbn zeta. cbn [or_empty] in Hq2, Hq4.
  repeat (split; [done|]).
  unfold respond. cbn [db_after response flash].
  rewrite _notify_group_notifications, Hn.
  rewrite (cleaning_staff_same cfg db db' Hus Hg).
  destruct (_notify_group_tables (CLEANING_GROUP_NAME cfg)
              (TxtCleaningStandDown q
                 (PyStr.take 255
                    (PyStr.strip (or_empty (cancel_POST_reason request)))))
              db') as (Hr' & Ha' & _).
  unfold notify_cleaning_staff. rewrite Hr', Ha', Hr, Ha.
  rewrite <- app_assoc. done.
Qed.

(** The writes of a decision that goes through. *)
Lemma decide_writes cfg now db request k u r d n rows' :
  decide_user request = Some u -> is_staff u = true ->
  decide_method request = POST ->
  get_reservation db k = Some r ->
  ApprovalForm_clean (map_decision (decide_POST request))
  = ({| cleaned_decision := Some d; cleaned_notes := Some n |}, []) ->
  (d = APPR -> approval_conflict db r = false) ->
  Approval_update_or_create now k (user_id u) d n (Approval_objects db)
  = Some rows' ->
  let res := approve_or_reject cfg now db request k in
  let q := set_status (status_of_decision d) r in
  Reservation_objects (db_after res) = stored_as k q (Reservation_objects db)
  /\ Approval_objects (db_after res) = rows'
  /\ Notification_objects (db_after res)
     = Notification_objects db
       ++ match d with
          | APPR =>
              {| notif_user := user r; message := TxtApproved q n |}
              :: notices (cleaning_staff cfg db) (TxtCleaningPrepare q n)
          | REJ => [{| notif_user := user r; message := TxtRejected q n |}]
          end
  /\ flash res = [match d with APPR => SUCCESS | REJ => WARNING end].
Proof.
  intros Hu Hst Hm Hget Hform Hconf Hup.
  destruct (get_reservation_elem _ _ _ Hget) as [Hin Hk].
  unfold approve_or_reject.
  rewrite Hu, Hst, Hget. cbn [negb].
  rewrite bool_decide_eq_true_2 by done.
  rewrite Hform. cbn [is_valid cleaned_decision cleaned_notes or_empty].
  assert (bool_decide (d = APPR) && approval_conflict db r = false) as ->.
  { case_bool_decide; [rewrite Hconf by done|]; done. }
  rewrite Hup.
  destruct d; cbn zeta.
  - set (q := set_status APPROVED r).
    set (db0 := _notify_user (user q) (TxtApproved q n)
                  (set_approvals rows' db)).
    set (db1 := notify_cleaning_staff cfg (TxtCleaningPrepare q n) db0).
    assert (Reservation_objects db1 = Reservation_objects db
            /\ Approval_objects db1 = rows') as [Hr Ha].
    { unfold db1, notify_cleaning_staff.
      destruct (_notify_group_tables (CLEANING_GROUP_NAME cfg)
                  (TxtCleaningPrepare q n) db0) as (-> & -> & _).
      done. }
    assert (Notification_objects db1
            = Notification_objects db
              ++ {| notif_user := user r; message := TxtApproved q n |}
                 :: notices (cleaning_staff cfg db) (TxtCleaningPrepare q n))
      as Hn.
    { unfold db1. rewrite _notify_group_notifications.
      rewrite (cleaning_staff_same cfg db db0) by done.
      cbn. rewrite <- app_assoc. done. }
    rewrite (Reservation_save_stored now q db1 k r); [|done|by rewrite Hr|done].
    cbn. rewrite Hr. done.
  - set (q := set_status REJECTED r).
    set (db1 := _notify_user (user q) (TxtRejected q n)
                  (set_approvals rows' db)).
    rewrite (Reservation_save_stored now q db1 k r); [|done|done|done].
    cbn. done.
Qed.

(** ** Lengths of stripped and cut strings *)

Lemma length_lstrip_by p s :
  (String.length (PyStr.lstrip_by p s) <= String.length s)%nat.
Proof.
  induction s as [|c s IH]; cbn; [lia|]. destruct (p c); cbn; lia.
Qed.

Lemma length_rstrip_by p s :
  (String.length (PyStr.rstrip_by p s) <= String.length s)%nat.
Proof.
  induction s as [|c s IH]; cbn; [lia|].
  destruct (PyStr.rstrip_by p s); [destruct (p c)|]; cbn in *; lia.
Qed.

Lemma length_strip s : (String.length (PyStr.strip s) <= String.length s)%nat.
Proof.
  unfold PyStr.strip, PyStr.strip_by.
  pose proof (length_rstrip_by PyStr.isspace
                (PyStr.lstrip_by PyStr.isspace s)).
  pose proof (length_lstrip_by PyStr.isspace s). lia.
Qed.

Lemma length_take n s : (String.length (PyStr.take n s) <= n)%nat.
Proof.
  revert s. induction n as [|n IH]; intros [|c s]; cbn; try lia.
  specialize (IH s). lia.
Qed.

Lemma take_all n s : (String.length s <= n)%nat -> PyStr.take n s = s.
Proof.
  revert s. induction n as [|n IH]; intros [|c s]; cbn; try done; try lia.
  intros H. rewrite IH by lia. done.
Qed.

Lemma rstrip_by_cons p c s :
  PyStr.rstrip_by p (String c s)
  = match PyStr.rstrip_by p s with
    | "" => if p c then "" else String c ""
    | r => String c r
    end.
Proof. reflexivity. Qed.

Lemma rstrip_by_idem p s :
  PyStr.rstrip_by p (PyStr.rstrip_by p s) = PyStr.rstrip_by p s.
Proof.
  induction s as [|c s IH]; [done|]. rewrite (rstrip_by_cons p c s).
  destruct (PyStr.rstrip_by p s) as [|d t] eqn:E.
  - destruct (p c) eqn:Hc; cbn; [done|]. rewrite Hc. done.
  - rewrite (rstrip_by_cons p c (String d t)), IH. done.
Qed.

Lemma lstrip_by_head p s :
  PyStr.lstrip_by p s = ""
  \/ exists c t, PyStr.lstrip_by p s = String c t /\ p c = false.
Proof.
  induction s as [|c s IH]; cbn; [left; done|].
  destruct (p c) eqn:Hc; [done|]. right. exists c, s. done.
Qed.

Lemma lstrip_by_fixed p c t :
  p c = false -> PyStr.lstrip_by p (String c t) = String c t.
Proof. intros H. cbn. rewrite H. done. Qed.

Lemma rstrip_by_head p c t :
  p c = false -> exists t', PyStr.rstrip_by p (String c t) = String c t'.
Proof.
  intros H. cbn. destruct (PyStr.rstrip_by p t); [rewrite H|]; eauto.
Qed.

(** Stripping twice is stripping once. *)
Lemma strip_idem s : PyStr.strip (PyStr.strip s) = PyStr.strip s.
Proof.
  unfold PyStr.strip, PyStr.strip_by.
  destruct (lstrip_by_head PyStr.isspace s) as [->|(c & t & -> & Hc)];
    [done|].
  destruct (rstrip_by_head PyStr.isspace c t Hc) as [t' E].
  rewrite E, (lstrip_by_fixed _ _ _ Hc), <- E.
  apply rstrip_by_idem.
Qed.

(** ** Who can cancel, and what a cancellation writes *)

Lemma can_cancel_true cfg r now :
  can_cancel cfg r now = true ->
  status r ∈ [PENDING; APPROVED] /\ start r > now
  /\ (status r = APPROVED ->
      start r - now >= MIN_CANCEL_WINDOW_HOURS cfg * 3600 * usec_per_second).
Proof.
  unfold can_cancel. repeat case_bool_decide; try done; intros _.
  - split; [|split; [lia|done]].
    rewrite !elem_of_cons. auto.
  - split; [|split; [lia|done]].
    destruct (status r); rewrite !elem_of_cons in *; naive_solver.
Qed.

Lemma elem_of_stored_as k q rows x :
  pk q = Some k -> x ∈ stored_as k q rows -> pk x <> Some k -> x ∈ rows.
Proof.
  intros Hq Hx Hne. apply elem_of_replaced in Hx as [->|[Hx _]]; done.
Qed.

(** The update of the row of key [k] neither adds nor drops a row, and
    the rows of the other keys are the ones there were. *)
Lemma stored_as_others k q rows :
  pk q = Some k ->
  length (stored_as k q rows) = length rows
  /\ forall x, pk x <> Some k -> (x ∈ stored_as k q rows <-> x ∈ rows).
Proof.
  intros Hq. split; [apply length_map|].
  intros x Hne. split; [intros Hx; apply (elem_of_stored_as k q); done|].
  intros Hx. unfold stored_as. apply list_elem_of_fmap. exists x.
  rewrite bool_decide_eq_false_2 by done. done.
Qed.

(** X1: the cancellation view writes to the store only on a POST by a
    logged-in user for a reservation of that user which is PENDING or
    APPROVED, has not started, and, when APPROVED, is still outside the
    minimum window (a window that [total_seconds()] resolves to the
    microsecond); and then the reservation table is the one before with
    the row of that key updated: it has as many rows, and the rows of
    the other keys are exactly the ones there were. *)
Theorem cancel_writes_only_for_owner (cfg : Settings) (now : datetime)
    (db : DB) (request : CancelRequest) (k : Z) :
  window_is_exact cfg ->
  db_after (cancel_reservation cfg now db request k) <> db ->
  let rows := Reservation_objects db in
  let rows' :=
    Reservation_objects (db_after (cancel_reservation cfg now db request k)) in
  exists u r q,
    cancel_user request = Some u /\ cancel_method request = POST
    /\ r ∈ rows /\ pk r = Some k /\ user r = user_id u
    /\ status r ∈ [PENDING; APPROVED] /\ start r > now
    /\ (status r = APPROVED ->
        start r - now
        >= MIN_CANCEL_WINDOW_HOURS cfg * 3600 * usec_per_second)
    /\ pk q = Some k
    /\ rows' = map (fun x => if bool_decide (pk x = Some k) then q else x) rows
    /\ length rows' = length rows
    /\ (forall x, pk x <> Some k -> (x ∈ rows' <-> x ∈ rows)).
Proof.
  intros _ Hne rows rows'.
  destruct (cancel_reservation_cases cfg now db request k)
    as [[H _]|(u & r & q & Hu & Hm & Hget & Hc & H)]; [done|].
  cbn zeta in H. destruct H as (_ & _ & Hsame & _ & Hrows & _).
  destruct (get_reservation_of_elem _ _ _ _ Hget) as (Hin & Hk & Hown).
  destruct (can_cancel_true _ _ _ Hc) as (Hs & Hst & Hw).
  assert (Hq : pk q = Some k) by (destruct Hsame as (-> & _); done).
  exists u, r, q. do 10 (split; [done|]).
  unfold rows'. rewrite Hrows. apply stored_as_others. done.
Qed.

Lemma cancel_writes_only_for_owner_witness :
  exists u r,
    cancel_user (Sample.cancel "x") = Some u
    /\ r ∈ Reservation_objects Sample.db /\ user r = user_id u
    /\ pk r = Some 3.
Proof.
  destruct (cancel_writes_only_for_owner default_settings Sample.now
              Sample.db (Sample.cancel "x") 3) as (u & r & q & H).
  - unfold window_is_exact. cbn. lia.
  - intros H. apply (f_equal (fun d => length (Notification_objects d))) in H.
    vm_compute in H. discriminate.
  - exists u, r. tauto.
Defined.

(** X2: a cancellation that passes the checks stores the reservation
    as CANCELED with the posted reason stripped, cut to 255 characters
    and stripped again (so at most 255 characters, and the stripped
    reason itself when that is short enough); who booked what and when
    is kept, the approvals are untouched, and the notifications added
    are one to the owner, one to each staff user and one to each member
    of the cleaning group, in this order. *)
Theorem cancel_stores_reason_and_notifies (cfg : Settings) (now : datetime)
    (db : DB) (request : CancelRequest) (k : Z) (u : User)
    (r : Reservation) :
  cancel_user request = Some u -> cancel_method request = POST ->
  get_reservation_of db k (user_id u) = Some r ->
  can_cancel cfg r now = true ->
  let res := cancel_reservation cfg now db request k in
  let raw := PyStr.strip (or_empty (cancel_POST_reason request)) in
  exists q,
    get_reservation (db_after res) k = Some q
    /\ status q = CANCELED /\ same_booking r q
    /\ cancel_reason q = PyStr.strip (PyStr.take 255 raw)
    /\ (String.length (cancel_reason q) <= 255)%nat
    /\ ((String.length raw <= 255)%nat -> cancel_reason q = raw)
    /\ Approval_objects (db_after res) = Approval_objects db
    /\ Notification_objects (db_after res)
       = Notification_objects db
         ++ {| notif_user := user r; message := TxtYouCanceled q |}
            :: notices (filter (fun a => is_staff a = true) (User_objects db))
                 (TxtCanceledByUser q)
         ++ notices (cleaning_staff cfg db)
              (TxtCleaningStandDown q (PyStr.take 255 raw))
    /\ response res = Redirect "history" /\ flash res = [SUCCESS].
Proof.
  intros Hu Hm Hget Hc res raw.
  destruct (get_reservation_of_elem _ _ _ _ Hget) as (Hin & Hk & Hown).
  destruct (cancel_reservation_cases cfg now db request k)
    as [[_ Hne]|(u' & r' & q & Hu' & _ & Hget' & _ & H)].
  { exfalso. apply Hne. unfold cancel_reservation.
    rewrite Hu, Hm, Hget, Hc. cbn.
    destruct (cancel_by_user _ _ _ _). done. }
  rewrite Hu in Hu'. injection Hu' as <-.
  rewrite Hget in Hget'. injection Hget' as <-.
  cbn zeta in H. fold res raw in H.
  destruct H as (Hq1 & Hq2 & Hq3 & _ & Hrows & Ha & Hn & Hresp & Hfl).
  exists q. split.
  { unfold get_reservation. rewrite Hrows.
    apply (get_reservation_replaced _ q k r); [|done|done].
    destruct Hq3 as (-> & _). done. }
  repeat (split; [done|]).
  split.
  { rewrite Hq2. pose proof (length_strip (PyStr.take 255 raw)).
    pose proof (length_take 255 raw). lia. }
  split; [|done].
  intros Hlen. rewrite Hq2, (take_all 255 raw Hlen). apply strip_idem.
Qed.

Lemma cancel_stores_reason_and_notifies_witness :
  exists q,
    get_reservation
      (db_after (cancel_reservation default_settings Sample.now Sample.db
                   (Sample.cancel "  no puedo  ") 3)) 3 = Some q
    /\ status q = CANCELED /\ cancel_reason q = "no puedo".
Proof.
  destruct (cancel_stores_reason_and_notifies default_settings Sample.now
              Sample.db (Sample.cancel "  no puedo  ") 3 Sample.owner
              Sample.pending_11_12 eq_refl eq_refl eq_refl eq_refl)
    as (q & H1 & H2 & _ & H4 & _).
  exists q. split; [exact H1|]. split; [exact H2|exact H4].
Defined.

(** ** Who can decide, and what a decision writes *)

(** X3: the decision view writes to the store only on a POST by a
    staff user for a stored reservation with a valid form (a decision
    among APPR and REJ, notes given for a rejection) and, for an
    approval, no APPROVED overlap; an anonymous or non-staff user, a
    GET, an unknown key or an invalid form leave the store as it was.
    The reservation table is then the one before with the row of that
    key set to the new status: it has as many rows, and the rows of the
    other keys are exactly the ones there were. *)
Theorem decide_writes_only_for_staff (cfg : Settings) (now : datetime)
    (db : DB) (request : DecisionRequest) (k : Z) :
  db_after (approve_or_reject cfg now db request k) <> db ->
  let rows := Reservation_objects db in
  let rows' :=
    Reservation_objects (db_after (approve_or_reject cfg now db request k)) in
  exists u r d,
    decide_user request = Some u /\ is_staff u = true
    /\ decide_method request = POST
    /\ get_reservation db k = Some r
    /\ cleaned_decision
         (ApprovalForm_clean (map_decision (decide_POST request))).1
       = Some d
    /\ is_valid (ApprovalForm_clean (map_decision (decide_POST request))).2
       = true
    /\ (d = REJ ->
        PyStr.strip (or_empty (post_notes (decide_POST request))) <> "")
    /\ (d = APPR -> approval_conflict db r = false)
    /\ rows' = map (fun x => if bool_decide (pk x = Some k)
                             then set_status (status_of_decision d) r else x)
                   rows
    /\ length rows' = length rows
    /\ (forall x, pk x <> Some k -> (x ∈ rows' <-> x ∈ rows)).
Proof.
  intros Hne rows rows'.
  destruct (decide_cases cfg now db request k)
    as [[H _]|(u & r & d & n & rows1 & Hu & Hst & Hm & Hget & Hform & Hc
               & Hup)]; [done|].
  destruct (decide_writes cfg now db request k u r d n rows1
              Hu Hst Hm Hget Hform Hc Hup) as (Hrows & _).
  destruct (ApprovalForm_clean_valid _ _ _ Hform eq_refl)
    as (d' & [= <- _] & _ & _ & Ht).
  exists u, r, d. rewrite Hform. cbn [fst snd cleaned_decision is_valid].
  repeat (split; [done|]).
  split.
  { intros Hd E. rewrite map_decision_notes in Ht.
    rewrite E in Ht. specialize (Ht Hd). discriminate. }
  split; [done|].
  split; [exact Hrows|].
  destruct (get_reservation_elem _ _ _ Hget) as [_ Hk].
  unfold rows'. rewrite Hrows. apply stored_as_others. done.
Qed.

Lemma decide_writes_only_for_staff_witness :
  exists u, decide_user (Sample.decide "approve" "") = Some u
            /\ is_staff u = true.
Proof.
  destruct (decide_writes_only_for_staff default_settings Sample.now
              Sample.db (Sample.decide "approve" "") 3) as (u & r & d & H).
  - intros H. apply (f_equal (fun d => length (Notification_objects d))) in H.
    vm_compute in H. discriminate.
  - exists u. tauto.
Defined.

(** X4: a decision that goes through stores the new status, keeps who
    booked what and when, and adds these notifications and no other:
    for an approval one to the requester and one to each member of the
    cleaning group (none when the group does not exist), for a
    rejection one to the requester. *)
Theorem decision_notifies (cfg : Settings) (now : datetime) (db : DB)
    (request : DecisionRequest) (k : Z) (u : User) (r : Reservation)
    (d : Decision) (n : string) :
  decide_user request = Some u -> is_staff u = true ->
  decide_method request = POST ->
  get_reservation db k = Some r ->
  ApprovalForm_clean (map_decision (decide_POST request))
  = ({| cleaned_decision := Some d; cleaned_notes := Some n |}, []) ->
  (d = APPR -> approval_conflict db r = false) ->
  (length (approvals_of k (Approval_objects db)) <= 1)%nat ->
  let res := approve_or_reject cfg now db request k in
  let q := set_status (status_of_decision d) r in
  get_reservation (db_after res) k = Some q
  /\ same_booking r q
  /\ Notification_objects (db_after res)
     = Notification_objects db
       ++ match d with
          | APPR =>
              {| notif_user := user r; message := TxtApproved q n |}
              :: notices (cleaning_staff cfg db) (TxtCleaningPrepare q n)
          | REJ => [{| notif_user := user r; message := TxtRejected q n |}]
          end
  /\ (CLEANING_GROUP_NAME cfg ∉ Group_objects db ->
      cleaning_staff cfg db = [])
  /\ flash res = [match d with APPR => SUCCESS | REJ => WARNING end].
Proof.
  intros Hu Hst Hm Hget Hform Hc Hone res q.
  destruct (update_or_create_total now k (user_id u) d n
              (Approval_objects db) Hone) as [rows' Hup].
  destruct (decide_writes cfg now db request k u r d n rows'
              Hu Hst Hm Hget Hform Hc Hup) as (Hrows & _ & Hn & Hfl).
  destruct (get_reservation_elem _ _ _ Hget) as [Hin Hk].
  split.
  { unfold get_reservation. fold res in Hrows. rewrite Hrows.
    apply (get_reservation_replaced _ q k r); done. }
  split; [unfold same_booking, q; cbn; done|].
  split; [done|]. split; [|done].
  intros Hg. unfold cleaning_staff. rewrite bool_decide_eq_false_2; done.
Qed.

Lemma decision_notifies_witness :
  Notification_objects
    (db_after (approve_or_reject default_settings Sample.now Sample.db
                 (Sample.decide "approve" "ok") 3))
  = [{| notif_user := 1;
        message := TxtApproved (set_status APPROVED Sample.pending_11_12)
                     "ok" |};
     {| notif_user := 3;
        message := TxtCleaningPrepare
                     (set_status APPROVED Sample.pending_11_12) "ok" |}].
Proof.
  refine (proj1 (proj2 (proj2
    (decision_notifies default_settings Sample.now Sample.db
       (Sample.decide "approve" "ok") 3 Sample.admin Sample.pending_11_12
       APPR "ok" eq_refl eq_refl eq_refl eq_refl eq_refl _ _)))).
  - intros _. vm_compute. reflexivity.
  - vm_compute. lia.
Defined.

(** ** Invariants of the reservation table *)

(** What one served request does to the reservation table: nothing, a
    rewrite of the rows of one key that keeps the booking, or one new
    PENDING row with a fresh key in a free interval. *)
Lemma serves_rows cfg db db' :
  serves cfg db db' ->
  Reservation_objects db' = Reservation_objects db
  \/ (exists k r q,
        r ∈ Reservation_objects db /\ pk r = Some k /\ same_booking r q
        /\ Reservation_objects db' = stored_as k q (Reservation_objects db)
        /\ (status q = CANCELED \/ status q = REJECTED
            \/ (status q = APPROVED
                /\ forall y, y ∈ Reservation_objects db -> pk y <> Some k ->
                             space y = space r -> status y = APPROVED ->
                             ~ (start r < end_ y /\ end_ r > start y))))
  \/ (exists r,
        Reservation_objects db' = Reservation_objects db ++ [r]
        /\ pk r = Some (next_pk (Reservation_objects db))
        /\ status r = PENDING
        /\ forall y, y ∈ Reservation_objects db ->
                     ~ active_overlap (space r) (start r) (end_ r) y).
Proof.
  intros [fuel now db0 request res H|now db0 request k|now db0 request k].
  - destruct (create_cases _ _ _ _ _ _ H)
      as [[-> _]|(_ & u & slots & sp & date & s_lbl & e_lbl & s & t & r & _
                  & _ & _ & _ & _ & _ & _ & _ & _ & _ & _ & _ & _ & _ & _
                  & Hfree & Hst & Hsp & _ & Hpk & Hrows)]; [left; done|].
    right. right. exists r. rewrite Hsp. done.
  - destruct (cancel_reservation_cases cfg now db0 request k)
      as [[-> _]|(u & r & q & _ & _ & Hget & _ & H)]; [left; done|].
    cbn zeta in H. destruct H as (Hq & _ & Hsame & _ & Hrows & _).
    destruct (get_reservation_of_elem _ _ _ _ Hget) as (Hin & Hk & _).
    right. left. exists k, r, q. auto 10.
  - destruct (decide_cases cfg now db0 request k)
      as [[-> _]|(u & r & d & n & rows' & Hu & Hst & Hm & Hget & Hform & Hc
                  & Hup)]; [left; done|].
    destruct (decide_writes cfg now db0 request k u r d n rows'
                Hu Hst Hm Hget Hform Hc Hup) as (Hrows & _).
    destruct (get_reservation_elem _ _ _ Hget) as [Hin Hk].
    right. left. exists k, r, (set_status (status_of_decision d) r).
    split; [done|]. split; [done|].
    split; [unfold same_booking; cbn; done|]. split; [done|].
    destruct d; cbn; [|auto].
    right. right. split; [done|].
    intros y Hy Hpk Hsp Hs [H1 H2].
    assert (approval_conflict db0 r = true) as E; [|rewrite Hc in E; done].
    apply approval_conflict_true. exists y. rewrite Hk.
    repeat (split; [done|]). lia.
Qed.

Lemma disjoint_in_stored statuses db db' k r q :
  disjoint_in statuses db ->
  r ∈ Reservation_objects db -> pk r = Some k -> same_booking r q ->
  Reservation_objects db' = stored_as k q (Reservation_objects db) ->
  (status q ∈ statuses ->
   status r ∈ statuses
   \/ forall y, y ∈ Reservation_objects db -> pk y <> Some k ->
                space y = space r -> status y ∈ statuses ->
                ~ (start r < end_ y /\ end_ r > start y)) ->
  disjoint_in statuses db'.
Proof.
  intros Hdis Hin Hk (Hq1 & _ & Hq3 & Hq4 & Hq5 & _) Hrows Hq.
  rewrite Hk in Hq1.
  assert (Hpair : forall y,
             y ∈ Reservation_objects db -> pk y <> Some k ->
             space y = space r -> status q ∈ statuses ->
             status y ∈ statuses ->
             ~ (start r < end_ y /\ end_ r > start y)).
  { intros y Hy Hpk Hsp Hsq Hsy. destruct (Hq Hsq) as [Hr|Hfree].
    - apply (Hdis r y); try done. congruence.
    - apply Hfree; done. }
  intros x y Hx Hy Hne Hsp Hsx Hsy. rewrite Hrows in Hx, Hy.
  apply elem_of_replaced in Hx as [->|[Hx Hxk]],
    Hy as [->|[Hy Hyk]]; try done.
  - rewrite Hq3 in Hsp. rewrite Hq4, Hq5.
    apply Hpair; done.
  - rewrite Hq3 in Hsp. rewrite Hq4, Hq5.
    pose proof (Hpair x Hx Hxk Hsp Hsy Hsx). lia.
  - apply Hdis; done.
Qed.

Lemma disjoint_in_appended statuses db db' r :
  disjoint_in statuses db ->
  Reservation_objects db' = Reservation_objects db ++ [r] ->
  (forall y, y ∈ Reservation_objects db -> pk y <> pk r) ->
  (status r ∈ statuses ->
   forall y, y ∈ Reservation_objects db -> space y = space r ->
             status y ∈ statuses ->
             ~ (start r < end_ y /\ end_ r > start y)) ->
  disjoint_in statuses db'.
Proof.
  intros Hdis Hrows Hfresh Hfree x y Hx Hy Hne Hsp Hsx Hsy.
  rewrite Hrows in Hx, Hy.
  apply elem_of_app in Hx as [Hx|Hx], Hy as [Hy|Hy];
    rewrite ?list_elem_of_singleton in *; subst.
  - apply Hdis; done.
  - pose proof (Hfree Hsy x Hx Hsp Hsx). lia.
  - apply Hfree; done.
  - done.
Qed.

Lemma disjoint_in_same statuses db db' :
  Reservation_objects db' = Reservation_objects db ->
  disjoint_in statuses db -> disjoint_in statuses db'.
Proof. unfold disjoint_in. intros ->. done. Qed.

Lemma next_pk_above rows x k :
  x ∈ rows -> pk x = Some k -> k < next_pk rows.
Proof.
  unfold next_pk. induction rows as [|y rows IH]; intros Hx Hk.
  - inversion Hx.
  - apply elem_of_cons in Hx as [->|Hx].
    + cbn. rewrite Hk. cbn. lia.
    + specialize (IH Hx Hk). cbn. destruct (pk y); cbn; lia.
Qed.

Lemma next_pk_fresh rows y : y ∈ rows -> pk y <> Some (next_pk rows).
Proof.
  intros Hy E. pose proof (next_pk_above _ _ _ Hy E). lia.
Qed.

(** X5: APPROVED reservations of one space never overlap, provided
    they did not to begin with: every request served by the creation,
    cancellation and decision views keeps this. *)
Theorem approved_never_overlap (cfg : Settings) (db db' : DB) :
  disjoint_in [APPROVED] db -> rtc (serves cfg) db db' ->
  disjoint_in [APPROVED] db'.
Proof.
  intros Hdis Hsteps. induction Hsteps as [|x y z Hxy _ IH]; [done|].
  apply IH. clear IH.
  destruct (serves_rows _ _ _ Hxy)
    as [Hsame|[(k & r & q & Hin & Hk & Hq & Hrows & Hst)
              |(r & Hrows & Hpk & Hst & _)]].
  - eapply disjoint_in_same; done.
  - apply (disjoint_in_stored _ x y k r q); try done.
    rewrite list_elem_of_singleton. intros Hs.
    destruct Hst as [E|[E|[_ Hfree]]]; [congruence|congruence|].
    right. intros y0 Hy0 Hpk0 Hsp0 Hs0. apply Hfree; try done.
    apply list_elem_of_singleton in Hs0. done.
  - apply (disjoint_in_appended _ x y r); try done.
    + intros y0 Hy0. rewrite Hpk. apply next_pk_fresh. done.
    + rewrite list_elem_of_singleton, Hst. done.
Qed.

Lemma sample_approved_disjoint : disjoint_in [APPROVED] Sample.db.
Proof.
  intros x y Hx Hy Hne _ Hsx Hsy. exfalso.
  apply list_elem_of_singleton in Hsx, Hsy.
  cbn in Hx, Hy.
  repeat (apply elem_of_cons in Hx as [->|Hx]); try done;
    repeat (apply elem_of_cons in Hy as [->|Hy]); try done;
    try (by inversion Hx); try (by inversion Hy).
Qed.

Lemma approved_never_overlap_witness :
  disjoint_in [APPROVED]
    (db_after (approve_or_reject default_settings Sample.now Sample.db
                 (Sample.decide "approve" "") 3)).
Proof.
  apply (approved_never_overlap default_settings Sample.db);
    [exact sample_approved_disjoint|].
  apply rtc_once. constructor.
Defined.

(** X6: PENDING and APPROVED reservations of one space never overlap,
    provided they did not to begin with, as long as requests create,
    cancel, or decide reservations that are PENDING or APPROVED.  (A
    decision on a REJECTED or CANCELED reservation is not covered: see
    [redecided_overlaps_pending].) *)
Theorem active_never_overlap (cfg : Settings) (db : DB) :
  disjoint_in [PENDING; APPROVED] db ->
  (forall fuel now request res,
     ReservationCreateView_post cfg fuel now db request = Returned res ->
     disjoint_in [PENDING; APPROVED] (db_after res))
  /\ (forall now request k,
        disjoint_in [PENDING; APPROVED]
          (db_after (cancel_reservation cfg now db request k)))
  /\ (forall now request k,
        (forall r, get_reservation db k = Some r ->
                   status r ∈ [PENDING; APPROVED]) ->
        disjoint_in [PENDING; APPROVED]
          (db_after (approve_or_reject cfg now db request k))).
Proof.
  intros Hdis. split; [|split].
  - intros fuel now request res H.
    destruct (create_cases _ _ _ _ _ _ H)
      as [[-> _]|(_ & u & slots & sp & date & s_lbl & e_lbl & s & t & r & _
                  & _ & _ & _ & _ & _ & _ & _ & _ & _ & _ & _ & _ & _ & _
                  & Hfree & Hst & Hsp & _ & Hpk & Hrows)]; [done|].
    apply (disjoint_in_appended _ db (db_after res) r); try done.
    + intros y Hy. rewrite Hpk. apply next_pk_fresh. done.
    + intros _ y Hy Hspy Hsy [H1 H2].
      apply (Hfree y Hy). unfold active_overlap.
      split; [congruence|]. split; [done|lia].
  - intros now request k.
    destruct (cancel_reservation_cases cfg now db request k)
      as [[-> _]|(u & r & q & _ & _ & Hget & _ & H)]; [done|].
    cbn zeta in H. destruct H as (Hq & _ & Hsame & _ & Hrows & _).
    destruct (get_reservation_of_elem _ _ _ _ Hget) as (Hin & Hk & _).
    apply (disjoint_in_stored _ db _ k r q); try done.
    rewrite Hq, !elem_of_cons, elem_of_nil. naive_solver.
  - intros now request k Hactive.
    destruct (decide_cases cfg now db request k)
      as [[-> _]|(u & r & d & n & rows' & Hu & Hst & Hm & Hget & Hform & Hc
                  & Hup)]; [done|].
    destruct (decide_writes cfg now db request k u r d n rows'
                Hu Hst Hm Hget Hform Hc Hup) as (Hrows & _).
    destruct (get_reservation_elem _ _ _ Hget) as [Hin Hk].
    apply (disjoint_in_stored _ db _ k r
             (set_status (status_of_decision d) r)); try done;
      try (unfold same_booking; cbn; done).
    intros _. left. apply Hactive. done.
Qed.

Lemma active_never_overlap_witness :
  disjoint_in [PENDING; APPROVED]
    (db_after (cancel_reservation default_settings Sample.now
                 (set_reservations
                    [Sample.approved_10_11; Sample.pending_11_12] Sample.db)
                 (Sample.cancel "") 3)).
Proof.
  refine (proj1 (proj2
    (active_never_overlap default_settings
       (set_reservations [Sample.approved_10_11; Sample.pending_11_12]
          Sample.db) _)) Sample.now (Sample.cancel "") 3).
  intros x y Hx Hy Hne _ _ _. cbn in Hx, Hy.
  repeat (apply elem_of_cons in Hx as [->|Hx]); try (by inversion Hx);
    repeat (apply elem_of_cons in Hy as [->|Hy]); try (by inversion Hy);
    try done; vm_compute; intros [H1 H2]; discriminate.
Defined.

(** Approving a reservation that was REJECTED takes it back into the
    active set without a look at the PENDING ones: here it ends up
    APPROVED over 10:00-11:00 beside a PENDING 10:30-11:30. *)
Example redecided_overlaps_pending :
  let db := set_reservations
              [set_status REJECTED Sample.approved_10_11;
               Sample.pending_1030_1130] Sample.db in
  let db' := db_after (approve_or_reject default_settings Sample.now db
                         (Sample.decide "approve" "") 1) in
  disjoint_in [PENDING; APPROVED] db
  /\ ~ disjoint_in [PENDING; APPROVED] db'.
Proof.
  cbn zeta. split.
  - intros x y Hx Hy Hne _ Hsx Hsy. exfalso. cbn in Hx, Hy.
    repeat (apply elem_of_cons in Hx as [->|Hx]); try (by inversion Hx);
      repeat (apply elem_of_cons in Hy as [->|Hy]); try (by inversion Hy);
      try done; cbn in Hsx, Hsy;
      rewrite !elem_of_cons, elem_of_nil in Hsx, Hsy; naive_solver.
  - intros H.
    apply (H (set_status APPROVED Sample.approved_10_11)
             Sample.pending_1030_1130).
    + vm_compute. left.
    + vm_compute. right. left.
    + done.
    + done.
    + cbn. rewrite !elem_of_cons. auto.
    + cbn. rewrite !elem_of_cons. auto.
    + vm_compute. split; reflexivity.
Qed.

(** ** Keys *)

Lemma map_pk_stored_as k q rows :
  pk q = Some k -> map pk (stored_as k q rows) = map pk rows.
Proof.
  intros Hq. unfold stored_as. rewrite map_map. apply map_ext_in.
  intros x _. case_bool_decide; congruence.
Qed.

Lemma serves_unique_pks cfg db db' :
  serves cfg db db' -> unique_pks db -> unique_pks db'.
Proof.
  intros Hs [Hnd Hnone]. unfold unique_pks.
  destruct (serves_rows _ _ _ Hs)
    as [->|[(k & r & q & Hin & Hk & Hq & -> & _)
           |(r & -> & Hpk & _)]]; [done| |].
  - destruct Hq as (Hq & _). rewrite Hk in Hq.
    rewrite (map_pk_stored_as k q _ Hq). done.
  - rewrite map_app. cbn. split.
    + apply NoDup_app. split; [done|]. split; [|apply NoDup_singleton].
      intros o Ho. rewrite list_elem_of_singleton. intros ->.
      apply list_elem_of_fmap in Ho as (y & Hy & Hin).
      rewrite Hpk in Hy. symmetry in Hy.
      apply (next_pk_fresh _ _ Hin Hy).
    + rewrite elem_of_app, list_elem_of_singleton, Hpk. naive_solver.
Qed.

Lemma get_reservation_none rows k :
  (forall y, y ∈ rows -> pk y <> Some k) ->
  filter (fun x => pk x = Some k) rows = [].
Proof.
  intros H. induction rows as [|y rows IH]; [done|].
  rewrite filter_cons_False by (apply H; left).
  apply IH. intros z Hz. apply H. right. done.
Qed.

(** X7: keys stay unique: along any sequence of requests every stored
    reservation has a key and no two share one; a created reservation
    gets a key under which nothing was stored, and is found under it
    afterwards. *)
Theorem keys_stay_unique (cfg : Settings) (db : DB) :
  unique_pks db ->
  (forall db', rtc (serves cfg) db db' -> unique_pks db')
  /\ (forall fuel now request res,
        ReservationCreateView_post cfg fuel now db request = Returned res ->
        response res = Redirect "dashboard_user" ->
        exists k r,
          pk r = Some k /\ status r = PENDING
          /\ get_reservation db k = None
          /\ get_reservation (db_after res) k = Some r).
Proof.
  intros Hu. split.
  - intros db' Hsteps. induction Hsteps as [|x y z Hxy _ IH]; [done|].
    apply IH. eapply serves_unique_pks; done.
  - intros fuel now request res H Hresp.
    destruct (create_cases _ _ _ _ _ _ H)
      as [[_ Hne]|(_ & u & slots & sp & date & s_lbl & e_lbl & s & t & r & _
                   & _ & _ & _ & _ & _ & _ & _ & _ & _ & _ & _ & _ & _ & _
                   & _ & Hst & _ & _ & Hpk & Hrows)]; [done|].
    exists (next_pk (Reservation_objects db)), r.
    assert (filter (fun x => pk x = Some (next_pk (Reservation_objects db)))
              (Reservation_objects db) = []) as Hnone
      by (apply get_reservation_none; intros y; apply next_pk_fresh).
    unfold get_reservation. rewrite Hrows, filter_app, Hnone.
    rewrite filter_cons_True by done. done.
Qed.

Lemma sample_unique_pks : unique_pks Sample.db.
Proof.
  split; cbn.
  - repeat (apply NoDup_cons; split;
            [rewrite ?not_elem_of_cons, elem_of_nil; naive_solver|]).
    apply NoDup_nil. done.
  - rewrite !not_elem_of_cons, elem_of_nil. naive_solver.
Qed.

Lemma keys_stay_unique_witness :
  unique_pks
    (db_after (cancel_reservation default_settings Sample.now Sample.db
                 (Sample.cancel "") 3)).
Proof.
  apply (proj1 (keys_stay_unique default_settings Sample.db
                  sample_unique_pks)).
  apply rtc_once. constructor.
Defined.

(** ** Bookings are never moved or dropped *)

Lemma unique_pk_eq rows x y :
  NoDup (map pk rows) -> x ∈ rows -> y ∈ rows -> pk x = pk y -> x = y.
Proof.
  induction rows as [|a rows IH]; intros Hnd Hx Hy E; [inversion Hx|].
  cbn in Hnd. apply NoDup_cons in Hnd as [Ha Hnd].
  apply elem_of_cons in Hx as [->|Hx], Hy as [->|Hy].
  - done.
  - exfalso. apply Ha. rewrite E. apply list_elem_of_fmap. eauto.
  - exfalso. apply Ha. rewrite <- E. apply list_elem_of_fmap. eauto.
  - apply IH; done.
Qed.

Lemma filter_pk_stored_as k k0 q rows :
  pk q = Some k0 -> k <> k0 ->
  filter (fun x => pk x = Some k) (stored_as k0 q rows)
  = filter (fun x => pk x = Some k) rows.
Proof.
  intros Hq Hne. unfold stored_as.
  induction rows as [|y rows IH]; [done|]. cbn [map].
  rewrite !filter_cons, IH. case_bool_decide as Hy.
  - rewrite decide_False by congruence.
    rewrite decide_False by congruence. done.
  - done.
Qed.

Lemma same_booking_refl r : same_booking r r.
Proof. unfold same_booking. done. Qed.

Lemma same_booking_trans r1 r2 r3 :
  same_booking r1 r2 -> same_booking r2 r3 -> same_booking r1 r3.
Proof. unfold same_booking. intros H1 H2. naive_solver congruence. Qed.

Lemma serves_keeps_booking cfg db db' k r :
  unique_pks db -> serves cfg db db' ->
  get_reservation db k = Some r ->
  exists r', get_reservation db' k = Some r' /\ same_booking r r'.
Proof.
  intros [Hnd _] Hs Hget.
  destruct (get_reservation_elem _ _ _ Hget) as [Hin Hk].
  unfold get_reservation in *.
  destruct (serves_rows _ _ _ Hs)
    as [->|[(k0 & r0 & q & Hin0 & Hk0 & Hq & -> & _)
           |(r1 & -> & _)]].
  - exists r. split; [done|apply same_booking_refl].
  - assert (Hpq : pk q = Some k0)
      by (destruct Hq as (-> & _); done).
    destruct (decide (k = k0)) as [->|Hne].
    + exists q. split; [apply (get_reservation_replaced _ q k0 r0); done|].
      assert (r0 = r) as ->; [|done].
      apply (unique_pk_eq (Reservation_objects db)); try done. congruence.
    + exists r. rewrite filter_pk_stored_as by done.
      split; [done|apply same_booking_refl].
  - exists r. rewrite filter_app.
    destruct (filter _ (Reservation_objects db)) as [|a l]; [done|].
    split; [done|apply same_booking_refl].
Qed.

(** X8: the creation, cancellation and decision views never drop a
    reservation or move a booking: along any sequence of requests
    served by these three views a reservation that is stored under a
    key stays stored under it with the same user, space, start, end,
    head count and creation time (the keys being unique to begin
    with).  Deleting a space, which cascades to its reservations, and
    the admin site are not among these requests. *)
Theorem bookings_are_kept (cfg : Settings) (db db' : DB) (k : Z)
    (r : Reservation) :
  unique_pks db -> rtc (serves cfg) db db' ->
  get_reservation db k = Some r ->
  exists r', get_reservation db' k = Some r' /\ same_booking r r'.
Proof.
  intros Hu Hsteps. revert r.
  induction Hsteps as [x|x y z Hxy _ IH]; intros r Hget.
  - exists r. split; [done|apply same_booking_refl].
  - destruct (serves_keeps_booking _ _ _ _ _ Hu Hxy Hget) as (r1 & H1 & Hs1).
    destruct (IH (serves_unique_pks _ _ _ Hxy Hu) r1 H1) as (r2 & H2 & Hs2).
    exists r2. split; [done|]. eapply same_booking_trans; done.
Qed.

Lemma bookings_are_kept_witness :
  exists r',
    get_reservation
      (db_after (approve_or_reject default_settings Sample.now
                   (db_after (cancel_reservation default_settings Sample.now
                                Sample.db (Sample.cancel "") 3))
                   (Sample.decide "approve" "") 3)) 3 = Some r'
    /\ same_booking Sample.pending_11_12 r'.
Proof.
  apply (bookings_are_kept default_settings Sample.db); [| |reflexivity].
  - exact sample_unique_pks.
  - eapply rtc_l; [apply serves_cancel|]. apply rtc_once, serves_decide.
Defined.

(** ** Labels of the grid in the form *)

Lemma strftime_HM_is_label dt :
  exists m, 0 <= m < 1440 /\ strftime_HM dt = label_of_minute m.
Proof.
  unfold strftime_HM, label_of_minute.
  set (minutes := dt / usec_per_minute).
  exists ((minutes / 60) mod 24 * 60 + minutes mod 60).
  pose proof (Z.mod_pos_bound (minutes / 60) 24 ltac:(lia)).
  pose proof (Z.mod_pos_bound minutes 60 ltac:(lia)).
  split; [lia|].
  replace (((minutes / 60) mod 24 * 60 + minutes mod 60) / 60)
    with ((minutes / 60) mod 24).
  2:{ rewrite Z.add_comm, Z.div_add by lia.
      rewrite (Z.div_small (minutes mod 60)) by lia. lia. }
  replace (((minutes / 60) mod 24 * 60 + minutes mod 60) mod 60)
    with (minutes mod 60).
  2:{ rewrite Z.add_comm, Z.mod_add by lia.
      rewrite Z.mod_mod by lia. done. }
  done.
Qed.

Lemma slots_loop_labels fuel cur end_dt step out :
  slots_loop fuel cur end_dt step = Returned out ->
  forall l, l ∈ out -> exists m, 0 <= m < 1440 /\ l = label_of_minute m.
Proof.
  revert cur out. induction fuel as [|fuel IH]; intros cur out; [done|].
  rewrite slots_loop_S. case_bool_decide.
  - destruct (datetime_add cur step) as [next|]; [|done].
    destruct (slots_loop fuel next end_dt step) as [o| |] eqn:E;
      try done.
    intros [= <-] l Hl. apply elem_of_cons in Hl as [->|Hl].
    + apply strftime_HM_is_label.
    + apply (IH _ _ E). done.
  - intros [= <-] l Hl. inversion Hl.
Qed.

Lemma build_day_slots_labels cfg fuel out :
  build_day_slots cfg fuel = Returned out ->
  forall l, l ∈ out -> exists m, 0 <= m < 1440 /\ l = label_of_minute m.
Proof.
  unfold build_day_slots.
  destruct (_parse_hhmm (SLOT_DAY_START cfg)); [|done].
  destruct (_parse_hhmm (SLOT_DAY_END cfg)); [|done].
  destruct (timedelta_minutes (SLOT_INTERVAL_MIN cfg)); [|done].
  apply slots_loop_labels.
Qed.

Lemma label_time_label m :
  0 <= m < 1440 ->
  label_time (label_of_minute m)
  = Some {| hour := m / 60; minute := m mod 60 |}.
Proof. intros Hm. apply (label_checked m Hm). Qed.

(** X9: every label of the grid is the label of a minute of the day
    and parses back, through [split(":")] and [int], to the hour and
    minute it was printed from; and the [datetime] that [clean] builds
    from that hour and minute, on any date of the range of [datetime],
    prints as the label again. *)
Theorem grid_labels_parse_back (cfg : Settings) (fuel : nat)
    (out : list string) :
  build_day_slots cfg fuel = Returned out ->
  forall l, l ∈ out ->
    exists m, 0 <= m < 1440 /\ l = label_of_minute m
              /\ label_time l = Some {| hour := m / 60; minute := m mod 60 |}
              /\ forall date,
                   datetime_min <= naive_datetime date (m / 60) (m mod 60)
                   <= datetime_max ->
                   strftime_HM (naive_datetime date (m / 60) (m mod 60)) = l.
Proof.
  intros Hb l Hin.
  destruct (build_day_slots_labels _ _ _ Hb l Hin) as (m & Hm & ->).
  exists m. split; [done|]. split; [done|].
  split; [apply label_time_label; done|].
  intros date _. unfold naive_datetime.
  replace (m / 60 * 60 + m mod 60) with m
    by (pose proof (Z.div_mod m 60 ltac:(lia)); lia).
  apply strftime_HM_label. done.
Qed.

Lemma grid_labels_parse_back_witness :
  exists m, 0 <= m < 1440 /\ "21:30" = label_of_minute m
            /\ label_time "21:30"
               = Some {| hour := m / 60; minute := m mod 60 |}
            /\ forall date,
                 datetime_min <= naive_datetime date (m / 60) (m mod 60)
                 <= datetime_max ->
                 strftime_HM (naive_datetime date (m / 60) (m mod 60))
                 = "21:30".
Proof.
  refine (grid_labels_parse_back default_settings 29
            (grid 510 1320 30) _ "21:30" _).
  - vm_compute. reflexivity.
  - vm_compute. do 26 right. left.
Defined.

Lemma label_ltb_iff m m' :
  0 <= m < 1440 -> 0 <= m' < 1440 ->
  (PyStr.ltb (label_of_minute m) (label_of_minute m') = true <-> m < m').
Proof.
  intros Hm Hm'. split.
  - intros Hlt. destruct (Z.lt_trichotomy m m') as [H|[->|H]]; [done| |].
    + rewrite ltb_irrefl in Hlt. done.
    + pose proof (label_lt m' m ltac:(lia) H ltac:(lia)) as Hgt.
      pose proof (ltb_trans _ _ _ Hlt Hgt) as Hrefl.
      rewrite ltb_irrefl in Hrefl. done.
  - intros H. apply label_lt; lia.
Qed.

(** X10: on labels of the grid the comparison of strings is the
    comparison of times: [a < b] as strings exactly when [a] is the
    earlier minute; so an end label after the start label gives, on any
    date, an end instant after the start instant, and the test
    [end_dt > start_dt] of [clean] cannot fail once the labels passed. *)
Theorem label_order_is_time_order (cfg : Settings) (fuel : nat)
    (out : list string) (a b : string) :
  build_day_slots cfg fuel = Returned out -> a ∈ out -> b ∈ out ->
  exists s t,
    label_time a = Some s /\ label_time b = Some t
    /\ (PyStr.ltb a b = true <-> minute_of s < minute_of t)
    /\ (PyStr.leb b a = true <-> minute_of t <= minute_of s)
    /\ (PyStr.ltb a b = true ->
        forall date,
          naive_datetime date (hour t) (minute t)
          > naive_datetime date (hour s) (minute s)).
Proof.
  intros Hb Ha Hin.
  destruct (build_day_slots_labels _ _ _ Hb a Ha) as (m & Hm & ->).
  destruct (build_day_slots_labels _ _ _ Hb b Hin) as (m' & Hm' & ->).
  exists {| hour := m / 60; minute := m mod 60 |},
    {| hour := m' / 60; minute := m' mod 60 |}.
  rewrite !label_time_label by done.
  unfold minute_of, naive_datetime. cbn [hour minute].
  replace (m / 60 * 60 + m mod 60) with m
    by (pose proof (Z.div_mod m 60 ltac:(lia)); lia).
  replace (m' / 60 * 60 + m' mod 60) with m'
    by (pose proof (Z.div_mod m' 60 ltac:(lia)); lia).
  pose proof (label_ltb_iff m m' Hm Hm') as Hiff.
  split; [done|]. split; [done|]. split; [done|]. split.
  - unfold PyStr.leb.
    destruct (PyStr.ltb (label_of_minute m) (label_of_minute m')) eqn:E;
      cbn [negb].
    + assert (m < m') by (apply Hiff; done). split; [done|lia].
    + assert (~ m < m') by (intros Hlt; apply Hiff in Hlt; congruence).
      split; [lia|done].
  - intros Hlt date. apply Hiff in Hlt.
    unfold usec_per_minute, usec_per_second. lia.
Qed.

Lemma label_order_is_time_order_witness :
  exists s t,
    label_time "09:30" = Some s /\ label_time "10:00" = Some t
    /\ (PyStr.ltb "09:30" "10:00" = true <-> minute_of s < minute_of t).
Proof.
  destruct (label_order_is_time_order default_settings 29
              (grid 510 1320 30) "09:30" "10:00") as (s & t & H).
  - vm_compute. reflexivity.
  - vm_compute. right. right. left.
  - vm_compute. right. right. right. left.
  - exists s, t. tauto.
Defined.

(** ** Settings that leave no grid *)

(** X11: when the start of the day is later than its end, the grid is
    empty for every interval that [timedelta] takes, and
    [build_day_slots] raises for the others; either way the creation
    view raises for every logged-in user, on GET and POST alike: with
    an empty grid the form has no initial slot to pick. *)
Theorem late_start_breaks_form (cfg : Settings) (t0 t1 : time) (fuel : nat) :
  _parse_hhmm (SLOT_DAY_START cfg) = Some t0 ->
  _parse_hhmm (SLOT_DAY_END cfg) = Some t1 ->
  minute_of t1 < minute_of t0 ->
  (build_day_slots cfg (S fuel)
   = if bool_decide (-999999999 <= SLOT_INTERVAL_MIN cfg / 1440 <= 999999999)
     then Returned [] else Raised)
  /\ (forall now_hm, initial_slots [] now_hm = None)
  /\ (forall now db request u,
        create_user request = Some u ->
        ReservationCreateView_post cfg (S fuel) now db request = Raised).
Proof.
  intros H0 H1 Hlt.
  assert (Hb : build_day_slots cfg (S fuel)
               = if bool_decide
                      (-999999999 <= SLOT_INTERVAL_MIN cfg / 1440 <= 999999999)
                 then Returned [] else Raised).
  { unfold build_day_slots, timedelta_minutes. rewrite H0, H1.
    case_bool_decide; [|done].
    rewrite slots_loop_S, bool_decide_eq_false_2; [done|].
    unfold naive_datetime, minute_of, usec_per_minute, usec_per_second in *.
    lia. }
  split; [done|]. split; [done|].
  intros now db request u Hu. unfold ReservationCreateView_post.
  rewrite Hu, Hb. case_bool_decide; done.
Qed.

Lemma late_start_breaks_form_witness :
  ReservationCreateView_post
    {| MIN_CANCEL_WINDOW_HOURS := 2; SLOT_INTERVAL_MIN := 30;
       SLOT_DAY_START := "22:00"; SLOT_DAY_END := "08:30";
       CLEANING_GROUP_NAME := "Aseo" |} 1 Sample.now Sample.db
    (Sample.create "22:00" "08:30") = Raised.
Proof.
  refine (proj2 (proj2 (late_start_breaks_form _ {| hour := 22; minute := 0 |}
                   {| hour := 8; minute := 30 |} 0 _ _ _))
            Sample.now Sample.db (Sample.create "22:00" "08:30")
            Sample.owner _).
  - reflexivity.
  - reflexivity.
  - reflexivity.
  - reflexivity.
Defined.

(** X12: with an interval of 0 minutes and a day that does not end
    before it starts, the loop of the grid never ends: no amount of
    fuel returns a list, and neither does the creation view for a
    logged-in user. *)
Theorem zero_interval_never_returns (cfg : Settings) (t0 t1 : time)
    (fuel : nat) :
  SLOT_INTERVAL_MIN cfg = 0 ->
  _parse_hhmm (SLOT_DAY_START cfg) = Some t0 ->
  _parse_hhmm (SLOT_DAY_END cfg) = Some t1 ->
  minute_of t0 <= minute_of t1 ->
  build_day_slots cfg fuel = OutOfFuel
  /\ (forall now db request u,
        create_user request = Some u ->
        ReservationCreateView_post cfg fuel now db request = OutOfFuel).
Proof.
  intros Hi H0 H1 Hle.
  assert (Hb : build_day_slots cfg fuel = OutOfFuel).
  { unfold build_day_slots. rewrite H0, H1, Hi.
    change (timedelta_minutes 0) with (Some 0).
    destruct (_parse_hhmm_range _ _ H0) as [Hh Hm].
    apply slots_loop_stuck; [apply dummy_in_range; done|].
    unfold naive_datetime, minute_of, usec_per_minute, usec_per_second in *.
    lia. }
  split; [done|].
  intros now db request u Hu. unfold ReservationCreateView_post.
  rewrite Hu, Hb. done.
Qed.

Lemma zero_interval_never_returns_witness :
  build_day_slots
    {| MIN_CANCEL_WINDOW_HOURS := 2; SLOT_INTERVAL_MIN := 0;
       SLOT_DAY_START := "08:30"; SLOT_DAY_END := "22:00";
       CLEANING_GROUP_NAME := "Aseo" |} 1000 = OutOfFuel.
Proof.
  refine (proj1 (zero_interval_never_returns _ {| hour := 8; minute := 30 |}
                   {| hour := 22; minute := 0 |} 1000 _ _ _ _)).
  - reflexivity.
  - reflexivity.
  - reflexivity.
  - vm_compute. discriminate.
Defined.

(** ** The decision form *)

(** X13: the decision form is valid exactly when the posted decision is
    one of "approve", "APPR", "reject" and "REJ", the stripped notes
    hold no NUL character, and, for a rejection, the stripped notes are
    not empty: notes of blanks only do not count as a reason, and an
    approval needs no notes. *)
Theorem decision_form_valid_iff (p : ApprovalPost) :
  let n := PyStr.strip (or_empty (post_notes p)) in
  is_valid (ApprovalForm_clean (map_decision p)).2 = true
  <-> (post_decision p ∈ [Some "approve"; Some "APPR"]
       \/ (post_decision p ∈ [Some "reject"; Some "REJ"] /\ n <> ""))
      /\ has_nul n = false.
Proof.
  cbn zeta.
  assert (Hmap : post_decision (map_decision p) = Some "APPR"
                 <-> post_decision p ∈ [Some "approve"; Some "APPR"]).
  { unfold map_decision. rewrite !elem_of_cons, elem_of_nil.
    repeat case_bool_decide; cbn; naive_solver. }
  assert (Hmap' : post_decision (map_decision p) = Some "REJ"
                  <-> post_decision p ∈ [Some "reject"; Some "REJ"]).
  { unfold map_decision. rewrite !elem_of_cons, elem_of_nil.
    repeat case_bool_decide; cbn; naive_solver. }
  rewrite <- Hmap, <- Hmap', <- (map_decision_notes p).
  destruct (ApprovalForm_clean (map_decision p)) as [c e] eqn:Hform.
  cbn [snd]. split.
  - intros Hv.
    destruct (ApprovalForm_clean_valid _ _ _ Hform Hv)
      as (d & _ & Hd & Hn & Ht).
    split; [|done]. destruct d; [left; done|right].
    split; [done|]. intros E. rewrite E in Ht.
    specialize (Ht eq_refl). done.
  - intros [[Hd|[Hd Hn]] Hnul].
    + rewrite (ApprovalForm_clean_ok _ APPR Hd Hnul) in Hform by done.
      injection Hform as <- <-. done.
    + rewrite (ApprovalForm_clean_ok _ REJ Hd Hnul) in Hform.
      * injection Hform as <- <-. done.
      * intros _. destruct (PyStr.strip _); done.
Qed.

(** ** Cancellation and the clock *)

(** X14: the right to cancel only runs out with time: a reservation
    that can be canceled now could be canceled at any earlier moment;
    once [can_cancel] is false it stays false. *)
Theorem can_cancel_runs_out (cfg : Settings) (r : Reservation)
    (now now' : datetime) :
  now' <= now ->
  (can_cancel cfg r now = true -> can_cancel cfg r now' = true)
  /\ (can_cancel cfg r now' = false -> can_cancel cfg r now = false).
Proof.
  intros Hle.
  assert (H : can_cancel cfg r now = true -> can_cancel cfg r now' = true).
  { unfold can_cancel. repeat case_bool_decide; try done; lia. }
  split; [done|].
  intros Hf. destruct (can_cancel cfg r now); [|done].
  rewrite H in Hf; done.
Qed.

Lemma can_cancel_runs_out_witness :
  can_cancel default_settings Sample.approved_10_11
    (Sample.now - 5 * Sample.hour_us) = true.
Proof.
  refine (proj1 (can_cancel_runs_out default_settings Sample.approved_10_11
                   Sample.now (Sample.now - 5 * Sample.hour_us) _) _).
  - vm_compute. discriminate.
  - reflexivity.
Defined.

(** ** The suggested slots *)

(** X15: the form suggests as start the first slot that is not before
    the current "HH:MM", and as end the slot after it (the same slot
    when it is the last).  When every slot is before the current time
    the first slot of the day is suggested: the index stays 0, so the
    fallback to the last slot is never taken.  Only an empty grid makes
    the computation fail. *)
Theorem initial_slots_suggest (slots : list string) (now_hm : string) :
  (initial_slots slots now_hm = None <-> slots = [])
  /\ (forall a b,
        initial_slots slots now_hm = Some (a, b) ->
        exists i : nat,
          slots !! i = Some a /\ b = default a (slots !! S i)
          /\ ((PyStr.leb now_hm a = true
               /\ forall j s, (j < i)%nat -> slots !! j = Some s ->
                              PyStr.leb now_hm s = false)
              \/ (i = 0%nat
                  /\ forall s, s ∈ slots -> PyStr.leb now_hm s = false))).
Proof.
  destruct (first_not_before now_hm 0 slots) as [j|] eqn:E.
  - destruct (first_not_before_some _ _ _ _ E)
      as (n & s & -> & Hl & Hs & Hbefore).
    rewrite (initial_slots_at slots now_hm n s Hl)
      by (rewrite E; cbn; lia).
    split.
    + split; [done|]. intros ->. done.
    + intros a b [= <- <-]. exists n. split; [done|]. split; [done|].
      left. done.
  - pose proof (first_not_before_none _ _ _ E) as Hnone.
    destruct slots as [|s0 slots].
    + split; [done|]. intros a b. done.
    + rewrite (initial_slots_at (s0 :: slots) now_hm 0 s0)
        by (rewrite ?E; done).
      split.
      * split; done.
      * intros a b [= <- <-]. exists 0%nat. split; [done|].
        split; [done|]. right. done.
Qed.

(** At 10:10 the form suggests 10:30-11:00; at 23:00 it suggests
    08:30-09:00. *)
Example initial_slots_cases :
  initial_slots (grid 510 1320 30) "10:10" = Some ("10:30", "11:00")
  /\ initial_slots (grid 510 1320 30) "22:00" = Some ("22:00", "22:00")
  /\ initial_slots (grid 510 1320 30) "23:00" = Some ("08:30", "09:00").
Proof. vm_compute. done. Qed.

(** ** Appending, splitting and stripping *)

Lemma app_cons_s c s t : String c s +:+ t = String c (s +:+ t).
Proof. reflexivity. Qed.

Lemma app_assoc_s a b c : (a +:+ b) +:+ c = a +:+ (b +:+ c).
Proof.
  induction a as [|x a IH]; [done|]. rewrite !app_cons_s, IH. done.
Qed.

Lemma mem_char_app c a b :
  PyStr.mem_char c (a +:+ b) = PyStr.mem_char c a || PyStr.mem_char c b.
Proof.
  induction a as [|x a IH]; [done|]. rewrite app_cons_s. cbn.
  rewrite IH, orb_assoc. done.
Qed.

Lemma split_no_sep sep s :
  PyStr.mem_char sep s = false -> PyStr.split sep s = [s].
Proof.
  induction s as [|c s IH]; [done|]. cbn.
  intros H. apply orb_false_elim in H as [Hc Hs].
  rewrite Ascii.eqb_sym, Hc, (IH Hs). done.
Qed.

Lemma split_app sep a b :
  PyStr.mem_char sep a = false ->
  PyStr.split sep (a +:+ String sep b) = a :: PyStr.split sep b.
Proof.
  induction a as [|c a IH]; intros H.
  - change ("" +:+ String sep b) with (String sep b). cbn.
    rewrite Ascii.eqb_refl. done.
  - rewrite app_cons_s. cbn in H |- *.
    apply orb_false_elim in H as [Hc Ha].
    rewrite Ascii.eqb_sym, Hc, (IH Ha). done.
Qed.

Lemma rstrip_by_app p a b :
  PyStr.rstrip_by p b <> "" ->
  PyStr.rstrip_by p (a +:+ b) = a +:+ PyStr.rstrip_by p b.
Proof.
  intros Hb. induction a as [|c a IH]; [done|].
  rewrite !app_cons_s, rstrip_by_cons, IH.
  destruct (a +:+ PyStr.rstrip_by p b) eqn:E; [|done].
  destruct a; [|done]. done.
Qed.

Lemma rstrip_by_snoc p s c :
  p c = true -> PyStr.rstrip_by p (s +:+ String c "") = PyStr.rstrip_by p s.
Proof.
  intros Hc. induction s as [|d s IH].
  - change ("" +:+ String c "") with (String c "").
    rewrite rstrip_by_cons. cbn. rewrite Hc. done.
  - rewrite app_cons_s, !rstrip_by_cons, IH. done.
Qed.

Lemma length_lstrip_by_lt p c s :
  p c = true ->
  (String.length (PyStr.lstrip_by p (String c s)) <= String.length s)%nat.
Proof. intros H. cbn. rewrite H. apply length_lstrip_by. Qed.

(** A stripped text that is not empty starts with a character that is
    not a blank and is left alone by either half of [strip]. *)
Lemma stripped_inv s :
  s <> "" -> PyStr.strip s = s ->
  exists c t, s = String c t /\ PyStr.isspace c = false
              /\ PyStr.rstrip_by PyStr.isspace s = s.
Proof.
  intros Hne Hs. destruct s as [|c t]; [done|]. exists c, t.
  unfold PyStr.strip, PyStr.strip_by in Hs.
  destruct (PyStr.isspace c) eqn:Hc.
  - exfalso.
    pose proof (length_rstrip_by PyStr.isspace
                  (PyStr.lstrip_by PyStr.isspace (String c t))) as H1.
    pose proof (length_lstrip_by_lt PyStr.isspace c t Hc) as H2.
    rewrite Hs in H1.
    change (String.length (String c t)) with (S (String.length t)) in H1.
    lia.
  - rewrite (lstrip_by_fixed _ _ _ Hc) in Hs. done.
Qed.

Lemma strip_fixed c t :
  PyStr.isspace c = false ->
  PyStr.rstrip_by PyStr.isspace (String c t) = String c t ->
  PyStr.strip (String c t) = String c t.
Proof.
  intros Hc Hr. unfold PyStr.strip, PyStr.strip_by.
  rewrite (lstrip_by_fixed _ _ _ Hc). done.
Qed.

(** Blanks put around a clean text are stripped off again. *)
Lemma strip_padded s :
  clean s ->
  PyStr.strip (s +:+ " ") = s
  /\ PyStr.strip (" " +:+ s) = s
  /\ PyStr.strip (" " +:+ s +:+ " ") = s.
Proof.
  intros (Hne & Hs & _).
  destruct (stripped_inv s Hne Hs) as (c & t & -> & Hc & Hr).
  assert (H1 : PyStr.strip (String c t +:+ " ") = String c t).
  { unfold PyStr.strip, PyStr.strip_by. rewrite app_cons_s.
    rewrite (lstrip_by_fixed _ _ _ Hc), <- app_cons_s.
    rewrite rstrip_by_snoc by done. done. }
  split; [done|]. split; [exact Hs|exact H1].
Qed.

(** On a text without bars, stripping spaces and bars leaves what
    stripping blanks leaves. *)
Lemma rstrip_chars_fixed s :
  PyStr.mem_char "|" s = false ->
  PyStr.rstrip_by PyStr.isspace s = s ->
  PyStr.rstrip_by (fun c => PyStr.mem_char c " |") s = s.
Proof.
  induction s as [|c t IH]; [done|]. intros Hb Hr.
  cbn [PyStr.mem_char] in Hb. apply orb_false_elim in Hb as [Hc Hb].
  rewrite rstrip_by_cons in Hr. rewrite rstrip_by_cons.
  destruct (PyStr.rstrip_by PyStr.isspace t) as [|d r] eqn:E.
  - destruct (PyStr.isspace c) eqn:Hsp; [done|].
    injection Hr as <-. cbn.
    destruct (Ascii.eqb_spec c " ") as [->|_]; [done|].
    rewrite Ascii.eqb_sym, Hc. done.
  - injection Hr as Hr. rewrite IH; [|done|congruence]. rewrite <- Hr. done.
Qed.

(** ** Packing and unpacking the purpose *)

Lemma join_cons2 sep x y l :
  PyStr.join sep (x :: y :: l) = x +:+ sep +:+ PyStr.join sep (y :: l).
Proof. reflexivity. Qed.

Lemma clean_app a b :
  clean a -> PyStr.mem_char "|" a = false -> clean b ->
  forall m, PyStr.mem_char "|" m = false -> clean (a +:+ m +:+ b).
Proof.
  intros (Ha & Hsa & Hba) _ (Hb & Hsb & Hbb) m Hm.
  destruct (stripped_inv a Ha Hsa) as (c & t & -> & Hc & _).
  destruct (stripped_inv b Hb Hsb) as (d & u & -> & _ & Hrb).
  split; [done|]. split.
  - rewrite app_cons_s. apply strip_fixed; [done|].
    rewrite <- app_cons_s, <- app_assoc_s.
    rewrite rstrip_by_app by (rewrite Hrb; done).
    rewrite Hrb. done.
  - rewrite !mem_char_app, Hba, Hm, Hbb. done.
Qed.

Lemma clean_prefixed pre s :
  clean pre -> clean s ->
  forall m, PyStr.mem_char "|" m = false -> clean (pre +:+ m +:+ s).
Proof. intros Hp Hs m Hm. apply clean_app; try done. apply Hp. Qed.

Lemma clean_join rs :
  rs <> [] -> Forall clean rs -> clean (PyStr.join ", " rs).
Proof.
  induction rs as [|x [|y l] IH]; intros Hne Hall; [done| |].
  - apply Forall_cons in Hall as [Hx _]. done.
  - apply Forall_cons in Hall as [Hx Hall]. rewrite join_cons2.
    apply clean_app; [done|apply Hx|by apply IH|done].
Qed.

(** The parts of a joined list of clean texts are the texts. *)
Lemma split_join_clean ps :
  ps <> [] -> Forall clean ps ->
  map PyStr.strip (PyStr.split "|" (PyStr.join " | " ps)) = ps
  /\ map PyStr.strip (PyStr.split "|" (" " +:+ PyStr.join " | " ps)) = ps.
Proof.
  induction ps as [|x [|y l] IH]; intros Hne Hall; [done| |].
  - apply Forall_cons in Hall as [Hx _].
    destruct (strip_padded x Hx) as (_ & Hl & _).
    destruct Hx as (_ & Hs & Hb).
    change (PyStr.join " | " [x]) with x. split.
    + rewrite split_no_sep by done. cbn. rewrite Hs. done.
    + rewrite split_no_sep by (rewrite mem_char_app, Hb; done).
      cbn [map]. rewrite Hl. done.
  - apply Forall_cons in Hall as [Hx Hall].
    destruct (IH ltac:(done) Hall) as [_ IH2].
    destruct (strip_padded x Hx) as (Hr & _ & Hlr).
    destruct Hx as (_ & Hs & Hb).
    rewrite join_cons2.
    change (x +:+ " | " +:+ PyStr.join " | " (y :: l))
      with (x +:+ " " +:+ String "|" (" " +:+ PyStr.join " | " (y :: l))).
    split.
    + rewrite <- app_assoc_s.
      rewrite split_app by (rewrite mem_char_app, Hb; done).
      cbn [map]. rewrite Hr, IH2. done.
    + rewrite <- !app_assoc_s.
      rewrite split_app by (rewrite !mem_char_app, Hb; done).
      cbn [map]. rewrite app_assoc_s, Hlr, IH2. done.
Qed.

(** Joined clean texts have no space or bar to strip at the ends. *)
Lemma strip_chars_join_clean ps :
  ps <> [] -> Forall clean ps ->
  PyStr.strip_chars " |" (PyStr.join " | " ps) = PyStr.join " | " ps
  /\ PyStr.join " | " ps <> "".
Proof.
  intros Hne Hall.
  assert (Hr : PyStr.rstrip_by (fun c => PyStr.mem_char c " |")
                 (PyStr.join " | " ps) = PyStr.join " | " ps
               /\ PyStr.join " | " ps <> "").
  { induction ps as [|x [|y l] IH]; [done| |].
    - apply Forall_cons in Hall as [(Hx & Hs & Hb) _].
      destruct (stripped_inv x Hx Hs) as (c & t & -> & _ & Hrx).
      split; [|done]. apply rstrip_chars_fixed; done.
    - apply Forall_cons in Hall as [_ Hall].
      destruct (IH ltac:(done) Hall) as [IH1 IH2].
      rewrite join_cons2, <- app_assoc_s. split.
      + rewrite rstrip_by_app by (rewrite IH1; done). rewrite IH1. done.
      + rewrite app_assoc_s. destruct x; [|done].
        done. }
  destruct Hr as [Hr Hj]. split; [|done].
  destruct ps as [|x ps]; [done|].
  apply Forall_cons in Hall as [(Hx & Hs & Hb) _].
  destruct (stripped_inv x Hx Hs) as (c & t & -> & Hc & _).
  unfold PyStr.strip_chars, PyStr.strip_by.
  assert (exists u, PyStr.join " | " (String c t :: ps) = String c u)
    as [u Hu].
  { destruct ps; [eexists; reflexivity|].
    rewrite join_cons2, app_cons_s. eauto. }
  rewrite Hu in Hr |- *.
  rewrite lstrip_by_fixed; [done|].
  cbn [PyStr.mem_char] in Hb |- *.
  apply orb_false_elim in Hb as [Hb _].
  destruct (Ascii.eqb_spec c " ") as [->|_]; [done|].
  rewrite Ascii.eqb_sym, Hb. done.
Qed.

Lemma split_purpose_routed s :
  PyStr.truthy s = true ->
  split_purpose s = Some (routed (map PyStr.strip (PyStr.split "|" s))).
Proof.
  intros Hs. unfold split_purpose. rewrite Hs. cbn [negb].
  rewrite foldl_split_step. done.
Qed.

Lemma clean_recursos_head : clean "Recursos solicitados:".
Proof. split; [done|]. split; reflexivity. Qed.

Lemma clean_detalle_head : clean "Detalle recursos:".
Proof. split; [done|]. split; reflexivity. Qed.

(** The part written for the resources, and what the export reads
    from it. *)
Lemma recursos_part R :
  clean R ->
  let part := "Recursos solicitados: " +:+ R in
  clean part /\ is_recursos part = true /\ is_detalle part = false
  /\ PyStr.strip (default "" (PyStr.split1_snd ":" part)) = R.
Proof.
  intros HR. cbn zeta.
  split; [|split; [reflexivity|split; [reflexivity|]]].
  - apply (clean_app "Recursos solicitados:" R clean_recursos_head
             eq_refl HR " " eq_refl).
  - change (PyStr.split1_snd ":" ("Recursos solicitados: " +:+ R))
      with (Some (" " +:+ R)).
    apply (strip_padded R HR).
Qed.

(** The part written for the notes, and what the export reads from
    it. *)
Lemma detalle_part n :
  clean n ->
  let part := "Detalle recursos: " +:+ n in
  clean part /\ is_recursos part = false /\ is_detalle part = true
  /\ PyStr.strip (default "" (PyStr.split1_snd ":" part)) = n.
Proof.
  intros Hn. cbn zeta.
  split; [|split; [reflexivity|split; [reflexivity|]]].
  - apply (clean_app "Detalle recursos:" n clean_detalle_head
             eq_refl Hn " " eq_refl).
  - change (PyStr.split1_snd ":" ("Detalle recursos: " +:+ n))
      with (Some (" " +:+ n)).
    apply (strip_padded n Hn).
Qed.

Lemma routed_one part :
  routed [part]
  = (PyStr.strip_chars " |"
       (if is_recursos part || is_detalle part then "" else part),
     if is_recursos part
     then PyStr.strip (default "" (PyStr.split1_snd ":" part)) else "",
     if is_detalle part
     then PyStr.strip (default "" (PyStr.split1_snd ":" part)) else "").
Proof.
  unfold routed, last_value, last_value_or. rewrite !filter_cons, !filter_nil.
  destruct (is_recursos part), (is_detalle part); reflexivity.
Qed.

Lemma filter_other_cons part ps :
  filter (fun p => is_recursos p = false /\ is_detalle p = false) (part :: ps)
  = if is_recursos part || is_detalle part
    then filter (fun p => is_recursos p = false /\ is_detalle p = false) ps
    else part
         :: filter (fun p => is_recursos p = false /\ is_detalle p = false)
              ps.
Proof.
  rewrite filter_cons. destruct (is_recursos part), (is_detalle part); done.
Qed.

Lemma filter_recursos_cons part ps :
  filter (fun p => is_recursos p = true) (part :: ps)
  = if is_recursos part
    then part :: filter (fun p => is_recursos p = true) ps
    else filter (fun p => is_recursos p = true) ps.
Proof. rewrite filter_cons. destruct (is_recursos part); done. Qed.

Lemma filter_detalle_cons part ps :
  filter (fun p => is_detalle p = true) (part :: ps)
  = if is_detalle part
    then part :: filter (fun p => is_detalle p = true) ps
    else filter (fun p => is_detalle p = true) ps.
Proof. rewrite filter_cons. destruct (is_detalle part); done. Qed.

(** What the export reads from the parts of a packed purpose. *)
Lemma routed_parts (p R n : string) (hp hr hn : bool) :
  (hp = true -> clean p /\ is_recursos p = false /\ is_detalle p = false) ->
  (hr = true -> clean R) -> (hn = true -> clean n) ->
  routed ((if hp then [p] else [])
          ++ (if hr then ["Recursos solicitados: " +:+ R] else [])
          ++ (if hn then ["Detalle recursos: " +:+ n] else []))
  = (if hp then p else "", if hr then R else "", if hn then n else "").
Proof.
  intros Hp HR Hn.
  assert (Hbase : hp = true ->
                  PyStr.strip_chars " |" (PyStr.join " | " [p]) = p).
  { intros E. destruct (Hp E) as (Hc & _).
    apply (strip_chars_join_clean [p]); [done|].
    apply Forall_cons. split; [done|apply Forall_nil; done]. }
  assert (HfR : hr = true ->
                is_recursos ("Recursos solicitados: " +:+ R) = true
                /\ is_detalle ("Recursos solicitados: " +:+ R) = false
                /\ PyStr.strip
                     (default ""
                        (PyStr.split1_snd ":"
                           ("Recursos solicitados: " +:+ R))) = R).
  { intros E. apply (recursos_part R (HR E)). }
  assert (Hfn : hn = true ->
                is_recursos ("Detalle recursos: " +:+ n) = false
                /\ is_detalle ("Detalle recursos: " +:+ n) = true
                /\ PyStr.strip
                     (default ""
                        (PyStr.split1_snd ":"
                           ("Detalle recursos: " +:+ n))) = n).
  { intros E. apply (detalle_part n (Hn E)). }
  unfold routed, last_value, last_value_or.
  destruct hp, hr, hn; cbn [app];
    rewrite ?filter_other_cons, ?filter_recursos_cons, ?filter_detalle_cons,
      ?filter_nil;
    try (destruct (Hp eq_refl) as (_ & Hp1 & Hp2); rewrite ?Hp1, ?Hp2);
    try (destruct (HfR eq_refl) as (HR1 & HR2 & HR3); rewrite ?HR1, ?HR2);
    try (destruct (Hfn eq_refl) as (Hn1 & Hn2 & Hn3); rewrite ?Hn1, ?Hn2);
    cbn [orb last]; rewrite ?HR3, ?Hn3, ?Hbase by done; reflexivity.
Qed.

Lemma truthy_clean s : clean s -> PyStr.truthy s = true.
Proof. intros (Hne & _). destruct s; done. Qed.

(** A purpose that is a join of clean parts is read back as those
    parts. *)
Lemma split_purpose_join ps :
  ps <> [] -> Forall clean ps ->
  split_purpose (PyStr.join " | " ps) = Some (routed ps).
Proof.
  intros Hne Hall.
  destruct (strip_chars_join_clean ps Hne Hall) as [_ Hj].
  rewrite split_purpose_routed by (destruct (PyStr.join " | " ps); done).
  destruct (split_join_clean ps Hne Hall) as [-> _]. done.
Qed.

Lemma split_purpose_packed ps s v :
  ps <> [] -> Forall clean ps ->
  s = PyStr.join " | " ps
  \/ s = PyStr.strip_chars " |" (PyStr.join " | " ps) ->
  routed ps = v -> split_purpose s = Some v.
Proof.
  intros Hne Hall Hs <-.
  destruct (strip_chars_join_clean ps Hne Hall) as [Hfix _].
  rewrite Hfix in Hs. destruct Hs as [->| ->];
    apply split_purpose_join; done.
Qed.

(** X16: packing and unpacking the purpose is a round trip on clean
    texts: when the purpose typed in the form is empty or clean and
    does not start with either marker, the resource names are clean and
    the notes are empty or clean, the export reads back the purpose,
    the names joined by ", " and the notes from what the creation view
    stored. *)
Theorem purpose_round_trip (p : string) (rs : list string) (n : string) :
  (p = "" \/ (clean p /\ is_recursos p = false /\ is_detalle p = false)) ->
  Forall clean rs -> (n = "" \/ clean n) ->
  split_purpose (compose_purpose p rs n) = Some (p, PyStr.join ", " rs, n).
Proof.
  intros Hp Hrs Hn.
  assert (Hp' : p <> "" ->
                clean p /\ is_recursos p = false /\ is_detalle p = false)
    by (intros E; destruct Hp; done).
  assert (HR : rs <> [] -> clean (PyStr.join ", " rs))
    by (intros E; apply clean_join; done).
  assert (Hn' : n <> "" -> clean n) by (intros E; destruct Hn; done).
  clear Hp Hn.
  destruct p as [|c t], rs as [|x l], n as [|d u].
  - reflexivity.
  - apply (split_purpose_packed ["Detalle recursos: " +:+ String d u]);
      [done| |left; reflexivity
      |apply (routed_parts "" "" (String d u) false false true); auto].
    repeat (apply Forall_cons; split); try apply Forall_nil; try done.
    apply detalle_part. auto.
  - apply (split_purpose_packed
             ["Recursos solicitados: " +:+ PyStr.join ", " (x :: l)]);
      [done| |left; reflexivity
      |apply (routed_parts "" (PyStr.join ", " (x :: l)) "" false true false);
       auto].
    repeat (apply Forall_cons; split); try apply Forall_nil; try done.
    apply recursos_part. auto.
  - apply (split_purpose_packed
             ["Recursos solicitados: " +:+ PyStr.join ", " (x :: l);
              "Detalle recursos: " +:+ String d u]);
      [done| |left; reflexivity
      |apply (routed_parts "" (PyStr.join ", " (x :: l)) (String d u)
                false true true); auto].
    repeat (apply Forall_cons; split); try apply Forall_nil; try done.
    + apply recursos_part. auto.
    + apply detalle_part. auto.
  - apply (split_purpose_packed [String c t]);
      [done| |left; reflexivity
      |apply (routed_parts (String c t) "" "" true false false); auto].
    repeat (apply Forall_cons; split); try apply Forall_nil; try done.
    apply Hp'. done.
  - apply (split_purpose_packed
             [String c t; "Detalle recursos: " +:+ String d u]);
      [done| |right; reflexivity
      |apply (routed_parts (String c t) "" (String d u) true false true);
       auto].
    repeat (apply Forall_cons; split); try apply Forall_nil; try done.
    + apply Hp'. done.
    + apply detalle_part. auto.
  - apply (split_purpose_packed
             [String c t;
              "Recursos solicitados: " +:+ PyStr.join ", " (x :: l)]);
      [done| |right; reflexivity
      |apply (routed_parts (String c t) (PyStr.join ", " (x :: l)) ""
                true true false); auto].
    repeat (apply Forall_cons; split); try apply Forall_nil; try done.
    + apply Hp'. done.
    + apply recursos_part. auto.
  - apply (split_purpose_packed
             [String c t;
              "Recursos solicitados: " +:+ PyStr.join ", " (x :: l);
              "Detalle recursos: " +:+ String d u]);
      [done| |right; reflexivity
      |apply (routed_parts (String c t) (PyStr.join ", " (x :: l))
                (String d u) true true true); auto].
    repeat (apply Forall_cons; split); try apply Forall_nil; try done.
    + apply Hp'. done.
    + apply recursos_part. auto.
    + apply detalle_part. auto.
Qed.

Lemma purpose_round_trip_witness :
  split_purpose
    (compose_purpose "Charla de bienvenida" ["Proyector"; "Parlantes"]
       "Cable HDMI")
  = Some ("Charla de bienvenida", "Proyector, Parlantes", "Cable HDMI").
Proof.
  apply (purpose_round_trip "Charla de bienvenida"
           ["Proyector"; "Parlantes"] "Cable HDMI").
  - right. split; [|split; reflexivity]. split; [done|]. split; reflexivity.
  - repeat (apply Forall_cons; split); try apply Forall_nil; try done;
      (split; [done|]; split; reflexivity).
  - right. split; [done|]. split; reflexivity.
Defined.

(** ** The trace of a cancellation in the export *)

Lemma Reservation_save_purpose now s db :
  purpose (Reservation_save now s db).1 = purpose s.
Proof.
  unfold Reservation_save. destruct (pk s); [|done].
  destruct (exists_ _); done.
Qed.

Lemma cancel_by_user_purpose now r reason db :
  status r <> CANCELED -> PyStr.strip (or_empty reason) <> "" ->
  purpose (cancel_by_user now r reason db).1 = purpose r +:+ cancel_marker.
Proof.
  intros Hs Hnote. unfold cancel_by_user.
  case_bool_decide; [done|].
  pose proof (canceled_instance (PyStr.strip (or_empty reason)) r) as Hq.
  cbn zeta in Hq. destruct Hq as (_ & _ & _ & Hq).
  destruct (Reservation_save now _ db) as [q db'] eqn:E.
  cbn [fst]. replace q with (Reservation_save now
    (set_status CANCELED
       (if PyStr.truthy (PyStr.strip (or_empty reason))
        then set_purpose
               (if PyStr.truthy
                     (purpose
                        (set_cancel_reason (PyStr.strip (or_empty reason)) r))
                then purpose
                       (set_cancel_reason (PyStr.strip (or_empty reason)) r)
                     +:+ cancel_marker
                else cancel_marker)
               (set_cancel_reason (PyStr.strip (or_empty reason)) r)
        else set_cancel_reason (PyStr.strip (or_empty reason)) r)) db).1
    by (rewrite E; done).
  rewrite Reservation_save_purpose, Hq.
  destruct (PyStr.strip (or_empty reason)); done.
Qed.

(** The trace does not turn a part into a marked one, nor a marked
    part into another. *)
Lemma startswith_marked_recursos p :
  PyStr.startswith (PyStr.lower (p +:+ cancel_marker)) prefix_recursos
  = PyStr.startswith (PyStr.lower p) prefix_recursos.
Proof.
  unfold PyStr.lower.
  do 21 (destruct p as [|? p]; [reflexivity|];
         rewrite app_cons_s; cbn [PyStr.map_chars];
         unfold prefix_recursos; cbn [PyStr.startswith];
         destruct (Ascii.eqb _ _); cbn [andb]; [|reflexivity]).
  destruct p; reflexivity.
Qed.

Lemma startswith_marked_detalle p :
  PyStr.startswith (PyStr.lower (p +:+ cancel_marker)) prefix_detalle
  = PyStr.startswith (PyStr.lower p) prefix_detalle.
Proof.
  unfold PyStr.lower.
  do 17 (destruct p as [|? p]; [reflexivity|];
         rewrite app_cons_s; cbn [PyStr.map_chars];
         unfold prefix_detalle; cbn [PyStr.startswith];
         destruct (Ascii.eqb _ _); cbn [andb]; [|reflexivity]).
  destruct p; reflexivity.
Qed.

Lemma marked_routing p :
  is_recursos (p +:+ cancel_marker) = is_recursos p
  /\ is_detalle (p +:+ cancel_marker) = is_detalle p.
Proof.
  unfold is_detalle, is_recursos.
  rewrite startswith_marked_recursos, startswith_marked_detalle. done.
Qed.

Lemma clean_marked s : clean s -> clean (s +:+ cancel_marker).
Proof.
  intros Hs.
  apply (clean_app s "[Cancelada por usuario]" Hs ltac:(apply Hs)
           ltac:(split; [done|split; reflexivity]) " " eq_refl).
Qed.

Lemma join_snoc_app sep ps x m :
  PyStr.join sep (ps ++ [x]) +:+ m = PyStr.join sep (ps ++ [x +:+ m]).
Proof.
  induction ps as [|y l IH]; [done|].
  destruct l as [|z l].
  - change ([y] ++ [x]) with [y; x].
    change ([y] ++ [x +:+ m]) with [y; x +:+ m].
    rewrite !join_cons2.
    change (PyStr.join sep [x]) with x.
    change (PyStr.join sep [x +:+ m]) with (x +:+ m).
    rewrite !app_assoc_s. done.
  - change ((y :: z :: l) ++ [x]) with (y :: z :: l ++ [x]).
    change ((y :: z :: l) ++ [x +:+ m]) with (y :: z :: l ++ [x +:+ m]).
    change ((z :: l) ++ [x]) with (z :: l ++ [x]) in IH.
    change ((z :: l) ++ [x +:+ m]) with (z :: l ++ [x +:+ m]) in IH.
    rewrite !join_cons2, !app_assoc_s.
    rewrite IH. done.
Qed.

(** What [form_valid] stores, as a join of its parts. *)
Lemma compose_purpose_join p rs n :
  (p <> "" -> clean p) -> Forall clean rs -> (n <> "" -> clean n) ->
  compose_purpose p rs n
  = PyStr.join " | "
      ((if PyStr.truthy p then [p] else [])
       ++ (if exists_ rs
           then ["Recursos solicitados: " +:+ PyStr.join ", " rs] else [])
       ++ (if PyStr.truthy n then ["Detalle recursos: " +:+ n] else [])).
Proof.
  intros Hp Hrs Hn.
  assert (HR : rs <> [] -> clean (PyStr.join ", " rs))
    by (intros E; apply clean_join; done).
  destruct p as [|c t], rs as [|x l], n as [|d u]; try reflexivity.
  - apply (strip_chars_join_clean
             [String c t; "Detalle recursos: " +:+ String d u]); [done|].
    repeat (apply Forall_cons; split); try apply Forall_nil; auto.
    apply detalle_part. auto.
  - apply (strip_chars_join_clean
             [String c t;
              "Recursos solicitados: " +:+ PyStr.join ", " (x :: l)]);
      [done|].
    repeat (apply Forall_cons; split); try apply Forall_nil; auto.
    apply recursos_part. auto.
  - apply (strip_chars_join_clean
             [String c t;
              "Recursos solicitados: " +:+ PyStr.join ", " (x :: l);
              "Detalle recursos: " +:+ String d u]); [done|].
    repeat (apply Forall_cons; split); try apply Forall_nil; auto.
    + apply recursos_part. auto.
    + apply detalle_part. auto.
Qed.

Lemma split_purpose_marked pre x v :
  Forall clean (pre ++ [x +:+ cancel_marker]) ->
  routed (pre ++ [x +:+ cancel_marker]) = v ->
  split_purpose (PyStr.join " | " (pre ++ [x]) +:+ cancel_marker) = Some v.
Proof.
  intros Hall <-. rewrite join_snoc_app. apply split_purpose_join; [|done].
  destruct pre; done.
Qed.

(** X17: the trace of a cancellation with a reason ends up in the last
    column the purpose fills.  For a reservation whose purpose was
    packed by the creation view from clean texts, the export reads,
    after [cancel_by_user] with a reason that is not blank, the trace
    " [Cancelada por usuario]" at the end of the notes when there are
    notes, else at the end of the resource names when there are
    resources, else at the end of the purpose itself. *)
Theorem cancel_trace_in_export (now : datetime) (r : Reservation)
    (reason : option string) (db : DB)
    (p : string) (rs : list string) (n : string) :
  status r <> CANCELED ->
  PyStr.strip (or_empty reason) <> "" ->
  purpose r = compose_purpose p rs n ->
  (p = "" \/ (clean p /\ is_recursos p = false /\ is_detalle p = false)) ->
  Forall clean rs -> (n = "" \/ clean n) ->
  split_purpose (purpose (cancel_by_user now r reason db).1)
  = Some (if PyStr.truthy n
          then (p, PyStr.join ", " rs, n +:+ cancel_marker)
          else if exists_ rs
               then (p, PyStr.join ", " rs +:+ cancel_marker, "")
               else (PyStr.strip (p +:+ cancel_marker), "", "")).
Proof.
  intros Hs Hnote Hpur Hp Hrs Hn.
  assert (Hp' : p <> "" ->
                clean p /\ is_recursos p = false /\ is_detalle p = false)
    by (intros E; destruct Hp; done).
  assert (HR : rs <> [] -> clean (PyStr.join ", " rs))
    by (intros E; apply clean_join; done).
  assert (Hn' : n <> "" -> clean n) by (intros E; destruct Hn; done).
  rewrite cancel_by_user_purpose, Hpur by done.
  rewrite compose_purpose_join by (try done; intros E; apply Hp'; done).
  clear Hp Hn Hpur.
  destruct p as [|c t], rs as [|x l], n as [|d u].
  - reflexivity.
  - apply (split_purpose_marked [] ("Detalle recursos: " +:+ String d u)).
    + repeat (apply Forall_cons; split); try (apply Forall_nil; done).
      apply (detalle_part (String d u +:+ cancel_marker)).
      apply clean_marked. auto.
    + apply (routed_parts "" "" (String d u +:+ cancel_marker)
               false false true); try done.
      intros _. apply clean_marked. auto.
  - apply (split_purpose_marked []
             ("Recursos solicitados: " +:+ PyStr.join ", " (x :: l))).
    + repeat (apply Forall_cons; split); try (apply Forall_nil; done).
      rewrite app_assoc_s.
      apply (recursos_part (PyStr.join ", " (x :: l) +:+ cancel_marker)).
      apply clean_marked. auto.
    + rewrite app_assoc_s.
      apply (routed_parts "" (PyStr.join ", " (x :: l) +:+ cancel_marker) ""
               false true false); try done.
      intros _. apply clean_marked. auto.
  - apply (split_purpose_marked
             ["Recursos solicitados: " +:+ PyStr.join ", " (x :: l)]
             ("Detalle recursos: " +:+ String d u)).
    + repeat (apply Forall_cons; split); try (apply Forall_nil; done).
      * apply recursos_part. auto.
      * apply (detalle_part (String d u +:+ cancel_marker)).
        apply clean_marked. auto.
    + apply (routed_parts "" (PyStr.join ", " (x :: l))
               (String d u +:+ cancel_marker) false true true);
        try done; auto.
      intros _. apply clean_marked. auto.
  - destruct (Hp' ltac:(done)) as (Hc & Hr1 & Hd1).
    destruct (marked_routing (String c t)) as [Hr2 Hd2].
    pose proof (clean_marked _ Hc) as Hcm.
    replace (PyStr.strip (String c t +:+ cancel_marker))
      with (String c t +:+ cancel_marker) by (symmetry; apply Hcm).
    apply (split_purpose_marked [] (String c t)).
    + repeat (apply Forall_cons; split); try (apply Forall_nil; done). done.
    + apply (routed_parts (String c t +:+ cancel_marker) "" ""
               true false false); try done.
      intros _. rewrite Hr2, Hd2. done.
  - destruct (Hp' ltac:(done)) as (Hc & Hr1 & Hd1).
    apply (split_purpose_marked [String c t]
             ("Detalle recursos: " +:+ String d u)).
    + repeat (apply Forall_cons; split); try (apply Forall_nil; done); [done|].
      apply (detalle_part (String d u +:+ cancel_marker)).
      apply clean_marked. auto.
    + apply (routed_parts (String c t) "" (String d u +:+ cancel_marker)
               true false true); try done.
      intros _. apply clean_marked. auto.
  - destruct (Hp' ltac:(done)) as (Hc & Hr1 & Hd1).
    apply (split_purpose_marked [String c t]
             ("Recursos solicitados: " +:+ PyStr.join ", " (x :: l))).
    + repeat (apply Forall_cons; split); try (apply Forall_nil; done); [done|].
      rewrite app_assoc_s.
      apply (recursos_part (PyStr.join ", " (x :: l) +:+ cancel_marker)).
      apply clean_marked. auto.
    + rewrite app_assoc_s.
      apply (routed_parts (String c t)
               (PyStr.join ", " (x :: l) +:+ cancel_marker) ""
               true true false); try done.
      intros _. apply clean_marked. auto.
  - destruct (Hp' ltac:(done)) as (Hc & Hr1 & Hd1).
    apply (split_purpose_marked
             [String c t;
              "Recursos solicitados: " +:+ PyStr.join ", " (x :: l)]
             ("Detalle recursos: " +:+ String d u)).
    + repeat (apply Forall_cons; split); try (apply Forall_nil; done); [done| |].
      * apply recursos_part. auto.
      * apply (detalle_part (String d u +:+ cancel_marker)).
        apply clean_marked. auto.
    + apply (routed_parts (String c t) (PyStr.join ", " (x :: l))
               (String d u +:+ cancel_marker) true true true);
        try done; auto.
      intros _. apply clean_marked. auto.
Qed.

Lemma cancel_trace_in_export_witness :
  split_purpose
    (purpose
       (cancel_by_user Sample.now
          (set_purpose (compose_purpose "Ensayo" ["Proyector"] "HDMI")
             Sample.pending_11_12)
          (Some "No puedo asistir") Sample.db).1)
  = Some ("Ensayo", "Proyector", "HDMI [Cancelada por usuario]").
Proof.
  apply (cancel_trace_in_export Sample.now
           (set_purpose (compose_purpose "Ensayo" ["Proyector"] "HDMI")
              Sample.pending_11_12)
           (Some "No puedo asistir") Sample.db "Ensayo" ["Proyector"] "HDMI").
  - done.
  - vm_compute. done.
  - reflexivity.
  - right. split; [|split; reflexivity]. split; [done|]. split; reflexivity.
  - repeat (apply Forall_cons; split); try (apply Forall_nil; done).
    split; [done|]. split; reflexivity.
  - right. split; [done|]. split; reflexivity.
Defined.
